(** * Validation scripts of the BITS tutorial: a shallow embedding

    The development follows the four Python scripts of the repository:

    - [examples/validation_scripts/test_devices.py] (module [test_devices]),
    - [examples/validation_scripts/test_plans.py]   (module [test_plans]),
    - [scripts/validate_setup.py]                   (module [validate_setup]),
    - [scripts/explore_iocs.py]                     (module [explore_iocs]).

    The scripts are glue around collaborators that live outside the
    repository (ophyd devices, the bluesky run engine, the databroker
    catalog, PyEPICS).  Those collaborators are parameters of the model:
    every call into them is a function of an abstract state [HW] of the
    world outside the script, and it may return a value, raise a Python
    exception, or never return.  The scripts themselves are written in a
    state-and-exception monad over that state, with [try]/[except] as a
    combinator, so that each definition can be read next to the function
    it embeds.

    [print] only writes to the standard output, which is not part of the
    model; a format specification that can raise (such as [{pos:8.3f}]) is
    kept as an explicit step. *)

From Stdlib Require Import ZArith Floats Ascii String DecimalString.
From stdpp Require Import base strings gmap list.

Set Warnings "-inexact-float,-register-all,-clear-no-such-hyp".
Open Scope string_scope.
Open Scope list_scope.

(* ================================================================== *)
(** * Python values *)

Inductive pyval : Type :=
| PyNone
| PyBool (b : bool)
| PyInt (z : Z)
| PyFloat (f : float)
| PyStr (s : string)
| PyTuple (items : list pyval)
| PyList (items : list pyval).

(** [bool(v)] *)
Definition py_truthy (v : pyval) : bool :=
  match v with
  | PyNone => false
  | PyBool b => b
  | PyInt z => negb (z =? 0)%Z
  | PyFloat f => negb (PrimFloat.eqb f 0%float)
  | PyStr s => negb (String.eqb s "")
  | PyTuple items | PyList items => negb (Nat.eqb (length items) 0)
  end.

(** [a or b] *)
Definition py_or (a b : pyval) : pyval := if py_truthy a then a else b.

(** Python exceptions derived from [Exception], the ones that
    [except Exception] catches: the class (as far as an [except] clause of
    the scripts tells classes apart) and [str(e)]. *)
Inductive exn_class : Type :=
| ImportError | AttributeError | TypeError | ValueError | OverflowError
| OtherException.

Record exn : Type := Exn { exn_cls : exn_class; exn_str : string }.

(** The exceptions that are not derived from [Exception]:
    [except Exception] and [except ImportError] let them through, a bare
    [except:] catches them, and [finally] runs before they go on.
    [sys.exit(code)] raises [SystemExit(code)]. *)
Inductive base_exception : Type :=
| SystemExit (code : Z)
| KeyboardInterrupt.

Definition is_ImportError (e : exn) : bool :=
  match exn_cls e with ImportError => true | _ => false end.

(** Result of an expression that does not change the state: a value, an
    exception, or no result at all (the call never returns). *)
Inductive res (A : Type) : Type :=
| Val (a : A)
| Exc (e : exn)
| Blocked.
Arguments Val {A} a.
Arguments Exc {A} e.
Arguments Blocked {A}.

(** [float(z)] for a Python int: exact up to rounding to nearest, and
    [OverflowError] when the int is too large for a binary64. *)
Definition float_of_int (z : Z) : res float :=
  match binary_normalize prec emax z 0 false with
  | S754_infinity _ =>
      Exc (Exn OverflowError "int too large to convert to float")
  | sf => Val (SF2Prim sf)
  end.

(** The value as the float that [v + 0.1] and [format(v, '.3f')] work on. *)
Definition as_float (v : pyval) : res float :=
  match v with
  | PyFloat f => Val f
  | PyInt z => float_of_int z
  | PyBool b => Val (if b then 1%float else 0%float)
  | PyNone =>
      Exc (Exn TypeError "unsupported operand or format for NoneType")
  | PyStr _ =>
      Exc (Exn ValueError "Unknown format code 'f' for object of type 'str'")
  | PyTuple _ =>
      Exc (Exn TypeError "unsupported format string passed to tuple.__format__")
  | PyList _ =>
      Exc (Exn TypeError "unsupported format string passed to list.__format__")
  end.

(** [f"{v:.3f}"] and [f"{v:8.3f}"]: only whether the formatting raises
    matters, the text goes to the standard output. *)
Definition format_f (v : pyval) : res unit :=
  match as_float v with
  | Val _ => Val tt
  | Exc e => Exc e
  | Blocked => Blocked
  end.

(** [v + d] for a float [d]. *)
Definition py_add_float (v : pyval) (d : float) : res pyval :=
  match v with
  | PyStr _ =>
      Exc (Exn TypeError "can only concatenate str (not 'float') to str")
  | _ =>
      match as_float v with
      | Val f => Val (PyFloat (f + d)%float)
      | Exc e => Exc e
      | Blocked => Blocked
      end
  end.

(** [time.sleep(secs)] for a float: the call lets time pass, and only
    whether it raises matters.  It raises [ValueError] for NaN,
    [OverflowError] when the length in nanoseconds is outside the range of
    a signed 64-bit integer, and [ValueError] for a negative length. *)
Definition py_sleep (secs : float) : res unit :=
  if PrimFloat.is_nan secs then
    Exc (Exn ValueError "Invalid value NaN (not a number)")
  else
    let ns := (secs * 1e9)%float in
    if negb (PrimFloat.leb (-9223372036854775808)%float ns &&
             PrimFloat.ltb ns 9223372036854775808%float) then
      Exc (Exn OverflowError "timestamp too large to convert to C _PyTime_t")
    else if PrimFloat.ltb secs 0%float then
      Exc (Exn ValueError "sleep length must be non-negative")
    else Val tt.

(** [str(i)] for a loop index. *)
Definition str_of_nat (i : nat) : string :=
  NilZero.string_of_uint (Nat.to_uint i).

(** [sub in s] for two strings. *)
Definition py_in (sub s : string) : bool :=
  if String.index 0 sub s is Some _ then true else false.

(** [s.startswith(p)] *)
Definition py_startswith (s p : string) : bool := String.prefix p s.

(* ================================================================== *)
(** * The monad of the scripts: state, exceptions, calls that block

    A call returns, raises an exception derived from [Exception]
    ([Raise]), raises one that is not ([Leave]: [SystemExit],
    [KeyboardInterrupt]), or never returns ([Hang]).  Reads of device
    attributes and of PVs ([res]) are taken not to leave the interpreter;
    calls that run code of the instrument package or of the engine
    (executing or importing the startup module, importing a package,
    running a plan, writing a PV) may. *)

Inductive outcome (S A : Type) : Type :=
| Return (a : A) (s : S)
| Raise (e : exn) (s : S)
| Leave (b : base_exception) (s : S)
| Hang.
Arguments Return {S A} a s.
Arguments Raise {S A} e s.
Arguments Leave {S A} b s.
Arguments Hang {S A}.

Definition M (S A : Type) : Type := S → outcome S A.

Global Instance M_ret {S} : MRet (M S) := λ A a s, Return a s.

Global Instance M_bind {S} : MBind (M S) := λ A B f m s,
  match m s with
  | Return a s' => f a s'
  | Raise e s' => Raise e s'
  | Leave b s' => Leave b s'
  | Hang => Hang
  end.

(** [raise e] *)
Definition raise {S A} (e : exn) : M S A := λ s, Raise e s.

(** [sys.exit(code)] *)
Definition sys_exit {S A} (code : Z) : M S A := λ s, Leave (SystemExit code) s.

(** Looking at the state, and changing it. *)
Definition gets {S A} (f : S → A) : M S A := λ s, Return (f s) s.
Definition modify {S} (f : S → S) : M S unit := λ s, Return tt (f s).

(** A call that reads the world without changing it. *)
Definition lift {S A} (r : S → res A) : M S A := λ s,
  match r s with
  | Val a => Return a s
  | Exc e => Raise e s
  | Blocked => Hang
  end.

(** An expression of the script itself (formatting, arithmetic). *)
Definition eval {S A} (r : res A) : M S A := lift (λ _, r).

(** [try: body  except Exception as e: handler e].  [SystemExit] and
    [KeyboardInterrupt] are not caught. *)
Definition try_except {S A} (body : M S A) (handler : exn → M S A) : M S A :=
  λ s,
  match body s with
  | Return a s' => Return a s'
  | Raise e s' => handler e s'
  | Leave b s' => Leave b s'
  | Hang => Hang
  end.

(** [try: body  except: handler], the bare [except], which catches every
    exception. *)
Definition try_except_bare {S A} (body handler : M S A) : M S A :=
  λ s,
  match body s with
  | Return a s' => Return a s'
  | Raise _ s' => handler s'
  | Leave _ s' => handler s'
  | Hang => Hang
  end.

(** [try: body  except ImportError: handler] *)
Definition try_except_ImportError {S A} (body handler : M S A) : M S A :=
  λ s,
  match body s with
  | Return a s' => Return a s'
  | Raise e s' => if is_ImportError e then handler s' else Raise e s'
  | Leave b s' => Leave b s'
  | Hang => Hang
  end.

(** [try: body  finally: cleanup] *)
Definition try_finally {S A} (body : M S A) (cleanup : M S unit) : M S A :=
  λ s,
  match body s with
  | Return a s' =>
      match cleanup s' with
      | Return _ s'' => Return a s''
      | Raise e s'' => Raise e s''
      | Leave b s'' => Leave b s''
      | Hang => Hang
      end
  | Raise e s' =>
      match cleanup s' with
      | Return _ s'' => Raise e s''
      | Raise e' s'' => Raise e' s''
      | Leave b s'' => Leave b s''
      | Hang => Hang
      end
  | Leave b s' =>
      match cleanup s' with
      | Return _ s'' => Leave b s''
      | Raise e' s'' => Raise e' s''
      | Leave b' s'' => Leave b' s''
      | Hang => Hang
      end
  | Hang => Hang
  end.

(** [for x in xs: acc = body acc x] *)
Fixpoint for_each {S A B} (body : B → A → M S B) (acc : B) (xs : list A)
  : M S B :=
  match xs with
  | [] => mret acc
  | x :: xs' => acc' ← body acc x; for_each body acc' xs'
  end.

(* ================================================================== *)
(** * The test loop shared by the three [main] functions

    [test_devices.main], [test_plans.main] and
    [validate_setup.generate_summary_report] run a list of named test
    functions with the same loop and tally the results the same way. *)

Section runner.
Context {S : Type}.

(** One pass of
<<
  for test_name, test_func in tests:
      try:
          success = test_func()
          results.append((test_name, success))
      except Exception as e:
          results.append((test_name, False))
>> *)
Definition run_test (results : list (string * bool))
    (test : string * M S bool) : M S (list (string * bool)) :=
  let '(test_name, test_func) := test in
  try_except
    (success ← test_func;
     mret (results ++ [(test_name, success)]))
    (λ e, mret (results ++ [(test_name, false)])).

Definition run_tests (tests : list (string * M S bool))
  : M S (list (string * bool)) :=
  for_each run_test [] tests.

(** [passed = 0; for test_name, success in results: if success: passed += 1] *)
Definition count_passed (results : list (string * bool)) : nat :=
  fold_left (λ passed (r : string * bool), if r.2 then passed + 1 else passed)
    results 0.

(** [passed == len(results)] *)
Definition all_passed (results : list (string * bool)) : bool :=
  Nat.eqb (count_passed results) (length results).

(** [return 0] / [return 1], [sys.exit(0)] / [sys.exit(1)] *)
Definition exit_code (results : list (string * bool)) : Z :=
  if all_passed results then 0%Z else 1%Z.
End runner.

(* ================================================================== *)
(** * The bluesky and ophyd collaborators

    Devices, plans, the run engine and the catalog are objects of
    libraries outside the repository.  The scripts only read attributes
    of devices, hand plans to the engine and count the runs of the
    catalog; what those calls answer is a parameter. *)

Module bluesky.
Section interface.
Context {HW : Type}.

(** An ophyd device as the scripts use it.  [channels] and
    [cam_array_size] are [None] when [hasattr(det, 'channels')],
    respectively [hasattr(det, 'cam')], is false; [cam_array_size] stands
    for [det.cam.array_size.get()]. *)
Record device : Type := Device {
  name : string;
  position : HW → res pyval;
  limits : HW → res pyval;
  connected : HW → res pyval;
  get : HW → res pyval;
  channels : option (HW → res pyval);
  cam_array_size : option (HW → res pyval);
}.

(** The plans the scripts build: [bps.mvr], [bp.count], [bp.rel_scan]
    and the plans of the instrument's [custom_plans] module.
    Building a plan only creates a generator; nothing runs before the
    engine is called on it. *)
Inductive plan : Type :=
| mvr (obj : device) (delta : float)
| count (detectors : list device) (num : nat)
| rel_scan (detectors : list device) (motor : device)
    (start stop : float) (num : nat)
| custom_plan (plan_name : string) (motors detectors : list device)
    (kwargs : list (string * pyval)).

(** [RE(plan)]: blocks until the plan has run; it changes the world and
    returns, raises, or does not return. *)
Definition engine : Type := plan → HW → outcome HW unit.

(** A run of the catalog: [run.metadata['start']['scan_id']] and
    [list(run.primary.read().data_vars.keys())]. *)
Record run : Type := Run {
  scan_id : HW → res pyval;
  data_vars : HW → res pyval;
}.

(** The catalog: [len(list(cat))] and [cat[-1]]. *)
Record catalog : Type := Catalog {
  runs : HW → res nat;
  latest : HW → res run;
}.

(** [list(registry.get(label, []))], the lookup every script uses to
    find the devices of a label in [bpp._devices_by_label]. *)
Definition discover (registry : gmap string (list device)) (label : string)
  : res (list device) :=
  Val (default [] (registry !! label)).
End interface.
Arguments device : clear implicits.
Arguments plan : clear implicits.
Arguments engine : clear implicits.
Arguments run : clear implicits.
Arguments catalog : clear implicits.
End bluesky.

(* ================================================================== *)
(** * examples/validation_scripts/test_devices.py *)

Module test_devices.
Import bluesky.
Section model.
Context {HW : Type}.

(** What the script finds around it: the effect of
    [exec("from my_beamline.startup import *", globals())], the globals
    [RE] and [cat] afterwards ([None] when [globals().get] gives a false
    value; an engine or a catalog that is there counts as true), and
    [bpp._devices_by_label] (reading it fails when bluesky is not there). *)
Record instrument : Type := Instrument {
  exec_startup : HW → outcome HW unit;
  globals_RE : HW → option (engine HW);
  globals_cat : HW → option (catalog HW);
  devices_by_label : HW → res (gmap string (list (device HW)));
}.

Context (inst : instrument).

(** [list(bpp._devices_by_label.get(label, []))] *)
Definition by_label (label : string) : M HW (list (device HW)) :=
  registry ← lift (devices_by_label inst);
  eval (discover registry label).

(** A result dictionary of the connectivity test:
    [{'connected': ..., ..., 'status': '✅' if connected else '❌'}] *)
Definition status_of (connected : pyval) : pyval :=
  PyStr (if py_truthy connected then "✅" else "❌").

(** [{'status': '❌', 'error': str(e)}] *)
Definition error_entry (e : exn) : gmap string pyval :=
  <["status" := PyStr "❌"]> (<["error" := PyStr (exn_str e)]> ∅).

(** Body of the loop over the motors (lines 33-55).  The dictionary
    [motor_results] is threaded through; when the [print] raises after
    the assignment, the handler overwrites the same key. *)
Definition probe_motor (motor_results : gmap string (gmap string pyval))
    (motor : device HW) : M HW (gmap string (gmap string pyval)) :=
  try_except
    (pos ← lift (position motor);
     limits ← lift (limits motor);
     connected ← lift (connected motor);
     let motor_results :=
       <[name motor :=
           <["connected" := connected]> (<["position" := pos]>
           (<["limits" := limits]> (<["status" := status_of connected]> ∅)))]>
         motor_results in
     eval (format_f pos);;
     mret motor_results)
    (λ e, mret (<[name motor := error_entry e]> motor_results)).

(** Body of the loop over the detectors (lines 62-92). *)
Definition probe_detector (detector_results : gmap string (gmap string pyval))
    (det : device HW) : M HW (gmap string (gmap string pyval)) :=
  try_except
    (connected ← lift (connected det);
     let detector_results :=
       <[name det :=
           <["connected" := connected]> (<["status" := status_of connected]> ∅)]>
         detector_results in
     match channels det, cam_array_size det with
     | Some channels, _ =>
         lift channels;; mret detector_results
     | None, Some array_size =>
         try_except_bare (lift array_size;; mret tt) (mret tt);;
         mret detector_results
     | None, None => mret detector_results
     end)
    (λ e, mret (<[name det := error_entry e]> detector_results)).

(** Body of the loop over the baseline devices (lines 99-115). *)
Definition probe_baseline (baseline_results : gmap string (gmap string pyval))
    (dev : device HW) : M HW (gmap string (gmap string pyval)) :=
  try_except
    (value ← lift (get dev);
     connected ← lift (connected dev);
     mret (<[name dev :=
               <["connected" := connected]> (<["value" := value]>
               (<["status" := status_of connected]> ∅))]>
             baseline_results))
    (λ e, mret (<[name dev := error_entry e]> baseline_results)).

(** [r.get('connected', False)] *)
Definition get_connected (r : gmap string pyval) : pyval :=
  default (PyBool false) (r !! "connected").

(** [sum(1 for r in results.values() if r.get('connected', False))] *)
Definition count_connected (results : gmap string (gmap string pyval)) : nat :=
  length (List.filter (λ r, py_truthy (get_connected r))
            (map_to_list results).*2).

(** The three loops and the summary (lines 28-140), with the numbers the
    summary prints: per label the pair connected/total. *)
Record summary : Type := Summary {
  motor_results : gmap string (gmap string pyval);
  connected_motors : nat;
  total_motors : nat;
  detector_results : gmap string (gmap string pyval);
  connected_detectors : nat;
  total_detectors : nat;
  baseline_results : gmap string (gmap string pyval);
  connected_baseline : nat;
  total_baseline : nat;
}.

Definition connectivity_summary : M HW summary :=
  motors ← by_label "motors";
  motor_results ← for_each probe_motor ∅ motors;
  detectors ← by_label "detectors";
  detector_results ← for_each probe_detector ∅ detectors;
  baseline ← by_label "baseline";
  baseline_results ← for_each probe_baseline ∅ baseline;
  mret {| motor_results := motor_results;
          connected_motors := count_connected motor_results;
          total_motors := length motors;
          detector_results := detector_results;
          connected_detectors := count_connected detector_results;
          total_detectors := length detectors;
          baseline_results := baseline_results;
          connected_baseline := count_connected baseline_results;
          total_baseline := length baseline |}.

Definition total_devices (r : summary) : nat :=
  total_motors r + total_detectors r + total_baseline r.

Definition connected_devices (r : summary) : nat :=
  connected_motors r + connected_detectors r + connected_baseline r.

Definition test_device_connectivity : M HW bool :=
  try_except
    (exec_startup inst;;
     r ← connectivity_summary;
     if Nat.eqb (connected_devices r) (total_devices r)
     then mret true
     else mret false)
    (λ e, mret false).

Definition move_amount : float := 0.1%float.

(** The motor motion block (lines 171-192). *)
Definition motor_motion (RE : engine HW) (test_motor : device HW) : M HW unit :=
  try_except
    (initial_pos ← lift (position test_motor);
     eval (format_f initial_pos);;
     RE (mvr test_motor move_amount);;
     new_pos ← lift (position test_motor);
     eval (format_f new_pos);;
     RE (mvr test_motor (- move_amount)%float);;
     final_pos ← lift (position test_motor);
     eval (format_f final_pos);;
     mret tt)
    (λ e, mret tt).

(** The detector counting block (lines 200-206). *)
Definition detector_counting (RE : engine HW) (test_detector : device HW)
  : M HW unit :=
  try_except (RE (count [test_detector] 1)) (λ e, mret tt).

Definition test_device_operations : M HW bool :=
  try_except
    (exec_startup inst;;
     RE ← gets (globals_RE inst);
     match RE with
     | None => mret false
     | Some RE =>
         motors ← by_label "motors";
         match motors with
         | test_motor :: _ => motor_motion RE test_motor
         | [] => mret tt
         end;;
         detectors ← by_label "detectors";
         match detectors with
         | test_detector :: _ => detector_counting RE test_detector
         | [] => mret tt
         end;;
         mret true
     end)
    (λ e, mret false).

Definition test_data_collection : M HW bool :=
  try_except
    (exec_startup inst;;
     RE ← gets (globals_RE inst);
     cat ← gets (globals_cat inst);
     match RE, cat with
     | Some RE, Some cat =>
         motors ← by_label "motors";
         detectors ← by_label "detectors";
         match motors, detectors with
         | test_motor :: _, test_detector :: _ =>
             initial_runs ← lift (runs cat);
             RE (rel_scan [test_detector] test_motor (-0.2)%float 0.2%float 5);;
             final_runs ← lift (runs cat);
             let new_runs := (Z.of_nat final_runs - Z.of_nat initial_runs)%Z in
             if (0 <? new_runs)%Z then
               latest_run ← lift (latest cat);
               lift (scan_id latest_run);;
               lift (data_vars latest_run);;
               mret true
             else mret false
         | _, _ => mret false
         end
     | _, _ => mret false
     end)
    (λ e, mret false).

Definition tests : list (string * M HW bool) :=
  [("Device Connectivity", test_device_connectivity);
   ("Device Operations", test_device_operations);
   ("Data Collection", test_data_collection)].

(** [main()]; its value is the argument of [sys.exit]. *)
Definition main : M HW Z :=
  results ← run_tests tests;
  mret (exit_code results).

(** [if __name__ == "__main__": sys.exit(main())] *)
Definition script : M HW Empty_set :=
  code ← main;
  sys_exit code.
End model.
Arguments instrument : clear implicits.
End test_devices.

(* ================================================================== *)
(** * examples/validation_scripts/test_plans.py

    [test_plan_simulation] and [test_plan_execution] are embedded;
    [test_built_in_plans] starts with the same discovery and the same
    guard. *)

Module test_plans.
Import bluesky.
Section model.
Context {HW : Type}.

(** The module [<name>.startup]: its [__name__], and its attribute [RE]
    ([None] when the module has no such attribute). *)
Record startup_module : Type := StartupModule {
  module_name : string;
  module_RE : option (engine HW);
}.

(** The module [<package>.plans.custom_plans]: which plan functions it
    defines. *)
Record plans_module : Type := PlansModule {
  has_plan : string → bool;
}.

(** [importlib.import_module] for the two kinds of module, the device
    registry, and the attribute [simulate_mode] of the engine object
    ([None] when the attribute is not set). *)
Record instrument : Type := Instrument {
  import_startup : string → HW → outcome HW startup_module;
  import_custom_plans : string → HW → outcome HW plans_module;
  devices_by_label : HW → res (gmap string (list (device HW)));
  simulate_mode : HW → option pyval;
  set_simulate_mode : pyval → HW → HW;
}.

Context (inst : instrument).

Definition instrument_names : list string :=
  ["my_beamline"; "my_instrument"; "demo_instrument"].

(** The loop of lines 23-29: the first name whose startup module imports;
    an [ImportError] moves on to the next name, any other exception
    leaves the loop. *)
Fixpoint find_startup (names : list string) : M HW (option startup_module) :=
  match names with
  | [] => mret None
  | name :: names' =>
      try_except_ImportError
        (startup ← import_startup inst (name +:+ ".startup");
         mret (Some startup))
        (find_startup names')
  end.

(** [getattr(module, attr)] *)
Definition getattr_RE (startup : startup_module) : M HW (engine HW) :=
  match module_RE startup with
  | Some RE => mret RE
  | None => raise (Exn AttributeError "module has no attribute 'RE'")
  end.

(** [plans_module.<plan_name>] *)
Definition getattr_plan (plans : plans_module) (plan_name : string)
  : M HW unit :=
  if has_plan plans plan_name then mret tt
  else raise (Exn AttributeError ("module has no attribute '" +:+ plan_name +:+ "'")).

Definition by_label (label : string) : M HW (list (device HW)) :=
  registry ← lift (devices_by_label inst);
  eval (discover registry label).

(** [s.split('.')[0]] *)
Fixpoint before_dot (s : string) : string :=
  match s with
  | EmptyString => EmptyString
  | String c s' =>
      if Ascii.eqb c "."%char then EmptyString else String c (before_dot s')
  end.

(** The loop of lines 78-85. *)
Definition run_plan (RE : engine HW) (successful_plans : nat) (p : plan HW)
  : M HW nat :=
  try_except (RE p;; mret (successful_plans + 1)) (λ e, mret successful_plans).

(** Lines 53-95, inside [try ... except ImportError ... finally]. *)
Definition simulate_plans (startup : startup_module) (RE : engine HW)
    (motors detectors : list (device HW)) : M HW bool :=
  match motors, detectors with
  | motor0 :: _, detector0 :: _ =>
      plans ← import_custom_plans inst
                (before_dot (module_name startup) +:+ ".plans.custom_plans");
      getattr_plan plans "motor_characterization";;
      getattr_plan plans "quick_scan";;
      getattr_plan plans "detector_optimization";;
      let plans_to_test :=
        [custom_plan "motor_characterization" [motor0] [detector0]
           [("num_points", PyInt 5)];
         custom_plan "quick_scan" [motor0] [detector0]
           [("range_pm", PyFloat 0.5); ("points", PyInt 5)];
         custom_plan "detector_optimization" [motor0] [detector0]
           [("initial_range", PyFloat 1.0); ("refinement_cycles", PyInt 1)]] in
      plans_to_test ←
        (if Nat.leb 2 (length motors) then
           getattr_plan plans "sample_alignment";;
           mret (plans_to_test ++
                   [custom_plan "sample_alignment" (take 2 motors) [detector0]
                      [("scan_range", PyFloat 1.0); ("step_size", PyFloat 0.2)]])
         else mret plans_to_test);
      successful_plans ← for_each (run_plan RE) 0 plans_to_test;
      mret (Nat.eqb successful_plans (length plans_to_test))
  | _, _ => mret false
  end.

Definition test_plan_simulation : M HW bool :=
  try_except
    (startup_module ← find_startup instrument_names;
     match startup_module with
     | None => mret false
     | Some startup =>
         RE ← getattr_RE startup;
         motors ← by_label "motors";
         detectors ← by_label "detectors";
         match motors, detectors with
         | _ :: _, _ :: _ =>
             original_mode ←
               gets (λ s, default (PyBool false) (simulate_mode inst s));
             modify (set_simulate_mode inst (PyBool true));;
             try_finally
               (try_except_ImportError
                  (simulate_plans startup RE motors detectors)
                  (mret false))
               (modify (set_simulate_mode inst original_mode))
         | _, _ => mret false
         end
     end)
    (λ e, mret false).

(** The connectivity test of [test_plan_execution] (lines 137-150): true
    when the function goes on, false when it returns [False]. *)
Definition devices_respond (motor detector : device HW) : M HW bool :=
  try_except
    (motor_pos ← lift (position motor);
     detector_connected ← lift (connected detector);
     if negb (py_truthy detector_connected) then mret false
     else eval (format_f motor_pos);; mret true)
    (λ e, mret false).

(** The loop of lines 167-183; [time.sleep(1)] only lets time pass. *)
Definition run_safe_test (RE : engine HW) (motor : device HW)
    (successful_tests : nat) (p : plan HW) : M HW nat :=
  try_except
    (initial_pos ← lift (position motor);
     RE p;;
     final_pos ← lift (position motor);
     eval (format_f initial_pos);;
     eval (format_f final_pos);;
     mret (successful_tests + 1))
    (λ e, mret successful_tests).

(** Lines 152-186, inside [try ... except ImportError]. *)
Definition execute_plans (startup : startup_module) (RE : engine HW)
    (motor detector : device HW) : M HW bool :=
  plans ← import_custom_plans inst
            (before_dot (module_name startup) +:+ ".plans.custom_plans");
  getattr_plan plans "quick_scan";;
  getattr_plan plans "motor_characterization";;
  let safe_tests :=
    [custom_plan "quick_scan" [motor] [detector]
       [("range_pm", PyFloat 0.1); ("points", PyInt 5)];
     custom_plan "motor_characterization" [motor] [detector]
       [("range_fraction", PyFloat 0.05); ("num_points", PyInt 5)]] in
  successful_tests ← for_each (run_safe_test RE motor) 0 safe_tests;
  mret (Nat.eqb successful_tests (length safe_tests)).

Definition test_plan_execution : M HW bool :=
  try_except
    (startup_module ← find_startup instrument_names;
     match startup_module with
     | None => mret false
     | Some startup =>
         RE ← getattr_RE startup;
         motors ← by_label "motors";
         detectors ← by_label "detectors";
         match motors, detectors with
         | motor :: _, detector :: _ =>
             ok ← devices_respond motor detector;
             if ok : bool then
               try_except_ImportError
                 (execute_plans startup RE motor detector)
                 (mret false)
             else mret false
         | _, _ => mret false
         end
     end)
    (λ e, mret false).
End model.
Arguments startup_module : clear implicits.
Arguments instrument : clear implicits.
End test_plans.

(* ================================================================== *)
(** * scripts/validate_setup.py

    The seven checks of the script are thin wrappers around [podman],
    [importlib] and the instrument; the summary report only needs what
    each of them answers, so they are parameters here. *)

Module validate_setup.
Section model.
Context {S : Type}.
Context (check_ioc_containers check_python_environment
         check_instrument_package test_epics_connectivity
         test_instrument_loading test_device_functionality
         test_data_collection : M S bool).

Definition tests : list (string * M S bool) :=
  [("IOC Containers", check_ioc_containers);
   ("Python Environment", check_python_environment);
   ("Instrument Package", check_instrument_package);
   ("EPICS Connectivity", test_epics_connectivity);
   ("Instrument Loading", test_instrument_loading);
   ("Device Functionality", test_device_functionality);
   ("Data Collection", test_data_collection)].

(** [return passed == len(results)] *)
Definition generate_summary_report : M S bool :=
  results ← run_tests tests;
  mret (all_passed results).

(** [sys.exit(0)] when the report succeeds, [sys.exit(1)] otherwise. *)
Definition main : M S Empty_set :=
  success ← generate_summary_report;
  if success : bool then sys_exit 0 else sys_exit 1.
End model.
End validate_setup.

(* ================================================================== *)
(** * scripts/explore_iocs.py: class [IOCExplorer] *)

Module explore_iocs.
Section model.
Context {HW : Type}.

(** The [epics] module of PyEPICS.  A PV object is identified by its PV
    name.  Creating a PV, waiting for its connection and reading it do
    not change the IOC; [put] does. *)
Record epics : Type := Epics {
  PV : string → HW → res unit;
  wait_for_connection : string → float → HW → res bool;
  get : string → HW → res pyval;
  put : string → pyval → HW → outcome HW unit;
}.

(** The calls made into PyEPICS, in the order they are made. *)
Inductive call : Type :=
| NewPV (pvname : string)
| WaitForConnection (pvname : string) (timeout : float)
| Get (pvname : string)
| Put (pvname : string) (value : pyval).

Record state : Type := State { hw : HW; calls : list call }.

Definition logged (c : call) (s : state) : state :=
  {| hw := hw s; calls := calls s ++ [c] |}.

Definition reading {A} (c : call) (r : HW → res A) : M state A :=
  lift (λ s, r (hw s)) ∘ logged c.

(** [EPICS_AVAILABLE]: [None] when [import epics] failed. *)
Context (epics_module : option epics).

Definition new_PV (ep : epics) (pvname : string) : M state unit :=
  reading (NewPV pvname) (PV ep pvname).

Definition pv_wait_for_connection (ep : epics) (pvname : string)
    (timeout : float) : M state bool :=
  reading (WaitForConnection pvname timeout)
    (wait_for_connection ep pvname timeout).

Definition pv_get (ep : epics) (pvname : string) : M state pyval :=
  reading (Get pvname) (get ep pvname).

Definition pv_put (ep : epics) (pvname : string) (value : pyval)
  : M state unit :=
  λ s,
  match put ep pvname value (hw s) with
  | Return _ hw' =>
      Return tt {| hw := hw'; calls := calls s ++ [Put pvname value] |}
  | Raise e hw' =>
      Raise e {| hw := hw'; calls := calls s ++ [Put pvname value] |}
  | Leave b hw' =>
      Leave b {| hw := hw'; calls := calls s ++ [Put pvname value] |}
  | Hang => Hang
  end.

(** [self.timeout = 5.0] *)
Definition timeout : float := 5.0%float.

Definition test_pvs : list string := ["gp:m1.DESC"; "adsim:cam1:Acquire"].

(** Body of the loop of lines 62-71. *)
Definition check_pv (ep : epics) (connected : nat) (pv_name : string)
  : M state nat :=
  try_except
    (new_PV ep pv_name;;
     ok ← pv_wait_for_connection ep pv_name timeout;
     if ok : bool then pv_get ep pv_name;; mret (connected + 1)
     else mret connected)
    (λ e, mret connected).

Definition test_connectivity : M state bool :=
  match epics_module with
  | None => mret false
  | Some ep =>
      connected ← for_each (check_pv ep) 0 test_pvs;
      mret (Nat.eqb connected (length test_pvs))
  end.

(** [{'pv': pv_base, 'description': ..., 'type': 'EpicsMotor'}] *)
Definition motor_entry (pv_base : string) (description : pyval)
  : gmap string pyval :=
  list_to_map [("pv", PyStr pv_base); ("description", description);
               ("type", PyStr "EpicsMotor")].

(** Body of the loop of lines 86-107. *)
Definition find_motor (motors : list (gmap string pyval)) (i : nat)
  : M state (list (gmap string pyval)) :=
  let pv_base := "gp:m" +:+ str_of_nat i in
  match epics_module with
  | Some ep =>
      try_except_bare
        (new_PV ep (pv_base +:+ ".DESC");;
         ok ← pv_wait_for_connection ep (pv_base +:+ ".DESC") 1.0;
         if ok : bool then
           desc ← pv_get ep (pv_base +:+ ".DESC");
           mret (motors ++
                   [motor_entry pv_base
                      (py_or desc (PyStr ("Motor " +:+ str_of_nat i)))])
         else mret motors)
        (mret motors)
  | None =>
      mret (motors ++
              [motor_entry pv_base (PyStr ("Motor " +:+ str_of_nat i))])
  end.

(** [range(1, 21)] is [seq 1 20]. *)
Definition find_motors : M state (list (gmap string pyval)) :=
  for_each find_motor [] (seq 1 20).

Definition scaler_entry (i : nat) : gmap string pyval :=
  list_to_map [("pv", PyStr ("gp:scaler" +:+ str_of_nat i));
               ("description", PyStr ("Scaler " +:+ str_of_nat i));
               ("type", PyStr "ScalerCH");
               ("channels", PyInt 32)].

Definition area_detector_entry : gmap string pyval :=
  list_to_map [("pv", PyStr "adsim:");
               ("description", PyStr "Simulated Area Detector");
               ("type", PyStr "ADBSoftDetector");
               ("dimensions", PyList [PyInt 1024; PyInt 1024])].

(** [d[key].append(x)] *)
Definition append_to (key : string) (x : gmap string pyval)
    (d : gmap string (list (gmap string pyval)))
  : gmap string (list (gmap string pyval)) :=
  alter (λ l, l ++ [x]) key d.

Definition find_detectors : M state (gmap string (list (gmap string pyval))) :=
  let detectors := <["scalers" := []]> (<["area_detectors" := []]> ∅) in
  let detectors :=
    fold_left (λ detectors i, append_to "scalers" (scaler_entry i) detectors)
      (seq 1 3) detectors in
  let detectors := append_to "area_detectors" area_detector_entry detectors in
  mret detectors.

Definition test_device_motion (motor_pv : string) (relative_move : float)
  : M state bool :=
  match epics_module with
  | None => mret false
  | Some ep =>
      try_except
        (new_PV ep (motor_pv +:+ ".RBV");;
         ok ← pv_wait_for_connection ep (motor_pv +:+ ".RBV") 2.0;
         if negb ok then mret false
         else
           initial_pos ← pv_get ep (motor_pv +:+ ".RBV");
           new_PV ep (motor_pv +:+ ".RBV");;
           target ← eval (py_add_float initial_pos relative_move);
           eval (format_f initial_pos);;
           eval (format_f target);;
           mret true)
        (λ e, mret false)
  end.

(** [time.sleep(count_time + 0.5)] lets time pass, and raises when the
    length is not one [time.sleep] accepts. *)
Definition test_scaler_count (scaler_pv : string) (count_time : float)
  : M state bool :=
  match epics_module with
  | None => mret false
  | Some ep =>
      try_except
        (new_PV ep (scaler_pv +:+ ".T");;
         new_PV ep (scaler_pv +:+ ".CNT");;
         time_ok ← pv_wait_for_connection ep (scaler_pv +:+ ".T") 2.0;
         both_ok ←
           (if time_ok : bool
            then pv_wait_for_connection ep (scaler_pv +:+ ".CNT") 2.0
            else mret false);
         if negb both_ok then mret false
         else
           pv_put ep (scaler_pv +:+ ".T") (PyFloat count_time);;
           pv_put ep (scaler_pv +:+ ".CNT") (PyInt 1);;
           eval (py_sleep (count_time + 0.5)%float);;
           new_PV ep (scaler_pv +:+ ".S1");;
           ok ← pv_wait_for_connection ep (scaler_pv +:+ ".S1") 1.0;
           if ok : bool then pv_get ep (scaler_pv +:+ ".S1");; mret true
           else mret false)
        (λ e, mret false)
  end.

(** The dictionary [info] of [analyze_device]:
    [{'pv': ..., 'connected': ..., 'properties': {...}}], with the key
    ['error'] when there is one. *)
Record device_info : Type := DeviceInfo {
  info_pv : string;
  info_connected : bool;
  info_properties : gmap string pyval;
  info_error : option string;
}.

(** The PV suffixes [analyze_device] tests for a device (lines 188-201). *)
Definition device_suffixes (pv_base : string) : list string :=
  if py_in "m" pv_base && existsb (py_startswith pv_base) ["gp:"; "adsim:"]
  then [".RBV"; ".VAL"; ".DESC"; ".EGU"; ".HLM"; ".LLM"]
  else if py_in "scaler" pv_base
  then [".CNT"; ".T"; ".S1"; ".S2"; ".DESC"]
  else if py_in "adsim:" pv_base
  then ["cam1:Acquire"; "cam1:ArraySize_RBV"; "cam1:MaxSize_RBV"]
  else [".VAL"; ".DESC"].

(** Body of the loop of lines 204-213. *)
Definition analyze_pv (ep : epics) (pv_base : string) (info : device_info)
    (suffix : string) : M state device_info :=
  let full_pv := pv_base +:+ suffix in
  try_except_bare
    (new_PV ep full_pv;;
     ok ← pv_wait_for_connection ep full_pv 2.0;
     if ok : bool then
       value ← pv_get ep full_pv;
       mret {| info_pv := info_pv info;
               info_connected := true;
               info_properties := <[suffix := value]> (info_properties info);
               info_error := info_error info |}
     else mret info)
    (mret {| info_pv := info_pv info;
             info_connected := info_connected info;
             info_properties :=
               <[suffix := PyStr "Connection failed"]> (info_properties info);
             info_error := info_error info |}).

(** The loop body handles every exception itself, so the outer handler
    of the function is never entered with a partly filled [info]. *)
Definition analyze_device (pv_base : string) : M state device_info :=
  let info := {| info_pv := pv_base; info_connected := false;
                 info_properties := ∅; info_error := None |} in
  match epics_module with
  | None =>
      mret {| info_pv := pv_base; info_connected := false;
              info_properties := ∅;
              info_error := Some "PyEPICS not available" |}
  | Some ep =>
      try_except
        (for_each (analyze_pv ep pv_base) info (device_suffixes pv_base))
        (λ e,
           mret {| info_pv := pv_base; info_connected := false;
                   info_properties := ∅; info_error := Some (exn_str e) |})
  end.

(** The [--test-device] branch of [main] (lines 420-427); the results of
    the two tests are dropped. *)
Definition test_device (device_pv : string) (move_relative count : float)
  : M state unit :=
  if py_in "m" device_pv then
    test_device_motion device_pv move_relative;; mret tt
  else if py_in "scaler" device_pv then
    test_scaler_count device_pv count;; mret tt
  else mret tt.
End model.
Arguments epics : clear implicits.
Arguments state : clear implicits.
End explore_iocs.

(* ================================================================== *)
(** * scripts/validate_setup.py: three of the checks

    [check_python_environment], [check_instrument_package] and
    [test_epics_connectivity], over what [importlib], the file system and
    PyEPICS answer. *)

Module validate_setup_checks.
Section model.
Context {HW : Type}.

(** A module spec as [find_spec] returns it: [spec.origin]. *)
Record module_spec : Type := ModuleSpec { origin : option string }.

(** [importlib.util.find_spec(name)] ([None] when there is no such
    module), [importlib.import_module(name)], and
    [(Path(origin).parent / 'configs' / config_file).exists()]. *)
Record system : Type := System {
  find_spec : string → HW → res (option module_spec);
  import_module : string → HW → outcome HW unit;
  config_exists : string → string → HW → res bool;
}.

Context (sys : system).

Definition required_packages : list string :=
  ["bluesky"; "ophyd"; "databroker"; "apsbits"].

(** Body of the loop of lines 69-85. *)
Definition check_package (missing_packages : list string) (package : string)
  : M HW (list string) :=
  try_except
    (spec ← lift (find_spec sys package);
     match spec with
     | None => mret (missing_packages ++ [package])
     | Some _ =>
         try_except (import_module sys package) (λ e, mret tt);;
         mret missing_packages
     end)
    (λ e, mret (missing_packages ++ [package])).

Definition check_python_environment : M HW bool :=
  missing_packages ← for_each check_package [] required_packages;
  mret (match missing_packages with [] => true | _ => false end).

Definition possible_names : list string :=
  ["my_beamline"; "my_instrument"; "demo_instrument"].

(** The loop of lines 103-111: the first name with a module spec. *)
Fixpoint find_instrument (names : list string) : M HW (option string) :=
  match names with
  | [] => mret None
  | name :: names' =>
      found ← try_except_bare
                (spec ← lift (find_spec sys name);
                 mret (bool_decide (is_Some spec)))
                (mret false);
      if found : bool then mret (Some name) else find_instrument names'
  end.

Definition config_files : list string := ["iconfig.yml"; "devices.yml"].

(** [Path(None)] raises a [TypeError]; the loop over the configuration
    files (lines 131-140) is outside every [try]. *)
Definition check_instrument_package : M HW bool :=
  instrument_name ← find_instrument possible_names;
  match instrument_name with
  | None => mret false
  | Some instrument_name =>
      spec ← try_except
               (lift (find_spec sys (instrument_name +:+ ".startup")))
               (λ e, mret None);
      match spec with
      | None => mret false
      | Some spec =>
          match origin spec with
          | None =>
              raise (Exn TypeError
                       "expected str, bytes or os.PathLike object, not NoneType")
          | Some origin =>
              for_each
                (λ (_ : unit) config_file,
                   lift (config_exists sys origin config_file);; mret tt)
                tt config_files;;
              mret true
          end
      end
  end.

Definition test_pvs : list string :=
  ["gp:m1.DESC"; "gp:scaler1.DESC"; "adsim:cam1:Acquire"].

(** Body of the loop of lines 162-172. *)
Definition check_test_pv (ep : explore_iocs.epics HW) (connected_pvs : nat)
    (pv_name : string) : M (explore_iocs.state HW) nat :=
  try_except
    (explore_iocs.new_PV ep pv_name;;
     ok ← explore_iocs.pv_wait_for_connection ep pv_name 5.0;
     if ok : bool then
       explore_iocs.pv_get ep pv_name;; mret (connected_pvs + 1)
     else mret connected_pvs)
    (λ e, mret connected_pvs).

(** [import epics] gives the module, or fails with an [ImportError]
    ([None]), in which case the test is skipped and counts as passed. *)
Definition test_epics_connectivity (epics_import : option (explore_iocs.epics HW))
  : M (explore_iocs.state HW) bool :=
  match epics_import with
  | None => mret true
  | Some ep =>
      connected_pvs ← for_each (check_test_pv ep) 0 test_pvs;
      mret (Nat.eqb connected_pvs (length test_pvs))
  end.
End model.
Arguments system : clear implicits.
End validate_setup_checks.

(* ================================================================== *)
(** * scripts/validate_setup.py: the three tests on the instrument

    [test_instrument_loading], [test_device_functionality] and
    [test_data_collection] look for the instrument package with the loop
    of [check_instrument_package], import its startup module and use the
    objects [RE] and [cat] of that module. *)

Module validate_setup_suites.
Import bluesky validate_setup_checks.
Section model.
Context {HW : Type}.

(** The module [<name>.startup]: its attributes [RE] and [cat] ([None]
    when the module has no such attribute), and [RE.state] ([None] when
    reading it raises an [AttributeError], which is what [hasattr] turns
    into false). *)
Record startup_module : Type := StartupModule {
  module_RE : option (engine HW);
  module_cat : option (catalog HW);
  RE_state : HW → res (option pyval);
}.

(** [importlib.import_module] for the startup module, and the device
    registry of [bluesky.preprocessors] (reading it fails when bluesky
    cannot be imported). *)
Record instrument : Type := Instrument {
  import_startup : string → HW → outcome HW startup_module;
  devices_by_label : HW → res (gmap string (list (device HW)));
}.

Context (sys : system HW) (inst : instrument).

(** [getattr(startup_module, 'RE')], [getattr(startup_module, 'cat')] *)
Definition getattr_RE (startup : startup_module) : M HW (engine HW) :=
  match module_RE startup with
  | Some RE => mret RE
  | None => raise (Exn AttributeError "module has no attribute 'RE'")
  end.

Definition getattr_cat (startup : startup_module) : M HW (catalog HW) :=
  match module_cat startup with
  | Some cat => mret cat
  | None => raise (Exn AttributeError "module has no attribute 'cat'")
  end.

Definition by_label (label : string) : M HW (list (device HW)) :=
  registry ← lift (devices_by_label inst);
  eval (discover registry label).

Definition required_objects : list string := ["RE"; "cat"].

(** [hasattr(startup_module, obj_name)], for the two names the script
    asks for. *)
Definition hasattr (startup : startup_module) (obj_name : string) : bool :=
  if String.eqb obj_name "RE" then bool_decide (is_Some (module_RE startup))
  else if String.eqb obj_name "cat" then bool_decide (is_Some (module_cat startup))
  else false.

(** Body of the loop of lines 212-218. *)
Definition check_object (startup : startup_module)
    (missing_objects : list string) (obj_name : string) : list string :=
  if hasattr startup obj_name then missing_objects
  else missing_objects ++ [obj_name].

(** Lines 226-227: [hasattr(RE, 'state')] reads the attribute, and the
    [print] reads it again. *)
Definition show_RE_state (startup : startup_module) : M HW unit :=
  state ← lift (RE_state startup);
  match state with
  | None => mret tt
  | Some _ =>
      state ← lift (RE_state startup);
      match state with
      | Some _ => mret tt
      | None =>
          raise (Exn AttributeError "'RunEngine' object has no attribute 'state'")
      end
  end.

Definition test_instrument_loading : M HW bool :=
  instrument_name ← find_instrument sys possible_names;
  match instrument_name with
  | None => mret false
  | Some instrument_name =>
      try_except
        (startup ← import_startup inst (instrument_name +:+ ".startup");
         let missing_objects :=
           fold_left (check_object startup) required_objects [] in
         match missing_objects with
         | _ :: _ => mret false
         | [] =>
             getattr_RE startup;;
             show_RE_state startup;;
             mret true
         end)
        (λ e, mret false)
  end.

Definition test_device_functionality : M HW bool :=
  instrument_name ← find_instrument sys possible_names;
  match instrument_name with
  | None => mret false
  | Some instrument_name =>
      try_except
        (startup ← import_startup inst (instrument_name +:+ ".startup");
         RE ← getattr_RE startup;
         try_except
           (motors ← by_label "motors";
            detectors ← by_label "detectors";
            match motors, detectors with
            | motor :: _, detector :: _ =>
                RE (count [detector] 1);;
                lift (position motor);;
                mret true
            | _, _ => mret false
            end)
           (λ e, mret false))
        (λ e, mret false)
  end.

Definition test_data_collection : M HW bool :=
  instrument_name ← find_instrument sys possible_names;
  match instrument_name with
  | None => mret false
  | Some instrument_name =>
      try_except
        (startup ← import_startup inst (instrument_name +:+ ".startup");
         RE ← getattr_RE startup;
         cat ← getattr_cat startup;
         initial_runs ← lift (runs cat);
         detectors ← by_label "detectors";
         match detectors with
         | [] => mret false
         | detector :: _ =>
             RE (count [detector] 1);;
             final_runs ← lift (runs cat);
             let new_runs := (Z.of_nat final_runs - Z.of_nat initial_runs)%Z in
             if (0 <? new_runs)%Z then
               latest_run ← lift (latest cat);
               lift (scan_id latest_run);;
               mret true
             else mret false
         end)
        (λ e, mret false)
  end.
End model.
Arguments startup_module : clear implicits.
Arguments instrument : clear implicits.
End validate_setup_suites.

(* ================================================================== *)
(** * What it means for the suites to be run one after the other

    [suites_run tests s results s']: started in state [s], every test
    function of [tests] has been called in turn, each in the state the
    previous one left, whether that one returned or raised; [results] has
    one entry per test function, in the same order, and [s'] is the state
    the last one left. *)


(** A call that has come back to the script: it has returned, or raised
    an exception derived from [Exception].  A call that blocks, or that
    leaves through [SystemExit] or [KeyboardInterrupt], has not. *)
Definition came_back {S A : Type} (o : outcome S A) : Prop :=
  match o with
  | Return _ _ | Raise _ _ => True
  | Leave _ _ | Hang => False
  end.

(** A computation that comes back from every state. *)
Definition comes_back {S A : Type} (m : M S A) : Prop := ∀ s, came_back (m s).

(** The status of the process when it ends through [sys.exit(code)]. *)
Definition exit_status {S A : Type} (o : outcome S A) : option Z :=
  match o with
  | Leave (SystemExit code) _ => Some code
  | _ => None
  end.

(** A call into a collaborator that comes back in state [s]. *)
Definition answers {S A : Type} (r : S → res A) (s : S) : Prop :=
  r s ≠ Blocked.

(* ================================================================== *)
(** * Instruments and IOCs used as concrete inputs *)

Module examples.
Import bluesky.

(** The state of the world is the number of runs in the catalog. *)
Definition device_with (n : string) (connected get : res pyval) : device nat :=
  {| name := n;
     position := λ _, get;
     limits := λ _, Val (PyTuple [PyFloat (-10); PyFloat 10]);
     connected := λ _, connected;
     get := λ _, get;
     channels := None;
     cam_array_size := None |}.

Definition reachable (n : string) : device nat :=
  device_with n (Val (PyBool true)) (Val (PyFloat 1.5)).

Definition unreachable (n : string) : device nat :=
  device_with n (Val (PyBool false)) (Val (PyFloat 0)).

Definition faulty (n : string) : device nat :=
  device_with n (Val (PyBool true)) (Exc (Exn OtherException "read fault")).

(** A device whose read never returns. *)
Definition silent (n : string) : device nat :=
  device_with n (Val (PyBool true)) Blocked.

(** An engine that runs every plan; plans other than a plain move save
    one run. *)
Definition RE : engine nat := λ p n,
  match p with
  | mvr _ _ => Return tt n
  | _ => Return tt (S n)
  end.

Definition cat : catalog nat :=
  {| runs := λ n, Val n;
     latest := λ n, Val {| scan_id := λ n, Val (PyInt (Z.of_nat n));
                           data_vars := λ _, Val (PyList [PyStr "det"]) |} |}.

(** An instrument that loads, with the given device registry. *)
Definition instrument_of (registry : gmap string (list (device nat)))
  : test_devices.instrument nat :=
  {| test_devices.exec_startup := λ n, Return tt n;
     test_devices.globals_RE := λ _, Some RE;
     test_devices.globals_cat := λ _, Some cat;
     test_devices.devices_by_label := λ _, Val registry |}.

(** Nothing registered under any label. *)
Definition bare_instrument : test_devices.instrument nat := instrument_of ∅.

Definition small_instrument : test_devices.instrument nat :=
  instrument_of (<["motors" := [reachable "m1"; reachable "m2"]]>
                (<["detectors" := [reachable "scaler1"]]>
                (<["baseline" := [reachable "temperature"]]> ∅))).

(** Two motors that are both connected and carry the same name. *)
Definition twin_instrument : test_devices.instrument nat :=
  instrument_of (<["motors" := [reachable "m1"; reachable "m1"]]> ∅).

(** A baseline device whose read never returns. *)
Definition silent_instrument : test_devices.instrument nat :=
  instrument_of (<["baseline" := [silent "thermometer"]]> ∅).

Definition mixed_devices : list (device nat) :=
  [reachable "a"; unreachable "b"; faulty "c"].

(** The same for [test_plans]: the package [my_beamline] imports and has
    all custom plans. *)
Definition plans_instrument_of (registry : gmap string (list (device nat)))
  : test_plans.instrument nat :=
  {| test_plans.import_startup := λ module_name n,
       if String.eqb module_name "my_beamline.startup"
       then Return {| test_plans.module_name := module_name;
                      test_plans.module_RE := Some RE |} n
       else Raise (Exn ImportError ("No module named " +:+ module_name)) n;
     test_plans.import_custom_plans := λ _ n,
       Return {| test_plans.has_plan := λ _, true |} n;
     test_plans.devices_by_label := λ _, Val registry;
     test_plans.simulate_mode := λ _, None;
     test_plans.set_simulate_mode := λ _ n, n |}.

(** An IOC as a table from PV names to values: a PV connects when it is
    in the table, [get] reads the table and [put] writes it. *)
Definition table_ioc : explore_iocs.epics (gmap string pyval) :=
  {| explore_iocs.PV := λ _ _, Val tt;
     explore_iocs.wait_for_connection := λ pvname _ ioc,
       Val (bool_decide (is_Some (ioc !! pvname)));
     explore_iocs.get := λ pvname ioc, Val (default PyNone (ioc !! pvname));
     explore_iocs.put := λ pvname value ioc, Return tt (<[pvname := value]> ioc) |}.

Definition motor_ioc : gmap string pyval :=
  <["gp:m1.RBV" := PyFloat 2.5]> (<["gp:m1.DESC" := PyStr "Motor 1"]>
  (<["adsim:cam1:Acquire" := PyInt 0]> ∅)).

(** The readback PV connects, and reading it gives [None] (what
    [PV.get] answers when the read itself times out). *)
Definition stale_ioc : gmap string pyval := <["gp:m1.RBV" := PyNone]> ∅.

(** A PV layer whose reads never return. *)
Definition silent_ioc : explore_iocs.epics unit :=
  {| explore_iocs.PV := λ _ _, Val tt;
     explore_iocs.wait_for_connection := λ _ _ _, Val true;
     explore_iocs.get := λ _ _, Blocked;
     explore_iocs.put := λ _ _ _, Return tt tt |}.

(** An IOC with the three PVs of a scaler that [test_scaler_count] uses. *)
Definition scaler_ioc : gmap string pyval :=
  <["gp:scaler1.T" := PyFloat 0]> (<["gp:scaler1.CNT" := PyInt 0]>
  (<["gp:scaler1.S1" := PyInt 0]> ∅)).

Definition start {HW} (w : HW) : explore_iocs.state HW :=
  {| explore_iocs.hw := w; explore_iocs.calls := [] |}.

(** A device that answers the same in every state of any world. *)
Definition steady_device {HW : Type} (n : string) (connected get : res pyval)
  : device HW :=
  {| name := n;
     position := λ _, get;
     limits := λ _, Val (PyTuple [PyFloat (-10); PyFloat 10]);
     connected := λ _, connected;
     get := λ _, get;
     channels := None;
     cam_array_size := None |}.

(** An engine on which every plan fails. *)
Definition broken_RE : engine nat :=
  λ p n, Raise (Exn OtherException "plan failed") n.

(** An instrument that loads, with the given engine and registry. *)
Definition instrument_with (RE : engine nat)
    (registry : gmap string (list (device nat)))
  : test_devices.instrument nat :=
  {| test_devices.exec_startup := λ n, Return tt n;
     test_devices.globals_RE := λ _, Some RE;
     test_devices.globals_cat := λ _, Some cat;
     test_devices.devices_by_label := λ _, Val registry |}.

Definition broken_instrument : test_devices.instrument nat :=
  instrument_with broken_RE
    (<["motors" := [reachable "m1"]]> (<["detectors" := [reachable "scaler1"]]> ∅)).

(** Three motors, two of them connected. *)
Definition two_of_three_instrument : test_devices.instrument nat :=
  instrument_of
    (<["motors" := [reachable "m1"; unreachable "m2"; reachable "m3"]]> ∅).

(** An instrument whose startup module cannot be imported. *)
Definition unloadable_instrument : test_devices.instrument nat :=
  {| test_devices.exec_startup := λ n,
       Raise (Exn ImportError "No module named 'my_beamline'") n;
     test_devices.globals_RE := λ _, None;
     test_devices.globals_cat := λ _, None;
     test_devices.devices_by_label := λ _, Val ∅ |}.

(** An engine that counts the plans it has run, and a motor whose
    position can be read before the first plan only. *)
Definition counting_RE : engine nat := λ p n, Return tt (S n).

Definition flaky_motor : device nat :=
  {| name := "m1";
     position := λ n, if Nat.eqb n 0 then Val (PyFloat 1.5)
                      else Exc (Exn OtherException "readback lost");
     limits := λ _, Val (PyTuple [PyFloat (-10); PyFloat 10]);
     connected := λ _, Val (PyBool true);
     get := λ _, Val (PyFloat 1.5);
     channels := None;
     cam_array_size := None |}.

(** A world that is just the [simulate_mode] attribute of the engine
    ([None] when it is not set), with an engine on which every plan
    fails. *)
Definition mode_instrument : test_plans.instrument (option pyval) :=
  {| test_plans.import_startup := λ module_name w,
       if String.eqb module_name "my_beamline.startup"
       then Return {| test_plans.module_name := module_name;
                      test_plans.module_RE :=
                        Some (λ p w, Raise (Exn OtherException "plan failed") w) |} w
       else Raise (Exn ImportError ("No module named " +:+ module_name)) w;
     test_plans.import_custom_plans := λ _ w,
       Return {| test_plans.has_plan := λ _, true |} w;
     test_plans.devices_by_label := λ _,
       Val (<["motors" := [steady_device "m1" (Val (PyBool true)) (Val (PyFloat 1.5))]]>
           (<["detectors" := [steady_device "scaler1" (Val (PyBool true)) (Val (PyInt 0))]]> ∅));
     test_plans.simulate_mode := λ w, w;
     test_plans.set_simulate_mode := λ v _, Some v |}.

(** The instrument of [test_plans] with a motor and a detector that is
    not connected. *)
Definition disconnected_plans_instrument : test_plans.instrument nat :=
  plans_instrument_of
    (<["motors" := [reachable "m1"]]> (<["detectors" := [unreachable "scaler1"]]> ∅)).

Definition ready_plans_instrument : test_plans.instrument nat :=
  plans_instrument_of
    (<["motors" := [reachable "m1"]]> (<["detectors" := [reachable "scaler1"]]> ∅)).

(** A Python installation where every package is found, none of them
    can be imported, and no configuration file exists. *)
Definition damaged_system : validate_setup_checks.system unit :=
  {| validate_setup_checks.find_spec := λ _ _,
       Val (Some {| validate_setup_checks.origin :=
                      Some "/site-packages/my_beamline/startup.py" |});
     validate_setup_checks.import_module := λ _ w,
       Raise (Exn ImportError "cannot import name") w;
     validate_setup_checks.config_exists := λ _ _ _, Val false |}.

(** A Python installation without [ophyd]. *)
Definition incomplete_system : validate_setup_checks.system unit :=
  {| validate_setup_checks.find_spec := λ package _,
       if String.eqb package "ophyd" then Val None
       else Val (Some {| validate_setup_checks.origin := None |});
     validate_setup_checks.import_module := λ _ w, Return tt w;
     validate_setup_checks.config_exists := λ _ _ _, Val true |}.

(** An IOC with the three PVs of [validate_setup] and two motors. *)
Definition demo_ioc : gmap string pyval :=
  <["gp:m1.DESC" := PyStr "Motor 1"]> (<["gp:m3.DESC" := PyStr ""]>
  (<["gp:scaler1.DESC" := PyStr "scaler"]> (<["adsim:cam1:Acquire" := PyInt 0]> ∅))).

(** The startup module and the registry of [mode_instrument]. *)
Definition mode_startup : test_plans.startup_module (option pyval) :=
  {| test_plans.module_name := "my_beamline.startup";
     test_plans.module_RE :=
       Some (λ p w, Raise (Exn OtherException "plan failed") w) |}.

Definition mode_registry : gmap string (list (device (option pyval))) :=
  <["motors" := [steady_device "m1" (Val (PyBool true)) (Val (PyFloat 1.5))]]>
  (<["detectors" := [steady_device "scaler1" (Val (PyBool true)) (Val (PyInt 0))]]> ∅).

(** The startup module of [plans_instrument_of]. *)
Definition plans_startup : test_plans.startup_module nat :=
  {| test_plans.module_name := "my_beamline.startup";
     test_plans.module_RE := Some RE |}.

(** A connected motor and detector, in a package without the module
    [plans.custom_plans]. *)
Definition planless_instrument : test_plans.instrument nat :=
  {| test_plans.import_startup := λ module_name n,
       if String.eqb module_name "my_beamline.startup"
       then Return {| test_plans.module_name := module_name;
                      test_plans.module_RE := Some RE |} n
       else Raise (Exn ImportError ("No module named " +:+ module_name)) n;
     test_plans.import_custom_plans := λ module_name n,
       Raise (Exn ImportError ("No module named " +:+ module_name)) n;
     test_plans.devices_by_label := λ _,
       Val (<["motors" := [reachable "m1"]]>
           (<["detectors" := [reachable "scaler1"]]> ∅));
     test_plans.simulate_mode := λ _, None;
     test_plans.set_simulate_mode := λ _ n, n |}.

(** A Python installation where every module is found, and one where no
    module is found. *)
Definition complete_system : validate_setup_checks.system nat :=
  {| validate_setup_checks.find_spec := λ _ _,
       Val (Some {| validate_setup_checks.origin :=
                      Some "/site-packages/my_beamline/startup.py" |});
     validate_setup_checks.import_module := λ _ n, Return tt n;
     validate_setup_checks.config_exists := λ _ _ _, Val true |}.

Definition empty_system : validate_setup_checks.system nat :=
  {| validate_setup_checks.find_spec := λ package _,
       if String.eqb package "my_instrument"
       then Exc (Exn OtherException "broken finder")
       else Val None;
     validate_setup_checks.import_module := λ package n,
       Raise (Exn ImportError ("No module named " +:+ package)) n;
     validate_setup_checks.config_exists := λ _ _ _, Val false |}.

(** The startup module of [validate_setup] with [RE] and [cat], and the
    instrument that imports it with the given registry. *)
Definition setup_startup : validate_setup_suites.startup_module nat :=
  {| validate_setup_suites.module_RE := Some RE;
     validate_setup_suites.module_cat := Some cat;
     validate_setup_suites.RE_state := λ _, Val (Some (PyStr "idle")) |}.

Definition setup_instrument_of (registry : gmap string (list (device nat)))
  : validate_setup_suites.instrument nat :=
  {| validate_setup_suites.import_startup := λ _ n, Return setup_startup n;
     validate_setup_suites.devices_by_label := λ _, Val registry |}.

(** A detector and no motor. *)
Definition detector_only : gmap string (list (device nat)) :=
  <["detectors" := [reachable "scaler1"]]> ∅.

(** An engine on which moves and counts fail and scans run and save one
    run, and the instrument of [small_instrument] with that engine. *)
Definition scans_only_RE : engine nat := λ p n,
  match p with
  | rel_scan _ _ _ _ _ => Return tt (S n)
  | _ => Raise (Exn OtherException "plan failed") n
  end.

Definition scans_only_instrument : test_devices.instrument nat :=
  instrument_with scans_only_RE
    (<["motors" := [reachable "m1"; reachable "m2"]]>
     (<["detectors" := [reachable "scaler1"]]>
     (<["baseline" := [reachable "temperature"]]> ∅))).

(** An instrument whose startup module calls [sys.exit(3)]. *)
Definition exiting_instrument : test_devices.instrument nat :=
  {| test_devices.exec_startup := λ n, Leave (SystemExit 3) n;
     test_devices.globals_RE := λ _, None;
     test_devices.globals_cat := λ _, None;
     test_devices.devices_by_label := λ _, Val ∅ |}.


(** A detector with channels that cannot be read, and an area detector
    whose array size cannot be read. *)
Definition broken_scaler (n : string) : device nat :=
  {| name := n;
     position := λ _, Val (PyFloat 0);
     limits := λ _, Val (PyTuple [PyFloat (-10); PyFloat 10]);
     connected := λ _, Val (PyBool true);
     get := λ _, Val (PyInt 0);
     channels := Some (λ _, Exc (Exn OtherException "no channels"));
     cam_array_size := None |}.

Definition camera (n : string) : device nat :=
  {| name := n;
     position := λ _, Val PyNone;
     limits := λ _, Val (PyTuple [PyFloat (-10); PyFloat 10]);
     connected := λ _, Val (PyBool true);
     get := λ _, Val (PyInt 0);
     channels := None;
     cam_array_size := Some (λ _, Exc (Exn OtherException "no array size")) |}.

Definition probed_devices : list (device nat) :=
  [reachable "a"; unreachable "b"; faulty "c"; broken_scaler "d"; camera "e"].

(** Test functions for the loop of the [main] functions. *)
Definition passing : M nat bool := λ n, Return true (S n).
Definition crashing : M nat bool :=
  λ n, Raise (Exn OtherException "boom") (S n).
Definition exiting : M nat bool := λ n, Leave (SystemExit 3) (S n).
Definition interrupted : M nat bool := λ n, Leave KeyboardInterrupt (S n).
End examples.

(* ================================================================== *)
(** * The overall result of a run

    [every_result_true]: every test function that was run returned
    [True].  This is what [all_passed], the test [passed == len(results)]
    of the scripts, decides.  It is a statement about the booleans the
    test functions return, not about the items a test function works
    through: the scripts keep no count of passed items per suite. *)


(** The number of results whose outcome is pass. *)
Definition passing_results (results : list (string * bool)) : nat :=
  length (List.filter snd results).

(** The three classifications of a probe, read off a result dictionary of
    the connectivity test: an entry with an ['error'] key is an error,
    otherwise the entry is a pass when its ['connected'] value is true
    and a fail when it is not. *)
Inductive probe_outcome : Type := pass | fail | error.

Definition outcome_of (entry : gmap string pyval) : probe_outcome :=
  match entry !! "error" with
  | Some _ => error
  | None => if py_truthy (test_devices.get_connected entry) then pass else fail
  end.

(** What a probe of the connectivity test gets out of a device: the
    connection flag when every step of the probe succeeds, the exception
    of the first step that raises otherwise.  A motor probe reads the
    position, the limits and the flag and prints the position with
    [{pos:8.3f}]; a detector probe reads the flag and, for a scaler, the
    channels (a failure to read the array size of an area detector is
    ignored); a baseline probe reads the value and the flag. *)
Definition motor_reading {HW : Type} (dev : bluesky.device HW) (s : HW)
  : res pyval :=
  match bluesky.position dev s with
  | Val pos =>
      match bluesky.limits dev s with
      | Val _ =>
          match bluesky.connected dev s with
          | Val connected =>
              match format_f pos with
              | Val _ => Val connected
              | Exc e => Exc e
              | Blocked => Blocked
              end
          | Exc e => Exc e
          | Blocked => Blocked
          end
      | Exc e => Exc e
      | Blocked => Blocked
      end
  | Exc e => Exc e
  | Blocked => Blocked
  end.

Definition detector_reading {HW : Type} (dev : bluesky.device HW) (s : HW)
  : res pyval :=
  match bluesky.connected dev s with
  | Val connected =>
      match bluesky.channels dev, bluesky.cam_array_size dev with
      | Some read, _ =>
          match read s with
          | Val _ => Val connected
          | Exc e => Exc e
          | Blocked => Blocked
          end
      | None, Some read =>
          match read s with
          | Blocked => Blocked
          | _ => Val connected
          end
      | None, None => Val connected
      end
  | Exc e => Exc e
  | Blocked => Blocked
  end.

Definition baseline_reading {HW : Type} (dev : bluesky.device HW) (s : HW)
  : res pyval :=
  match bluesky.get dev s with
  | Val _ =>
      match bluesky.connected dev s with
      | Val connected => Val connected
      | Exc e => Exc e
      | Blocked => Blocked
      end
  | Exc e => Exc e
  | Blocked => Blocked
  end.

(** The result dictionary [entry] carries the classification of the
    reading as data: a pass or a fail with the connection flag that was
    read and no ['error'] key, or an error with the text of the
    exception. *)
Definition classified (entry : gmap string pyval) (reading : res pyval) : Prop :=
  match reading with
  | Val connected =>
      entry !! "connected" = Some connected ∧
      entry !! "status" = Some (test_devices.status_of connected) ∧
      entry !! "error" = None ∧
      outcome_of entry = if py_truthy connected then pass else fail
  | Exc e =>
      entry = test_devices.error_entry e ∧
      entry !! "error" = Some (PyStr (exn_str e)) ∧
      outcome_of entry = error
  | Blocked => False
  end.

(** Every attribute of the device that the connectivity test reads comes
    back in state [s]. *)
Definition device_answers {HW : Type} (dev : bluesky.device HW) (s : HW) : Prop :=
  answers (bluesky.position dev) s ∧
  answers (bluesky.limits dev) s ∧
  answers (bluesky.connected dev) s ∧
  answers (bluesky.get dev) s ∧
  (∀ read, bluesky.channels dev = Some read → answers read s) ∧
  (∀ read, bluesky.cam_array_size dev = Some read → answers read s).

(** Every collaborator of [test_devices] comes back: the startup, the
    registry, the devices of the registry, the engine and the catalog. *)
Definition instrument_answers {HW : Type} (inst : test_devices.instrument HW)
  : Prop :=
  (∀ s, came_back (test_devices.exec_startup inst s)) ∧
  (∀ s, answers (test_devices.devices_by_label inst) s) ∧
  (∀ s registry label dev s',
     test_devices.devices_by_label inst s = Val registry →
     dev ∈ default [] (registry !! label) → device_answers dev s') ∧
  (∀ s RE p s', test_devices.globals_RE inst s = Some RE →
     came_back (RE p s')) ∧
  (∀ s cat s', test_devices.globals_cat inst s = Some cat →
     answers (bluesky.runs cat) s' ∧ answers (bluesky.latest cat) s' ∧
     ∀ r, bluesky.latest cat s' = Val r →
          ∀ s'', answers (bluesky.scan_id r) s'' ∧
                 answers (bluesky.data_vars r) s'').

(** The three PyEPICS calls of a connectivity check on one PV come back. *)
Definition pv_answers {HW : Type} (ep : explore_iocs.epics HW)
    (pvname : string) (timeout : float) (w : HW) : Prop :=
  answers (explore_iocs.PV ep pvname) w ∧
  answers (explore_iocs.wait_for_connection ep pvname timeout) w ∧
  answers (explore_iocs.get ep pvname) w.

(** A call that creates, connects or reads the PV [pvname]. *)
Definition reads_pv (pvname : string) (c : explore_iocs.call) : Prop :=
  match c with
  | explore_iocs.NewPV n | explore_iocs.WaitForConnection n _
  | explore_iocs.Get n => n = pvname
  | explore_iocs.Put _ _ => False
  end.

(** The PV is created, connects within [timeout] and is read. *)
Definition pv_readable {HW : Type} (ep : explore_iocs.epics HW)
    (pvname : string) (timeout : float) (w : HW) : bool :=
  match explore_iocs.PV ep pvname w,
        explore_iocs.wait_for_connection ep pvname timeout w,
        explore_iocs.get ep pvname w with
  | Val _, Val true, Val _ => true
  | _, _, _ => false
  end.

(** What the loop of [analyze_device] records for one PV: the value read,
    the text ['Connection failed'] when a call raises, nothing when the
    connection times out. *)
Definition pv_property {HW : Type} (ep : explore_iocs.epics HW)
    (pvname : string) (w : HW) : option pyval :=
  match explore_iocs.PV ep pvname w with
  | Val _ =>
      match explore_iocs.wait_for_connection ep pvname 2.0 w with
      | Val true =>
          match explore_iocs.get ep pvname w with
          | Val value => Some value
          | _ => Some (PyStr "Connection failed")
          end
      | Val false => None
      | _ => Some (PyStr "Connection failed")
      end
  | _ => Some (PyStr "Connection failed")
  end.

(** A call that writes a PV. *)
Definition is_put (c : explore_iocs.call) : bool :=
  match c with explore_iocs.Put _ _ => true | _ => false end.

(** A device counts as connected in the summary of the connectivity
    test: as a motor (position, limits and connection read, the
    connection value true, the position a number that [{pos:8.3f}] can
    print), as a detector, as a baseline device. *)
Definition motor_passes {HW : Type} (dev : bluesky.device HW) (s : HW) : bool :=
  match bluesky.position dev s, bluesky.limits dev s, bluesky.connected dev s with
  | Val pos, Val _, Val connected =>
      py_truthy connected && (if format_f pos is Val _ then true else false)
  | _, _, _ => false
  end.

Definition detector_passes {HW : Type} (dev : bluesky.device HW) (s : HW) : bool :=
  match bluesky.connected dev s with
  | Val connected =>
      py_truthy connected &&
      match bluesky.channels dev with
      | Some read => if read s is Val _ then true else false
      | None => true
      end
  | _ => false
  end.

Definition baseline_passes {HW : Type} (dev : bluesky.device HW) (s : HW) : bool :=
  match bluesky.get dev s, bluesky.connected dev s with
  | Val _, Val connected => py_truthy connected
  | _, _ => false
  end.

(** The first motor and the first detector pass the connectivity test of
    [test_plan_execution]. *)
Definition devices_ready {HW : Type} (motor detector : bluesky.device HW)
    (s : HW) : bool :=
  match bluesky.position motor s, bluesky.connected detector s with
  | Val pos, Val connected =>
      py_truthy connected && (if format_f pos is Val _ then true else false)
  | _, _ => false
  end.

(* ================================================================== *)
(** * Facts about the monad *)

Section monad_facts.
Context {S : Type}.

Lemma bind_Return {A B} (m : M S A) (k : A → M S B) s a s1 :
  m s = Return a s1 → (m ≫= k) s = k a s1.
Proof. intros H. unfold mbind, M_bind. by rewrite H. Qed.

Lemma bind_Raise {A B} (m : M S A) (k : A → M S B) s e s1 :
  m s = Raise e s1 → (m ≫= k) s = Raise e s1.
Proof. intros H. unfold mbind, M_bind. by rewrite H. Qed.


Lemma bind_Hang {A B} (m : M S A) (k : A → M S B) s :
  m s = Hang → (m ≫= k) s = Hang.
Proof. intros H. unfold mbind, M_bind. by rewrite H. Qed.

Lemma lift_Val {A} (r : S → res A) s a : r s = Val a → lift r s = Return a s.
Proof. intros H. unfold lift. by rewrite H. Qed.

Lemma lift_Exc {A} (r : S → res A) s e : r s = Exc e → lift r s = Raise e s.
Proof. intros H. unfold lift. by rewrite H. Qed.

Lemma lift_Blocked {A} (r : S → res A) s : r s = Blocked → lift r s = Hang.
Proof. intros H. unfold lift. by rewrite H. Qed.

(** With a handler that returns, the whole [try] statement raises no
    exception derived from [Exception]. *)
Lemma try_except_never_raises {A} (body : M S A) (recover : exn → A) s e s' :
  try_except body (λ e, mret (recover e)) s ≠ Raise e s'.
Proof. unfold try_except. by destruct (body s). Qed.

Lemma as_float_comes_back (v : pyval) : as_float v ≠ Blocked.
Proof.
  destruct v; simpl; try done.
  unfold float_of_int. by destruct (binary_normalize _ _ _ _ _).
Qed.

Lemma format_f_comes_back (v : pyval) : format_f v ≠ Blocked.
Proof.
  unfold format_f. pose proof (as_float_comes_back v). by destruct (as_float v).
Qed.

Lemma py_add_float_comes_back (v : pyval) (d : float) :
  py_add_float v d ≠ Blocked.
Proof.
  unfold py_add_float. pose proof (as_float_comes_back v).
  destruct v; try done; by destruct (as_float _).
Qed.

Lemma for_each_never_raises {A B} (body : B → A → M S B) xs :
  (∀ acc x s e s', body acc x s ≠ Raise e s') →
  ∀ acc s e s', for_each body acc xs s ≠ Raise e s'.
Proof.
  intros Hbody. induction xs as [|x xs IH]; intros acc s e s'; simpl.
  - done.
  - unfold mbind, M_bind.
    destruct (body acc x s) as [acc1 s1|e1 s1|b1 s1|] eqn:E;
      [apply IH| |done|done].
    by apply Hbody in E.
Qed.
End monad_facts.

(* ================================================================== *)
(** * The tally of the [main] functions *)

Section tally.

Lemma count_passed_acc (results : list (string * bool)) (n : nat) :
  fold_left (λ passed (r : string * bool), if r.2 then passed + 1 else passed)
    results n = n + passing_results results.
Proof.
  unfold passing_results. revert n.
  induction results as [|[test_name success] results IH]; intros n; simpl.
  - lia.
  - rewrite IH. destruct success; simpl; lia.
Qed.

(** The loop that counts the passed tests counts the results whose
    outcome is pass. *)
Lemma count_passed_spec (results : list (string * bool)) :
  count_passed results = passing_results results.
Proof. unfold count_passed. by rewrite count_passed_acc. Qed.




(** Recording one more result keeps the counts in step with the list of
    results: this holds after every [results.append], since the counts
    are computed from the list. *)
Lemma record_keeps_tally (results : list (string * bool)) (r : string * bool) :
  count_passed (results ++ [r]) = passing_results (results ++ [r]) ∧
  count_passed (results ++ [r]) + length (List.filter (negb ∘ snd) (results ++ [r]))
    = length (results ++ [r]).
Proof.
  split; [apply count_passed_spec|]. rewrite count_passed_spec.
  unfold passing_results.
  induction (results ++ [r]) as [|[test_name []] l IH]; simpl in *; lia.
Qed.

End tally.

(* ================================================================== *)
(** * The test loop *)

Section test_loop.
Context {S : Type}.

Lemma run_test_returned results test_name (test_func : M S bool) s success s1 :
  test_func s = Return success s1 →
  run_test results (test_name, test_func) s
  = Return (results ++ [(test_name, success)]) s1.
Proof. intros H. unfold run_test, try_except, mbind, M_bind. by rewrite H. Qed.







End test_loop.

(* ================================================================== *)
(** * Counts of a report *)

(** C1.  The claim: in every report, after every record operation, the
    passed count is the number of results whose outcome is pass and the
    total count is the number of results.  The connectivity test keeps
    the results of a label in a dictionary keyed by the device name and
    takes the total from the list of devices.  With two motors that are
    both connected and both named [m1], the dictionary holds one result,
    one device is counted as connected out of a total of two, and the
    test reports that some devices are not connected. *)
Theorem connectivity_tally_with_twin_names :
  ∃ r,
    test_devices.connectivity_summary examples.twin_instrument 0 = Return r 0 ∧
    size (test_devices.motor_results r) = 1 ∧
    test_devices.connected_motors r = 1 ∧
    test_devices.total_motors r = 2 ∧
    test_devices.test_device_connectivity examples.twin_instrument 0
    = Return false 0.
Proof.
  eexists. split; [vm_compute; reflexivity|].
  repeat split; vm_compute; reflexivity.
Qed.

(** The same test with two motors of different names, a detector and a
    baseline device, all connected: every suite passes. *)
Example small_instrument_passes :
  test_devices.test_device_connectivity examples.small_instrument 0
  = Return true 0 ∧
  test_devices.main examples.small_instrument 0 = Return 0%Z 2.
Proof. split; vm_compute; reflexivity. Qed.

(* ================================================================== *)
(** * Exit code *)

(** C2, as the claim states it, fails in two ways.  On an engine on
    which the move and the count of the operations test both fail,
    [test_device_operations] still returns true, every suite is recorded
    as passed and the process ends with exit code 0: the exit code follows
    the booleans the test functions return, not a count of passed items.
    And when the startup module calls [sys.exit(3)], no handler of the
    script catches the [SystemExit], and the process ends with exit
    code 3. *)
Lemma exit_code_beyond_the_claim :
  examples.scans_only_RE
    (bluesky.mvr (examples.reachable "m1") test_devices.move_amount) 0
  = Raise (Exn OtherException "plan failed") 0 ∧
  examples.scans_only_RE (bluesky.count [examples.reachable "scaler1"] 1) 0
  = Raise (Exn OtherException "plan failed") 0 ∧
  test_devices.test_device_operations examples.scans_only_instrument 0
  = Return true 0 ∧
  run_tests (test_devices.tests examples.scans_only_instrument) 0
  = Return [("Device Connectivity", true); ("Device Operations", true);
            ("Data Collection", true)] 1 ∧
  exit_status (test_devices.script examples.scans_only_instrument 0) = Some 0%Z ∧
  test_devices.script examples.exiting_instrument 0 = Leave (SystemExit 3) 0 ∧
  exit_status (test_devices.script examples.exiting_instrument 0) = Some 3%Z.
Proof. repeat split; vm_compute; reflexivity. Qed.



(* ================================================================== *)
(** * Order of the suites *)

(** C3, as the claim states it, fails: a test function that raises
    [SystemExit] or [KeyboardInterrupt] is not caught by the
    [except Exception] of the loop, so the test functions after it are not
    run and nothing is recorded, neither for it nor for them.  An
    exception derived from [Exception] is recorded as a failure and the
    loop goes on. *)
Lemma suite_that_exits_stops_the_run :
  run_tests [("first", examples.exiting); ("second", examples.passing)] 0
  = Leave (SystemExit 3) 1 ∧
  run_tests [("first", examples.interrupted); ("second", examples.passing)] 0
  = Leave KeyboardInterrupt 1 ∧
  run_tests (test_devices.tests examples.exiting_instrument) 0
  = Leave (SystemExit 3) 0 ∧
  run_tests [("first", examples.crashing); ("second", examples.passing)] 0
  = Return [("first", false); ("second", true)] 2.
Proof. repeat split; vm_compute; reflexivity. Qed.



(* ================================================================== *)
(** * The connectivity probes *)

Section probes.
Import bluesky test_devices.
Context {HW : Type}.
Implicit Types (dev : device HW) (results : gmap string (gmap string pyval)).

Local Ltac run_probe :=
  unfold try_except, try_except_bare, mbind, M_bind, eval, lift, mret, M_ret;
  simpl.

Local Ltac read_attr r v :=
  let E := fresh "E" in
  destruct r as [v|?|] eqn:E; simpl; [|by eexists|done].

Lemma probe_motor_returns results dev s :
  device_answers dev s →
  ∃ entry, probe_motor results dev s = Return (<[name dev := entry]> results) s.
Proof.
  intros (Hpos & Hlim & Hcon & _). unfold answers in *.
  unfold probe_motor. run_probe.
  read_attr (position dev s) p. read_attr (limits dev s) l.
  read_attr (connected dev s) c.
  pose proof (format_f_comes_back p) as Hfmt.
  destruct (format_f p); [by eexists|by eexists|done].
Qed.

Lemma probe_detector_returns results dev s :
  device_answers dev s →
  ∃ entry, probe_detector results dev s = Return (<[name dev := entry]> results) s.
Proof.
  intros (_ & _ & Hcon & _ & Hch & Hcam). unfold answers in *.
  unfold probe_detector. run_probe.
  read_attr (connected dev s) c.
  destruct (channels dev) as [read|].
  - specialize (Hch read eq_refl). run_probe. read_attr (read s) n. by eexists.
  - destruct (cam_array_size dev) as [read|]; [|by eexists].
    specialize (Hcam read eq_refl). run_probe.
    destruct (read s); [by eexists|by eexists|done].
Qed.

Lemma probe_baseline_returns results dev s :
  answers (get dev) s → answers (connected dev) s →
  ∃ entry, probe_baseline results dev s = Return (<[name dev := entry]> results) s.
Proof.
  unfold answers. intros Hget Hcon.
  unfold probe_baseline. run_probe.
  read_attr (get dev s) v. read_attr (connected dev s) c. by eexists.
Qed.

(** A loop over probes that all return fills the dictionary with one key
    per device name and leaves the world as it was. *)
Lemma for_each_probe
    (probe : gmap string (gmap string pyval) → device HW →
             M HW (gmap string (gmap string pyval)))
    (devices : list (device HW)) s :
  (∀ results dev, device_answers dev s →
     ∃ entry, probe results dev s = Return (<[name dev := entry]> results) s) →
  Forall (λ dev, device_answers dev s) devices →
  ∀ acc, ∃ results,
    for_each probe acc devices s = Return results s ∧
    dom results = dom acc ∪ list_to_set (name <$> devices).
Proof.
  intros Hprobe. induction 1 as [|dev devices Hdev _ IH]; intros acc.
  - exists acc. split; [done|]. simpl. set_solver.
  - destruct (Hprobe acc dev Hdev) as (entry & Hentry).
    destruct (IH (<[name dev := entry]> acc)) as (results & Hrun & Hdom).
    exists results. split.
    + simpl. by erewrite bind_Return by exact Hentry.
    + rewrite Hdom, dom_insert_L. simpl. set_solver.
Qed.

(** With pairwise distinct device names the dictionary of a loop holds
    one result per device, so the total printed by the summary is the
    number of results and the connected count is at most the total. *)
Lemma for_each_probe_distinct_names
    (probe : gmap string (gmap string pyval) → device HW →
             M HW (gmap string (gmap string pyval)))
    (devices : list (device HW)) s :
  (∀ results dev, device_answers dev s →
     ∃ entry, probe results dev s = Return (<[name dev := entry]> results) s) →
  Forall (λ dev, device_answers dev s) devices →
  NoDup (name <$> devices) →
  ∃ results,
    for_each probe ∅ devices s = Return results s ∧
    size results = length devices ∧
    (count_connected results ≤ length devices)%nat.
Proof.
  intros Hprobe Hdevices Hnames.
  destruct (for_each_probe probe devices s Hprobe Hdevices ∅)
    as (results & Hrun & Hdom).
  assert (Hsize : size results = length devices).
  { rewrite <- size_dom, Hdom, dom_empty_L, (left_id_L ∅ (∪)).
    by rewrite size_list_to_set, length_fmap. }
  exists results. split; [done|]. split; [done|].
  rewrite <- Hsize. unfold count_connected.
  etransitivity; [apply List.filter_length_le|].
  by rewrite length_fmap, length_map_to_list.
Qed.

Local Ltac lookups :=
  repeat (rewrite lookup_insert_eq || (rewrite lookup_insert_ne by done) ||
          rewrite lookup_empty).

Lemma classified_error (e : exn) : classified (error_entry e) (Exc e).
Proof.
  unfold classified, outcome_of, error_entry. by lookups.
Qed.

Lemma classified_motor_entry (connected pos limits : pyval) :
  classified
    (<["connected" := connected]> (<["position" := pos]>
     (<["limits" := limits]> (<["status" := status_of connected]> ∅))))
    (Val connected).
Proof.
  unfold classified, outcome_of, get_connected. lookups. simpl. by repeat split.
Qed.

Lemma classified_detector_entry (connected : pyval) :
  classified
    (<["connected" := connected]> (<["status" := status_of connected]> ∅))
    (Val connected).
Proof.
  unfold classified, outcome_of, get_connected. lookups. simpl. by repeat split.
Qed.

Lemma classified_baseline_entry (connected value : pyval) :
  classified
    (<["connected" := connected]> (<["value" := value]>
     (<["status" := status_of connected]> ∅)))
    (Val connected).
Proof.
  unfold classified, outcome_of, get_connected. lookups. simpl. by repeat split.
Qed.

(** Each probe stores, under the name of the device, an entry that
    carries the classification of what the device answered. *)
Lemma probe_motor_classified dev s :
  device_answers dev s →
  ∃ entry,
    (∀ results,
       probe_motor results dev s = Return (<[name dev := entry]> results) s) ∧
    classified entry (motor_reading dev s).
Proof.
  intros (Hpos & Hlim & Hcon & _). unfold answers in *.
  unfold probe_motor, motor_reading. run_probe.
  destruct (position dev s) as [p|e|]; simpl; [| |done].
  2: { exists (error_entry e). split; [done|apply classified_error]. }
  destruct (limits dev s) as [l|e|]; simpl; [| |done].
  2: { exists (error_entry e). split; [done|apply classified_error]. }
  destruct (connected dev s) as [c|e|]; simpl; [| |done].
  2: { exists (error_entry e). split; [done|apply classified_error]. }
  pose proof (format_f_comes_back p) as Hfmt.
  destruct (format_f p) as [[]|e|]; simpl; [| |done].
  - eexists. split; [done|]. apply classified_motor_entry.
  - exists (error_entry e). split; [done|apply classified_error].
Qed.

Lemma probe_detector_classified dev s :
  device_answers dev s →
  ∃ entry,
    (∀ results,
       probe_detector results dev s = Return (<[name dev := entry]> results) s) ∧
    classified entry (detector_reading dev s).
Proof.
  intros (_ & _ & Hcon & _ & Hch & Hcam). unfold answers in *.
  unfold probe_detector, detector_reading. run_probe.
  destruct (connected dev s) as [c|e|]; simpl; [| |done].
  2: { exists (error_entry e). split; [done|apply classified_error]. }
  destruct (channels dev) as [read|].
  - specialize (Hch read eq_refl). run_probe.
    destruct (read s) as [n|e|]; simpl; [| |done].
    + eexists. split; [done|]. apply classified_detector_entry.
    + exists (error_entry e). split; [done|apply classified_error].
  - destruct (cam_array_size dev) as [read|].
    + specialize (Hcam read eq_refl). run_probe.
      destruct (read s) as [n|e|]; simpl; [| |done];
        (eexists; split; [done|]; apply classified_detector_entry).
    + eexists. split; [done|]. apply classified_detector_entry.
Qed.

Lemma probe_baseline_classified dev s :
  device_answers dev s →
  ∃ entry,
    (∀ results,
       probe_baseline results dev s = Return (<[name dev := entry]> results) s) ∧
    classified entry (baseline_reading dev s).
Proof.
  intros (_ & _ & Hcon & Hget & _). unfold answers in *.
  unfold probe_baseline, baseline_reading. run_probe.
  destruct (get dev s) as [v|e|]; simpl; [| |done].
  2: { exists (error_entry e). split; [done|apply classified_error]. }
  destruct (connected dev s) as [c|e|]; simpl; [| |done].
  2: { exists (error_entry e). split; [done|apply classified_error]. }
  eexists. split; [done|]. apply classified_baseline_entry.
Qed.

(** The probes only read the device, so they do not leave either. *)
Lemma probes_never_leave results dev s b s' :
  probe_motor results dev s ≠ Leave b s' ∧
  probe_detector results dev s ≠ Leave b s' ∧
  probe_baseline results dev s ≠ Leave b s'.
Proof.
  split; [|split].
  - unfold probe_motor. run_probe.
    destruct (position dev s); simpl; [|done|done].
    destruct (limits dev s); simpl; [|done|done].
    destruct (connected dev s); simpl; [|done|done].
    by destruct (format_f _).
  - unfold probe_detector. run_probe.
    destruct (connected dev s); simpl; [|done|done].
    destruct (channels dev) as [read|]; run_probe.
    + by destruct (read s).
    + destruct (cam_array_size dev) as [read|]; run_probe; [|done].
      by destruct (read s).
  - unfold probe_baseline. run_probe.
    destruct (get dev s); simpl; [|done|done].
    by destruct (connected dev s).
Qed.

(** A loop of probes runs to its end and holds, under every device name,
    the entry of a device of the list with that name (the last one). *)
Lemma for_each_probe_entries
    (probe : gmap string (gmap string pyval) → device HW →
             M HW (gmap string (gmap string pyval)))
    (reading : device HW → HW → res pyval) (devices : list (device HW)) s :
  (∀ dev, dev ∈ devices →
     ∃ entry,
       (∀ results, probe results dev s = Return (<[name dev := entry]> results) s) ∧
       classified entry (reading dev s)) →
  ∀ acc, ∃ results,
    for_each probe acc devices s = Return results s ∧
    dom results = dom acc ∪ list_to_set (name <$> devices) ∧
    (∀ key, key ∉ name <$> devices → results !! key = acc !! key) ∧
    (∀ dev, dev ∈ devices →
       ∃ last entry,
         last ∈ devices ∧ name last = name dev ∧
         results !! name dev = Some entry ∧
         classified entry (reading last s)).
Proof.
  induction devices as [|dev devices IH]; intros Hprobe acc.
  - exists acc. split; [done|]. split; [set_solver|]. split; [done|].
    intros dev Hin. by apply elem_of_nil in Hin.
  - destruct (Hprobe dev) as (entry & Hentry & Hclass); [set_solver|].
    assert (Hrest : ∀ d, d ∈ devices →
              ∃ entry,
                (∀ results,
                   probe results d s = Return (<[name d := entry]> results) s) ∧
                classified entry (reading d s)).
    { intros d Hd. apply Hprobe. set_solver. }
    destruct (IH Hrest (<[name dev := entry]> acc))
      as (results & Hrun & Hdom & Hother & Hlast).
    exists results. split; [|split; [|split]].
    + cbn [for_each]. by erewrite bind_Return by apply Hentry.
    + rewrite Hdom, dom_insert_L. set_solver.
    + intros key Hkey. rewrite fmap_cons in Hkey.
      apply not_elem_of_cons in Hkey as [Hne Hkey].
      rewrite Hother by done. by rewrite lookup_insert_ne.
    + intros d Hd.
      destruct (decide (name d ∈ name <$> devices)) as [Hin|Hout].
      * apply list_elem_of_fmap in Hin as (d' & Hname & Hd').
        destruct (Hlast d' Hd') as (last & entry' & Hl & Hn & Hres & Hc).
        exists last, entry'. split; [set_solver|]. split; [congruence|].
        split; [by rewrite Hname|done].
      * assert (d = dev) as ->.
        { apply elem_of_cons in Hd as [->|Hd]; [done|].
          exfalso. apply Hout. by apply list_elem_of_fmap_2. }
        exists dev, entry. split; [set_solver|]. split; [done|].
        split; [|done]. rewrite Hother by done. by rewrite lookup_insert_eq.
Qed.
End probes.

(* ================================================================== *)
(** * Reading the registry *)

Section discovery.
Import bluesky.
Context {HW : Type}.

Lemma by_label_returns (inst : test_devices.instrument HW) registry label s :
  test_devices.devices_by_label inst s = Val registry →
  test_devices.by_label inst label s = Return (default [] (registry !! label)) s.
Proof.
  intros H. unfold test_devices.by_label.
  erewrite bind_Return by by apply lift_Val. done.
Qed.

Lemma plans_by_label_returns (inst : test_plans.instrument HW) registry label s :
  test_plans.devices_by_label inst s = Val registry →
  test_plans.by_label inst label s = Return (default [] (registry !! label)) s.
Proof.
  intros H. unfold test_plans.by_label.
  erewrite bind_Return by by apply lift_Val. done.
Qed.
End discovery.

(* ================================================================== *)
(** * The test functions of [test_devices] come back

    When every collaborator comes back, so does each of the three test
    functions: none of them waits on anything but its collaborators. *)

Section come_back.
Import bluesky test_devices.
Context {HW : Type}.

Local Hint Extern 0 (came_back _) => exact I : core.

Lemma bind_comes_back {A B} (m : M HW A) (k : A → M HW B) s :
  came_back (m s) →
  (∀ a s1, m s = Return a s1 → came_back (k a s1)) →
  came_back ((m ≫= k) s).
Proof.
  intros Hm Hk. unfold mbind, M_bind.
  destruct (m s) as [a s1|e s1|b s1|] eqn:E; [by apply Hk|done|done|done].
Qed.

Lemma try_except_comes_back {A} (body : M HW A) (recover : exn → A) s :
  came_back (body s) → came_back (try_except body (λ e, mret (recover e)) s).
Proof. unfold try_except. by destruct (body s). Qed.

Lemma lift_comes_back {A} (r : HW → res A) s :
  answers r s → came_back (lift r s).
Proof. unfold answers, lift. by destruct (r s). Qed.

(** A block whose handler returns comes back with a value. *)
Lemma handled_block_returns (body : M HW unit) s :
  came_back (try_except body (λ e, mret tt) s) →
  ∃ s', try_except body (λ e, mret tt) s = Return tt s'.
Proof.
  unfold try_except.
  destruct (body s) as [[] s'|e s'|b s'|]; [by eexists|by eexists|done|done].
Qed.

Lemma by_label_cases (inst : instrument HW) label s :
  answers (devices_by_label inst) s →
  (∃ registry, devices_by_label inst s = Val registry ∧
               by_label inst label s = Return (default [] (registry !! label)) s) ∨
  (∃ e, by_label inst label s = Raise e s).
Proof.
  unfold answers. intros H.
  destruct (devices_by_label inst s) as [registry|e|] eqn:E; [| |done].
  - left. exists registry. split; [done|]. by apply by_label_returns.
  - right. exists e. unfold by_label. apply bind_Raise. by apply lift_Exc.
Qed.

Context (inst : instrument HW) (Hinst : instrument_answers inst).

Lemma probe_loop_comes_back
    (probe : gmap string (gmap string pyval) → device HW →
             M HW (gmap string (gmap string pyval)))
    registry label s0 s :
  (∀ results dev, device_answers dev s →
     ∃ entry, probe results dev s = Return (<[name dev := entry]> results) s) →
  devices_by_label inst s0 = Val registry →
  ∃ results,
    for_each probe ∅ (default [] (registry !! label)) s = Return results s.
Proof.
  intros Hprobe Hreg. destruct Hinst as (_ & _ & Hdev & _).
  destruct (for_each_probe probe (default [] (registry !! label)) s Hprobe)
    with (acc := (∅ : gmap string (gmap string pyval)))
    as (results & Hrun & _); [|by exists results].
  apply Forall_forall. intros dev Hin. by eapply Hdev.
Qed.

Lemma connectivity_summary_comes_back s :
  came_back (connectivity_summary inst s).
Proof.
  pose proof Hinst as (_ & Hreg & _).
  unfold connectivity_summary.
  destruct (by_label_cases inst "motors" s (Hreg s))
    as [(registry & Hregistry & Hm)|[e Hm]];
    [|by erewrite bind_Raise by exact Hm].
  erewrite bind_Return by exact Hm.
  destruct (probe_loop_comes_back probe_motor registry "motors" s s
              (λ results dev, probe_motor_returns results dev s) Hregistry)
    as (motor_results & Hmr).
  erewrite bind_Return by exact Hmr.
  erewrite bind_Return by (by apply by_label_returns).
  destruct (probe_loop_comes_back probe_detector registry "detectors" s s
              (λ results dev, probe_detector_returns results dev s) Hregistry)
    as (detector_results & Hdr).
  erewrite bind_Return by exact Hdr.
  erewrite bind_Return by (by apply by_label_returns).
  destruct (probe_loop_comes_back probe_baseline registry "baseline" s s
              (λ results dev H, probe_baseline_returns results dev s
                 (proj1 (proj2 (proj2 (proj2 H)))) (proj1 (proj2 (proj2 H))))
              Hregistry)
    as (baseline_results & Hbr).
  by erewrite bind_Return by exact Hbr.
Qed.

Lemma test_device_connectivity_comes_back :
  comes_back (test_device_connectivity inst).
Proof.
  intros s. unfold test_device_connectivity.
  apply (try_except_comes_back _ (λ _, false)).
  apply bind_comes_back; [apply Hinst|]. intros [] s1 _.
  apply bind_comes_back; [apply connectivity_summary_comes_back|].
  intros r s2 _. by destruct (Nat.eqb _ _).
Qed.

Lemma motor_motion_comes_back RE test_motor s0 s :
  test_devices.globals_RE inst s0 = Some RE →
  (∀ s', device_answers test_motor s') →
  came_back (motor_motion RE test_motor s).
Proof.
  intros HRE Hmotor. destruct Hinst as (_ & _ & _ & Hengine & _).
  assert (Hpos : ∀ s', came_back (lift (position test_motor) s')).
  { intros s'. apply lift_comes_back. by destruct (Hmotor s') as (H & _). }
  assert (Hfmt : ∀ v (s' : HW), came_back (eval (format_f v) s')).
  { intros v s'. apply lift_comes_back. apply format_f_comes_back. }
  unfold motor_motion. apply (try_except_comes_back _ (λ _, tt)).
  repeat (apply bind_comes_back; [by eauto|]; intros ? ? _).
  done.
Qed.

Lemma test_device_operations_comes_back :
  comes_back (test_device_operations inst).
Proof.
  intros s. pose proof Hinst as (Hexec & Hreg & Hdev & Hengine & _).
  unfold test_device_operations.
  apply (try_except_comes_back _ (λ _, false)).
  apply bind_comes_back; [apply Hexec|]. intros [] s1 _.
  unfold mbind at 1, M_bind at 1, gets.
  destruct (globals_RE inst s1) as [RE|] eqn:HRE; [|done].
  destruct (by_label_cases inst "motors" s1 (Hreg s1))
    as [(registry & Hregistry & Hm)|[e Hm]];
    [|by erewrite bind_Raise by exact Hm].
  erewrite bind_Return by exact Hm.
  apply bind_comes_back.
  { destruct (default [] (registry !! "motors")) as [|test_motor ?] eqn:Em;
      [done|].
    apply (motor_motion_comes_back RE test_motor s1); [done|].
    intros s'. apply (Hdev s1 registry "motors"); [done|].
    rewrite Em. set_solver. }
  intros [] s2 _.
  destruct (by_label_cases inst "detectors" s2 (Hreg s2))
    as [(registry2 & Hregistry2 & Hd)|[e Hd]];
    [|by erewrite bind_Raise by exact Hd].
  erewrite bind_Return by exact Hd.
  apply bind_comes_back; [|done].
  destruct (default [] (registry2 !! "detectors")) as [|test_detector ?]; [done|].
  unfold detector_counting. apply (try_except_comes_back _ (λ _, tt)).
  by eapply Hengine.
Qed.

Lemma test_data_collection_comes_back :
  comes_back (test_data_collection inst).
Proof.
  intros s. pose proof Hinst as (Hexec & Hreg & Hdev & Hengine & Hcat).
  unfold test_data_collection.
  apply (try_except_comes_back _ (λ _, false)).
  apply bind_comes_back; [apply Hexec|]. intros [] s1 _.
  unfold mbind at 1, M_bind at 1, gets. unfold mbind at 1, M_bind at 1.
  destruct (globals_RE inst s1) as [RE|] eqn:HRE; [|done].
  destruct (globals_cat inst s1) as [cat|] eqn:Hcatalog; [|done].
  destruct (by_label_cases inst "motors" s1 (Hreg s1))
    as [(registry & Hregistry & Hm)|[e Hm]];
    [|by erewrite bind_Raise by exact Hm].
  erewrite bind_Return by exact Hm.
  erewrite bind_Return by (by apply by_label_returns).
  destruct (default [] (registry !! "motors")) as [|test_motor ?]; [done|].
  destruct (default [] (registry !! "detectors")) as [|test_detector ?]; [done|].
  apply bind_comes_back; [apply lift_comes_back; by eapply Hcat|].
  intros initial_runs s2 _.
  apply bind_comes_back; [by eapply Hengine|]. intros [] s3 _.
  apply bind_comes_back; [apply lift_comes_back; by eapply Hcat|].
  intros final_runs s4 _.
  destruct (0 <? _)%Z; [|done].
  apply bind_comes_back; [apply lift_comes_back; by eapply Hcat|].
  intros latest_run s5 Hlatest.
  assert (latest cat s5 = Val latest_run) as Hrun.
  { unfold lift in Hlatest. destruct (latest cat s4) eqn:E; by simplify_eq. }
  destruct (Hcat s1 cat s5 Hcatalog) as (_ & _ & Hlast).
  apply bind_comes_back; [apply lift_comes_back; by eapply Hlast|].
  intros ? s6 _.
  apply bind_comes_back; [apply lift_comes_back; by eapply Hlast|].
  done.
Qed.

(** The hypothesis of the statements about [main] holds for every
    instrument whose collaborators come back. *)
Lemma test_devices_tests_come_back :
  Forall (λ test, comes_back test.2) (tests inst).
Proof.
  repeat constructor; simpl.
  - apply test_device_connectivity_comes_back.
  - apply test_device_operations_comes_back.
  - apply test_data_collection_comes_back.
Qed.
End come_back.

(** C4.  A probe of the connectivity test never raises to the loop that
    calls it, whatever the device does.  For a device whose attributes
    come back (with a value or with an exception), each of the three
    probes, of a motor, of a detector and of a baseline device, returns,
    leaves the world as it was, and stores under the name of the device
    a result dictionary that carries the classification as data: a pass
    or a fail with the connection flag that was read, or an error with the
    text of the exception.  Each of the three loops therefore runs to its
    end, whatever the devices before answered, and holds such a
    dictionary under every device name. *)
Theorem probes_return_data {HW : Type}
    (devices : list (bluesky.device HW)) (s : HW) :
  Forall (λ dev, device_answers dev s) devices →
  (∀ results (dev : bluesky.device HW) (s0 : HW),
     (∀ e s',
        test_devices.probe_motor results dev s0 ≠ Raise e s' ∧
        test_devices.probe_detector results dev s0 ≠ Raise e s' ∧
        test_devices.probe_baseline results dev s0 ≠ Raise e s') ∧
     (∀ b s',
        test_devices.probe_motor results dev s0 ≠ Leave b s' ∧
        test_devices.probe_detector results dev s0 ≠ Leave b s' ∧
        test_devices.probe_baseline results dev s0 ≠ Leave b s')) ∧
  (∀ dev, dev ∈ devices →
     ∃ motor_entry detector_entry baseline_entry,
       (∀ results,
          test_devices.probe_motor results dev s
          = Return (<[bluesky.name dev := motor_entry]> results) s) ∧
       classified motor_entry (motor_reading dev s) ∧
       (∀ results,
          test_devices.probe_detector results dev s
          = Return (<[bluesky.name dev := detector_entry]> results) s) ∧
       classified detector_entry (detector_reading dev s) ∧
       (∀ results,
          test_devices.probe_baseline results dev s
          = Return (<[bluesky.name dev := baseline_entry]> results) s) ∧
       classified baseline_entry (baseline_reading dev s)) ∧
  (∃ motor_results detector_results baseline_results,
     for_each test_devices.probe_motor ∅ devices s = Return motor_results s ∧
     for_each test_devices.probe_detector ∅ devices s = Return detector_results s ∧
     for_each test_devices.probe_baseline ∅ devices s = Return baseline_results s ∧
     dom motor_results = list_to_set (bluesky.name <$> devices) ∧
     dom detector_results = list_to_set (bluesky.name <$> devices) ∧
     dom baseline_results = list_to_set (bluesky.name <$> devices) ∧
     ∀ dev, dev ∈ devices →
       (∃ last entry,
          last ∈ devices ∧ bluesky.name last = bluesky.name dev ∧
          motor_results !! bluesky.name dev = Some entry ∧
          classified entry (motor_reading last s)) ∧
       (∃ last entry,
          last ∈ devices ∧ bluesky.name last = bluesky.name dev ∧
          detector_results !! bluesky.name dev = Some entry ∧
          classified entry (detector_reading last s)) ∧
       (∃ last entry,
          last ∈ devices ∧ bluesky.name last = bluesky.name dev ∧
          baseline_results !! bluesky.name dev = Some entry ∧
          classified entry (baseline_reading last s))).
Proof.
  intros Hdevices. rewrite Forall_forall in Hdevices.
  split; [|split].
  - intros results dev s0. split.
    + intros e s'. repeat split; apply try_except_never_raises.
    + intros b s'. apply probes_never_leave.
  - intros dev Hin. specialize (Hdevices dev Hin).
    destruct (probe_motor_classified dev s Hdevices) as (m & Hm & Hmc).
    destruct (probe_detector_classified dev s Hdevices) as (d & Hd & Hdc).
    destruct (probe_baseline_classified dev s Hdevices) as (b & Hb & Hbc).
    by exists m, d, b.
  - destruct (for_each_probe_entries test_devices.probe_motor motor_reading
                devices s (λ dev Hin, probe_motor_classified dev s (Hdevices dev Hin))
                ∅) as (motor_results & Hm & Hdm & _ & Hmc).
    destruct (for_each_probe_entries test_devices.probe_detector detector_reading
                devices s
                (λ dev Hin, probe_detector_classified dev s (Hdevices dev Hin))
                ∅) as (detector_results & Hd & Hdd & _ & Hdc).
    destruct (for_each_probe_entries test_devices.probe_baseline baseline_reading
                devices s
                (λ dev Hin, probe_baseline_classified dev s (Hdevices dev Hin))
                ∅) as (baseline_results & Hb & Hdb & _ & Hbc).
    exists motor_results, detector_results, baseline_results.
    rewrite Hdm, Hdd, Hdb, dom_empty_L.
    split; [done|]. split; [done|]. split; [done|].
    split; [set_solver|]. split; [set_solver|]. split; [set_solver|].
    intros dev Hin. split; [by apply Hmc|]. split; [by apply Hdc|by apply Hbc].
Qed.

Lemma probes_return_data_witness :
  let scaler := examples.broken_scaler "d" in
  (Forall (λ dev, device_answers dev 0) examples.probed_devices ∧
   scaler ∈ examples.probed_devices) ∧
  (∃ motor_entry detector_entry baseline_entry,
     (∀ results,
        test_devices.probe_motor results scaler 0
        = Return (<["d" := motor_entry]> results) 0) ∧
     classified motor_entry (Val (PyBool true)) ∧
     (∀ results,
        test_devices.probe_detector results scaler 0
        = Return (<["d" := detector_entry]> results) 0) ∧
     classified detector_entry (Exc (Exn OtherException "no channels")) ∧
     (∀ results,
        test_devices.probe_baseline results scaler 0
        = Return (<["d" := baseline_entry]> results) 0) ∧
     classified baseline_entry (Val (PyBool true))) ∧
  (∃ motor_results detector_results baseline_results,
     for_each test_devices.probe_motor ∅ examples.probed_devices 0
     = Return motor_results 0 ∧
     for_each test_devices.probe_detector ∅ examples.probed_devices 0
     = Return detector_results 0 ∧
     for_each test_devices.probe_baseline ∅ examples.probed_devices 0
     = Return baseline_results 0).
Proof.
  intros scaler.
  assert (H : Forall (λ dev, device_answers dev 0) examples.probed_devices).
  { apply Forall_forall. intros dev Hdev.
    repeat (apply elem_of_cons in Hdev as [->|Hdev]);
      [| | | | |by apply elem_of_nil in Hdev];
      unfold device_answers, answers;
      repeat apply conj; try (simpl; discriminate);
      intros read Heq; simpl in Heq; injection Heq as <-; discriminate. }
  assert (Hin : scaler ∈ examples.probed_devices).
  { unfold examples.probed_devices. set_solver. }
  split; [by split|].
  destruct (probes_return_data examples.probed_devices 0 H)
    as (_ & Hdevice & motor_results & detector_results & baseline_results &
        Hm & Hd & Hb & _).
  split.
  - exact (Hdevice scaler Hin).
  - by exists motor_results, detector_results, baseline_results.
Defined.

(* ================================================================== *)
(** * Calls that do not return *)

Section blocking.
Import explore_iocs.
Context {HW : Type}.

Local Ltac run_calls :=
  unfold new_PV, pv_wait_for_connection, pv_get, reading, logged,
    try_except, try_except_bare, mbind, M_bind, eval, lift, mret, M_ret,
    compose; simpl.

Lemma check_pv_returns (ep : epics HW) connected pv_name (s : state HW) :
  pv_answers ep pv_name timeout (hw s) →
  ∃ connected' s',
    check_pv ep connected pv_name s = Return connected' s' ∧ hw s' = hw s.
Proof.
  intros (Hpv & Hwait & Hget). unfold answers in *.
  unfold check_pv. run_calls.
  destruct (PV ep pv_name (hw s)) as [[]|e|]; simpl; [|by eauto|done].
  destruct (wait_for_connection ep pv_name timeout (hw s)) as [[]|e|]; simpl;
    [|by eauto|by eauto|done].
  destruct (get ep pv_name (hw s)) as [v|e|]; simpl; [by eauto|by eauto|done].
Qed.

Lemma check_pv_blocks (ep : epics HW) connected pv_name (s : state HW) :
  PV ep pv_name (hw s) = Val tt →
  wait_for_connection ep pv_name timeout (hw s) = Val true →
  get ep pv_name (hw s) = Blocked →
  check_pv ep connected pv_name s = Hang.
Proof.
  intros Hpv Hwait Hget. unfold check_pv. run_calls.
  rewrite Hpv. simpl. rewrite Hwait. simpl. by rewrite Hget.
Qed.

Lemma test_connectivity_returns (ep : epics HW) (s : state HW) :
  Forall (λ pv_name, pv_answers ep pv_name timeout (hw s)) test_pvs →
  ∃ success s',
    test_connectivity (Some ep) s = Return success s' ∧ hw s' = hw s.
Proof.
  unfold test_pvs. intros H.
  apply Forall_cons in H as [H1 H]. apply Forall_cons in H as [H2 _].
  destruct (check_pv_returns ep 0 _ s H1) as (n1 & s1 & E1 & Hs1).
  rewrite <- Hs1 in H2.
  destruct (check_pv_returns ep n1 _ s1 H2) as (n2 & s2 & E2 & Hs2).
  exists (Nat.eqb n2 (length test_pvs)), s2. split; [|congruence].
  unfold test_connectivity, test_pvs. simpl.
  erewrite bind_Return; [reflexivity|].
  erewrite bind_Return by exact E1. by erewrite bind_Return by exact E2.
Qed.
End blocking.

(** C5, as the claim states it, fails: a connectivity check applied to a
    device whose read never returns does not return either.  The
    baseline probe of [test_devices] calls [dev.get()] without any
    timeout, and [test_connectivity] of [explore_iocs] hands its timeout
    to [wait_for_connection] and then calls [pv.get()]; neither bounds
    the call itself. *)
Lemma check_blocks_when_read_never_returns :
  test_devices.probe_baseline ∅ (examples.silent "thermometer") 0 = Hang ∧
  test_devices.test_device_connectivity examples.silent_instrument 0 = Hang ∧
  explore_iocs.test_connectivity (Some examples.silent_ioc) (examples.start tt)
  = Hang.
Proof. repeat split; vm_compute; reflexivity. Qed.

(** C5, amended.  A connectivity check returns whenever the calls it
    makes into the device or PV layer come back, and leaves the world as
    it was; it blocks when the read it makes does not return.  The only
    timeout in the code is the one handed to [wait_for_connection]. *)
Theorem checks_return_when_reads_return {HW : Type} :
  (∀ (dev : bluesky.device HW) results (s : HW),
     (answers (bluesky.get dev) s → answers (bluesky.connected dev) s →
      ∃ results', test_devices.probe_baseline results dev s = Return results' s) ∧
     (bluesky.get dev s = Blocked →
      test_devices.probe_baseline results dev s = Hang)) ∧
  (∀ (ep : explore_iocs.epics HW) (s : explore_iocs.state HW),
     (Forall (λ pv_name,
                pv_answers ep pv_name explore_iocs.timeout (explore_iocs.hw s))
        explore_iocs.test_pvs →
      ∃ success s',
        explore_iocs.test_connectivity (Some ep) s = Return success s' ∧
        explore_iocs.hw s' = explore_iocs.hw s) ∧
     (explore_iocs.PV ep "gp:m1.DESC" (explore_iocs.hw s) = Val tt →
      explore_iocs.wait_for_connection ep "gp:m1.DESC" explore_iocs.timeout
        (explore_iocs.hw s) = Val true →
      explore_iocs.get ep "gp:m1.DESC" (explore_iocs.hw s) = Blocked →
      explore_iocs.test_connectivity (Some ep) s = Hang)).
Proof.
  split.
  - intros dev results s. split.
    + intros Hget Hcon.
      destruct (probe_baseline_returns results dev s Hget Hcon) as (entry & H).
      by eexists.
    + intros Hget. unfold test_devices.probe_baseline, try_except.
      erewrite bind_Hang; [done|]. by apply lift_Blocked.
  - intros ep s. split.
    + apply test_connectivity_returns.
    + intros Hpv Hwait Hget.
      unfold explore_iocs.test_connectivity, explore_iocs.test_pvs. simpl.
      apply bind_Hang. apply bind_Hang. by apply check_pv_blocks.
Qed.

Lemma checks_return_when_reads_return_witness :
  (answers (bluesky.get (examples.reachable "thermometer")) 0 ∧
   answers (bluesky.connected (examples.reachable "thermometer")) 0 ∧
   Forall (λ pv_name,
             pv_answers examples.table_ioc pv_name explore_iocs.timeout
               examples.motor_ioc)
     explore_iocs.test_pvs) ∧
  (∃ results',
     test_devices.probe_baseline ∅ (examples.reachable "thermometer") 0
     = Return results' 0) ∧
  (∃ success s',
     explore_iocs.test_connectivity (Some examples.table_ioc)
       (examples.start examples.motor_ioc) = Return success s' ∧
     explore_iocs.hw s' = examples.motor_ioc).
Proof.
  assert (Hget : answers (bluesky.get (examples.reachable "thermometer")) 0)
    by (vm_compute; discriminate).
  assert (Hcon : answers (bluesky.connected (examples.reachable "thermometer")) 0)
    by (vm_compute; discriminate).
  assert (Hpvs : Forall (λ pv_name,
                           pv_answers examples.table_ioc pv_name
                             explore_iocs.timeout examples.motor_ioc)
                   explore_iocs.test_pvs).
  { repeat constructor; vm_compute; discriminate. }
  split; [by repeat split|]. split.
  - exact (proj1 (proj1 checks_return_when_reads_return
                    (examples.reachable "thermometer") ∅ 0) Hget Hcon).
  - exact (proj1 (proj2 checks_return_when_reads_return examples.table_ioc
                    (examples.start examples.motor_ioc)) Hpvs).
Defined.

(* ================================================================== *)
(** * Discovery by label *)




(* ================================================================== *)
(** * Suites that find nothing to test *)

Section empty_discovery.
Import bluesky.
Context {HW : Type}.

Local Ltac run_script :=
  unfold try_except, try_except_ImportError, try_finally,
    mbind, M_bind, eval, lift, gets, modify, raise, mret, M_ret, discover;
  simpl.

Lemma connectivity_of_nothing (inst : test_devices.instrument HW) registry s s1 :
  test_devices.exec_startup inst s = Return tt s1 →
  test_devices.devices_by_label inst s1 = Val registry →
  discover registry "motors" = Val [] →
  discover registry "detectors" = Val [] →
  discover registry "baseline" = Val [] →
  test_devices.test_device_connectivity inst s = Return true s1.
Proof.
  unfold discover. intros Hexec Hreg [= Hm] [= Hd] [= Hb].
  unfold test_devices.test_device_connectivity,
    test_devices.connectivity_summary, test_devices.by_label.
  run_script. rewrite Hexec. simpl.
  rewrite Hreg, Hm. simpl. rewrite Hreg, Hd. simpl. rewrite Hreg, Hb. simpl.
  reflexivity.
Qed.

Lemma data_collection_of_nothing (inst : test_devices.instrument HW) registry s s1 :
  test_devices.exec_startup inst s = Return tt s1 →
  test_devices.devices_by_label inst s1 = Val registry →
  discover registry "motors" = Val [] ∨ discover registry "detectors" = Val [] →
  test_devices.test_data_collection inst s = Return false s1.
Proof.
  unfold discover. intros Hexec Hreg Hnone.
  unfold test_devices.test_data_collection, test_devices.by_label.
  run_script. rewrite Hexec. simpl.
  destruct (test_devices.globals_RE inst s1) as [RE|]; [|done].
  destruct (test_devices.globals_cat inst s1) as [cat|]; [|done].
  rewrite Hreg. simpl. rewrite Hreg. simpl.
  destruct Hnone as [[= ->]|[= ->]]; [done|].
  by destruct (default [] (registry !! "motors")).
Qed.

Lemma operations_of_nothing (inst : test_devices.instrument HW) registry s s1 :
  test_devices.exec_startup inst s = Return tt s1 →
  test_devices.devices_by_label inst s1 = Val registry →
  discover registry "motors" = Val [] →
  discover registry "detectors" = Val [] →
  test_devices.test_device_operations inst s
  = Return (bool_decide (is_Some (test_devices.globals_RE inst s1))) s1.
Proof.
  unfold discover. intros Hexec Hreg [= Hm] [= Hd].
  unfold test_devices.test_device_operations, test_devices.by_label.
  run_script. rewrite Hexec. simpl.
  destruct (test_devices.globals_RE inst s1) as [RE|]; [|done].
  rewrite Hreg, Hm. simpl. rewrite Hreg, Hd. simpl. done.
Qed.

Lemma plan_simulation_of_nothing (inst : test_plans.instrument HW) registry t :
  (∀ t', test_plans.devices_by_label inst t' = Val registry) →
  discover registry "motors" = Val [] ∨ discover registry "detectors" = Val [] →
  came_back (test_plans.find_startup inst test_plans.instrument_names t) →
  ∃ t', test_plans.test_plan_simulation inst t = Return false t'.
Proof.
  unfold discover. intros Hreg Hnone Hfind.
  unfold test_plans.test_plan_simulation, test_plans.by_label,
    test_plans.getattr_RE, try_except.
  unfold mbind at 1, M_bind at 1.
  destruct (test_plans.find_startup inst test_plans.instrument_names t)
    as [[startup|] t1|e t1|b t1|]; [| |by eauto|done|done]; [|by eauto].
  run_script.
  destruct (test_plans.module_RE startup) as [RE|]; simpl; [|by eauto].
  rewrite Hreg. simpl. rewrite Hreg. simpl.
  destruct Hnone as [[= ->]|[= ->]]; [by eauto|].
  destruct (default [] (registry !! "motors")); by eauto.
Qed.
End empty_discovery.

(** C7, as the claim states it, fails: with an instrument that loads and
    has no device under any label, the connectivity suite and the
    operations suite succeed, the data-collection suite fails because it
    finds no motor and no detector, and that alone makes [main] end with
    exit code 1.  The plan simulation of [test_plans] fails the same way. *)
Lemma empty_discovery_fails_the_run :
  test_devices.test_device_connectivity examples.bare_instrument 0
  = Return true 0 ∧
  test_devices.test_device_operations examples.bare_instrument 0
  = Return true 0 ∧
  test_devices.test_data_collection examples.bare_instrument 0
  = Return false 0 ∧
  test_devices.main examples.bare_instrument 0 = Return 1%Z 0 ∧
  test_plans.test_plan_simulation (examples.plans_instrument_of ∅) 0
  = Return false 0.
Proof. repeat split; vm_compute; reflexivity. Qed.

(** C7, amended.  For an instrument that loads and has no device under
    any label: the connectivity suite succeeds (zero devices connected
    out of zero) and so does not fail the run; the data-collection suite
    returns false, and [main] ends with exit code 1; the plan simulation
    of [test_plans] returns false as well. *)
Theorem empty_discovery_policy {HW : Type}
    (inst : test_devices.instrument HW) (plans_inst : test_plans.instrument HW)
    (registry : gmap string (list (bluesky.device HW))) :
  (∀ s, ∃ s', test_devices.exec_startup inst s = Return tt s') →
  (∀ s, test_devices.devices_by_label inst s = Val registry) →
  (∀ s, test_plans.devices_by_label plans_inst s = Val registry) →
  bluesky.discover registry "motors" = Val [] →
  bluesky.discover registry "detectors" = Val [] →
  bluesky.discover registry "baseline" = Val [] →
  ∀ s,
    (∃ s', test_devices.test_device_connectivity inst s = Return true s') ∧
    (∃ s', test_devices.test_data_collection inst s = Return false s') ∧
    (∃ s', test_devices.main inst s = Return 1%Z s') ∧
    (came_back (test_plans.find_startup plans_inst test_plans.instrument_names s) →
     ∃ s', test_plans.test_plan_simulation plans_inst s = Return false s').
Proof.
  intros Hexec Hreg Hplans Hm Hd Hb s.
  destruct (Hexec s) as [s1 E1].
  pose proof (connectivity_of_nothing inst registry s s1 E1 (Hreg s1) Hm Hd Hb)
    as Hconn.
  split; [by eauto|]. split; [|split].
  - exists s1. apply (data_collection_of_nothing inst registry); auto.
  - destruct (Hexec s1) as [s2 E2]. destruct (Hexec s2) as [s3 E3].
    pose proof (operations_of_nothing inst registry s1 s2 E2 (Hreg s2) Hm Hd)
      as Hops.
    pose proof (data_collection_of_nothing inst registry s2 s3 E3 (Hreg s3)
                  (or_introl Hm)) as Hdata.
    exists s3. unfold test_devices.main, run_tests, test_devices.tests.
    erewrite bind_Return.
    2: { cbn [for_each].
         erewrite bind_Return by (apply run_test_returned; exact Hconn).
         erewrite bind_Return by (apply run_test_returned; exact Hops).
         erewrite bind_Return by (apply run_test_returned; exact Hdata).
         reflexivity. }
    simpl. by destruct (bool_decide _).
  - intros Hfind. apply (plan_simulation_of_nothing plans_inst registry); auto.
Qed.

Lemma empty_discovery_policy_witness :
  ((∀ s, ∃ s', test_devices.exec_startup examples.bare_instrument s = Return tt s') ∧
   bluesky.discover (∅ : gmap string (list (bluesky.device nat))) "motors" = Val [] ∧
   came_back (test_plans.find_startup (examples.plans_instrument_of ∅)
                test_plans.instrument_names 0)) ∧
  (∃ s', test_devices.test_device_connectivity examples.bare_instrument 0
         = Return true s') ∧
  (∃ s', test_devices.test_data_collection examples.bare_instrument 0
         = Return false s') ∧
  (∃ s', test_devices.main examples.bare_instrument 0 = Return 1%Z s') ∧
  (∃ s', test_plans.test_plan_simulation (examples.plans_instrument_of ∅) 0
         = Return false s').
Proof.
  assert (Hexec : ∀ s, ∃ s', test_devices.exec_startup examples.bare_instrument s
                             = Return tt s') by (intros s; by exists s).
  assert (Hfind : came_back (test_plans.find_startup (examples.plans_instrument_of ∅)
                               test_plans.instrument_names 0))
    by (vm_compute; exact I).
  split; [by repeat split|].
  destruct (empty_discovery_policy examples.bare_instrument
              (examples.plans_instrument_of ∅) ∅ Hexec
              (λ s, eq_refl) (λ s, eq_refl) eq_refl eq_refl eq_refl 0)
    as (H1 & H2 & H3 & H4).
  repeat split; [exact H1|exact H2|exact H3|exact (H4 Hfind)].
Defined.

(* ================================================================== *)
(** * The IOC explorer *)

(** C9.  [find_detectors] makes no call into PyEPICS and does not depend
    on the IOC: from every state it returns the same dictionary, with
    exactly the three scalers [gp:scaler1] to [gp:scaler3] and exactly one
    area detector, and leaves the state and the list of calls untouched.
    Without PyEPICS, [find_motors] returns exactly the twenty motors
    [gp:m1] to [gp:m20], in ascending order, again without any call. *)
Theorem static_discovery {HW : Type} (s : explore_iocs.state HW) :
  (∃ detectors,
     explore_iocs.find_detectors s = Return detectors s ∧
     dom detectors = ({["scalers"; "area_detectors"]} : gset string) ∧
     detectors !! "scalers"
     = Some [explore_iocs.scaler_entry 1; explore_iocs.scaler_entry 2;
             explore_iocs.scaler_entry 3] ∧
     (λ d : gmap string pyval, d !! "pv")
       <$> [explore_iocs.scaler_entry 1; explore_iocs.scaler_entry 2;
            explore_iocs.scaler_entry 3]
     = [Some (PyStr "gp:scaler1"); Some (PyStr "gp:scaler2");
        Some (PyStr "gp:scaler3")] ∧
     detectors !! "area_detectors" = Some [explore_iocs.area_detector_entry]) ∧
  (∃ motors,
     explore_iocs.find_motors None s = Return motors s ∧
     length motors = 20 ∧
     (λ d : gmap string pyval, d !! "pv") <$> motors
     = (λ pv, Some (PyStr pv))
         <$> ["gp:m1"; "gp:m2"; "gp:m3"; "gp:m4"; "gp:m5"; "gp:m6"; "gp:m7";
              "gp:m8"; "gp:m9"; "gp:m10"; "gp:m11"; "gp:m12"; "gp:m13";
              "gp:m14"; "gp:m15"; "gp:m16"; "gp:m17"; "gp:m18"; "gp:m19";
              "gp:m20"]).
Proof.
  split.
  - eexists. split; [reflexivity|]. repeat split; vm_compute; reflexivity.
  - eexists. split; [reflexivity|]. split; vm_compute; reflexivity.
Qed.

Section motion.
Import explore_iocs.
Context {HW : Type}.

Lemma py_add_float_as_float (v : pyval) (d : float) :
  match as_float v with
  | Val f => py_add_float v d = Val (PyFloat (f + d)%float)
  | Exc _ => ∃ e, py_add_float v d = Exc e
  | Blocked => False
  end.
Proof.
  pose proof (as_float_comes_back v) as Hback. unfold py_add_float.
  destruct v; simpl in *; try done; try by eexists.
  destruct (float_of_int z); try done. by eexists.
Qed.

Local Ltac run_calls :=
  unfold new_PV, pv_wait_for_connection, pv_get, reading, logged,
    try_except, try_except_bare, mbind, M_bind, eval, lift, mret, M_ret,
    compose; simpl.

Local Ltac only_reads :=
  eexists; split; [reflexivity|]; split; [done|]; simpl;
  rewrite <- ?app_assoc; eexists; split; [reflexivity|];
  by repeat constructor.

(** What [test_device_motion] does with PyEPICS at hand: it creates the
    readback PV, waits for it, reads it, and computes the target. *)
Lemma test_device_motion_cases (ep : epics HW) motor_pv relative_move
    (s : state HW) :
  let rbv := motor_pv +:+ ".RBV" in
  match PV ep rbv (hw s), wait_for_connection ep rbv 2.0 (hw s),
        get ep rbv (hw s) with
  | Blocked, _, _ | Val _, Blocked, _ | Val _, Val true, Blocked =>
      test_device_motion (Some ep) motor_pv relative_move s = Hang
  | Val _, Val true, Val v =>
      ∃ s', test_device_motion (Some ep) motor_pv relative_move s
            = Return (if as_float v is Val _ then true else false) s' ∧
            hw s' = hw s ∧
            ∃ new, calls s' = calls s ++ new ∧ Forall (reads_pv rbv) new
  | _, _, _ =>
      ∃ s', test_device_motion (Some ep) motor_pv relative_move s
            = Return false s' ∧
            hw s' = hw s ∧
            ∃ new, calls s' = calls s ++ new ∧ Forall (reads_pv rbv) new
  end.
Proof.
  intros rbv. unfold test_device_motion. fold rbv. run_calls.
  destruct (PV ep rbv (hw s)) as [[]|e|] eqn:Epv; simpl; [| |done].
  2: { destruct (wait_for_connection ep rbv 2 (hw s)) as [[]|?|];
       [destruct (get ep rbv (hw s))|..]; only_reads. }
  destruct (wait_for_connection ep rbv 2 (hw s)) as [[]|e|]; simpl; [| | |done].
  2,3: destruct (get ep rbv (hw s)); only_reads.
  destruct (get ep rbv (hw s)) as [v|e|]; simpl; [| |done].
  2: only_reads.
  rewrite Epv. simpl.
  pose proof (py_add_float_as_float v relative_move) as Hadd.
  unfold format_f. destruct (as_float v) as [f|e|]; [| |done].
  - rewrite Hadd. only_reads.
  - destruct Hadd as [e' ->]. only_reads.
Qed.
End motion.

(** For contrast with the motion test: the scaler test does write, its
    calls contain the two [put]s and the IOC is changed. *)
Example scaler_count_writes_the_ioc :
  ∃ s',
    explore_iocs.test_scaler_count (Some examples.table_ioc) "gp:scaler1" 1.0
      (examples.start examples.scaler_ioc) = Return true s' ∧
    explore_iocs.Put "gp:scaler1.CNT" (PyInt 1) ∈ explore_iocs.calls s' ∧
    explore_iocs.hw s' !! "gp:scaler1.CNT" = Some (PyInt 1) ∧
    examples.scaler_ioc !! "gp:scaler1.CNT" = Some (PyInt 0).
Proof.
  eexists. split; [vm_compute; reflexivity|]. simpl.
  split; [set_solver|]. split; vm_compute; reflexivity.
Qed.

(** A motion test on a readback that holds a number succeeds. *)
Example motion_test_on_a_number :
  ∃ s',
    explore_iocs.test_device_motion (Some examples.table_ioc) "gp:m1" 0.1
      (examples.start examples.motor_ioc) = Return true s' ∧
    explore_iocs.hw s' = examples.motor_ioc.
Proof. eexists. split; vm_compute; reflexivity. Qed.

(** C10, as the claim states it, fails in its last part: the connection
    to the readback PV succeeds, the read gives [None], the sum
    [initial_pos + relative_move] raises, and the call returns false. *)
Lemma motion_test_fails_on_stale_readback :
  explore_iocs.wait_for_connection examples.table_ioc "gp:m1.RBV" 2.0
    examples.stale_ioc = Val true ∧
  ∃ s',
    explore_iocs.test_device_motion (Some examples.table_ioc) "gp:m1" 0.1
      (examples.start examples.stale_ioc) = Return false s'.
Proof. split; [reflexivity|]. eexists. vm_compute. reflexivity. Qed.

(** C10, amended.  [test_device_motion] never writes a PV: when its
    calls into PyEPICS come back, it returns, the IOC is as it was, and
    the calls it has made are creations, connections and reads of the
    readback PV [<motor_pv>.RBV] only.  For every [relative_move] it
    returns true exactly when the PV is created, the connection succeeds
    and the value read is a number; without PyEPICS it returns false
    without any call. *)
Theorem motion_test_only_reads {HW : Type} (ep : explore_iocs.epics HW)
    (motor_pv : string) (relative_move : float) (s : explore_iocs.state HW) :
  pv_answers ep (motor_pv +:+ ".RBV") 2.0 (explore_iocs.hw s) →
  (∃ success s',
     explore_iocs.test_device_motion (Some ep) motor_pv relative_move s
     = Return success s' ∧
     explore_iocs.hw s' = explore_iocs.hw s ∧
     (∃ new, explore_iocs.calls s' = explore_iocs.calls s ++ new ∧
             Forall (reads_pv (motor_pv +:+ ".RBV")) new) ∧
     (success = true ↔
        explore_iocs.PV ep (motor_pv +:+ ".RBV") (explore_iocs.hw s) = Val tt ∧
        explore_iocs.wait_for_connection ep (motor_pv +:+ ".RBV") 2.0
          (explore_iocs.hw s) = Val true ∧
        ∃ v f, explore_iocs.get ep (motor_pv +:+ ".RBV") (explore_iocs.hw s)
               = Val v ∧ as_float v = Val f)) ∧
  explore_iocs.test_device_motion None motor_pv relative_move s = Return false s.
Proof.
  intros (Hpv & Hwait & Hget). unfold answers in *. split; [|done].
  pose proof (test_device_motion_cases ep motor_pv relative_move s) as H.
  simpl in H.
  destruct (explore_iocs.PV ep _ _) as [[]|e|]; [| |done].
  - destruct (explore_iocs.wait_for_connection ep _ _ _) as [[]|e|]; [| | |done].
    + destruct (explore_iocs.get ep _ _) as [v|e|]; [| |done].
      * destruct H as (s' & Hrun & Hhw & Hcalls).
        eexists _, s'. split; [exact Hrun|]. split; [done|]. split; [done|].
        destruct (as_float v) as [f|e|] eqn:Ef.
        -- split; [|done]. intros _. repeat split. by exists v, f.
        -- split; [done|]. intros (_ & _ & v' & f' & [= <-] & Hf). congruence.
        -- split; [done|]. intros (_ & _ & v' & f' & [= <-] & Hf). congruence.
      * destruct H as (s' & Hrun & Hhw & Hcalls).
        exists false, s'. repeat split; try done.
        by intros (_ & _ & v & f & ? & _).
    + destruct (explore_iocs.get ep _ _); destruct H as (s' & Hrun & Hhw & Hcalls);
        exists false, s'; repeat split; try done; by intros (_ & ? & _).
    + destruct (explore_iocs.get ep _ _); destruct H as (s' & Hrun & Hhw & Hcalls);
        exists false, s'; repeat split; try done; by intros (_ & ? & _).
  - destruct (explore_iocs.wait_for_connection ep _ _ _) as [[]|?|];
      [destruct (explore_iocs.get ep _ _)|..];
      destruct H as (s' & Hrun & Hhw & Hcalls);
      exists false, s'; repeat split; try done; by intros (? & _).
Qed.

Lemma motion_test_only_reads_witness :
  pv_answers examples.table_ioc "gp:m1.RBV" 2.0 examples.motor_ioc ∧
  ∃ success s',
    explore_iocs.test_device_motion (Some examples.table_ioc) "gp:m1" 0.1
      (examples.start examples.motor_ioc) = Return success s' ∧
    explore_iocs.hw s' = examples.motor_ioc ∧
    (∃ new, explore_iocs.calls s' = new ∧ Forall (reads_pv "gp:m1.RBV") new) ∧
    (success = true ↔
       explore_iocs.PV examples.table_ioc "gp:m1.RBV" examples.motor_ioc = Val tt ∧
       explore_iocs.wait_for_connection examples.table_ioc "gp:m1.RBV" 2.0
         examples.motor_ioc = Val true ∧
       ∃ v f, explore_iocs.get examples.table_ioc "gp:m1.RBV" examples.motor_ioc
              = Val v ∧ as_float v = Val f).
Proof.
  assert (H : pv_answers examples.table_ioc "gp:m1.RBV" 2.0 examples.motor_ioc)
    by (repeat split; vm_compute; discriminate).
  split; [exact H|].
  exact (proj1 (motion_test_only_reads examples.table_ioc "gp:m1" 0.1
                  (examples.start examples.motor_ioc) H)).
Defined.

(* ================================================================== *)
(** * More about the IOC explorer *)

Section explorer.
Import explore_iocs.
Context {HW : Type}.

Local Ltac run_calls :=
  unfold new_PV, pv_wait_for_connection, pv_get, reading, logged,
    try_except, try_except_bare, mbind, M_bind, eval, lift, mret, M_ret,
    compose; simpl.

Local Ltac no_puts :=
  eexists; split; [reflexivity|]; split; [done|]; simpl;
  rewrite <- ?app_assoc; eexists; split; [reflexivity|];
  by repeat constructor.

(** One connection check adds one to the count exactly when the PV is
    readable, and only reads. *)
Lemma check_pv_counts (ep : epics HW) connected pv_name t (s : state HW) :
  pv_answers ep pv_name t (hw s) →
  ∃ s',
    try_except
      (new_PV ep pv_name;;
       ok ← pv_wait_for_connection ep pv_name t;
       if ok : bool then pv_get ep pv_name;; mret (connected + 1)
       else mret connected)
      (λ e, mret connected) s
    = Return (connected + if pv_readable ep pv_name t (hw s) then 1 else 0) s' ∧
    hw s' = hw s ∧
    ∃ new, calls s' = calls s ++ new ∧ Forall (λ c, is_put c = false) new.
Proof.
  intros (Hpv & Hwait & Hget). unfold answers, pv_readable in *. run_calls.
  destruct (PV ep pv_name (hw s)) as [[]|e|]; simpl; [| |done].
  2: { rewrite Nat.add_0_r. no_puts. }
  destruct (wait_for_connection ep pv_name t (hw s)) as [[]|e|]; simpl;
    [| | |done]; try (rewrite Nat.add_0_r; no_puts).
  destruct (get ep pv_name (hw s)) as [v|e|]; simpl; [| |done].
  - no_puts.
  - rewrite Nat.add_0_r. no_puts.
Qed.

Lemma check_pvs_count (ep : epics HW) t pvs :
  ∀ connected (s : state HW),
    Forall (λ pv_name, pv_answers ep pv_name t (hw s)) pvs →
    ∃ s',
      for_each
        (λ connected pv_name,
           try_except
             (new_PV ep pv_name;;
              ok ← pv_wait_for_connection ep pv_name t;
              if ok : bool then pv_get ep pv_name;; mret (connected + 1)
              else mret connected)
             (λ e, mret connected))
        connected pvs s
      = Return (connected +
                length (List.filter (λ pv_name, pv_readable ep pv_name t (hw s)) pvs))
          s' ∧
      hw s' = hw s ∧
      ∃ new, calls s' = calls s ++ new ∧ Forall (λ c, is_put c = false) new.
Proof.
  induction pvs as [|pv_name pvs IH]; intros connected s Hpvs.
  - exists s. simpl. rewrite Nat.add_0_r. split; [done|]. split; [done|].
    exists []. by rewrite app_nil_r.
  - apply Forall_cons in Hpvs as [Hpv Hpvs].
    destruct (check_pv_counts ep connected pv_name t s Hpv)
      as (s1 & Hrun & Hhw & new1 & Hcalls1 & Hnew1).
    rewrite <- Hhw in Hpvs.
    destruct (IH (connected + if pv_readable ep pv_name t (hw s) then 1 else 0)
                s1 Hpvs) as (s' & Hrest & Hhw' & new2 & Hcalls2 & Hnew2).
    exists s'. split; [|split; [congruence|]].
    + cbn [for_each]. erewrite bind_Return by exact Hrun. rewrite Hrest, Hhw.
      f_equal. simpl. destruct (pv_readable ep pv_name t (hw s)); simpl; lia.
    + exists (new1 ++ new2). rewrite Hcalls2, Hcalls1, app_assoc.
      split; [done|]. by apply Forall_app.
Qed.

(** X1.  With PyEPICS, [test_connectivity] returns true exactly when
    both test PVs are created, connect within the timeout and are read;
    it only reads, so the IOC is as it was.  Without PyEPICS it returns
    false and makes no call. *)
Theorem test_connectivity_verdict (ep : epics HW) (s : state HW) :
  Forall (λ pv_name, pv_answers ep pv_name timeout (hw s)) test_pvs →
  (∃ s',
     test_connectivity (Some ep) s
     = Return (forallb (λ pv_name, pv_readable ep pv_name timeout (hw s))
                 test_pvs) s' ∧
     hw s' = hw s ∧
     ∃ new, calls s' = calls s ++ new ∧ Forall (λ c, is_put c = false) new) ∧
  test_connectivity None s = Return false s.
Proof.
  intros Hpvs. split; [|done].
  destruct (check_pvs_count ep timeout test_pvs 0 s Hpvs)
    as (s' & Hrun & Hhw & Hcalls).
  exists s'. split; [|done].
  unfold test_connectivity. erewrite bind_Return by exact Hrun.
  unfold mret, M_ret. f_equal. simpl.
  by repeat destruct (pv_readable _ _ _ _).
Qed.

(** Which motors [find_motors] lists when PyEPICS is there. *)
Lemma find_motors_from (ep : epics HW) (indices : list nat) :
  ∀ motors (s : state HW),
    Forall (λ i, pv_answers ep ("gp:m" +:+ str_of_nat i +:+ ".DESC") 1.0 (hw s))
      indices →
    ∃ found s',
      for_each (find_motor (Some ep)) motors indices s
      = Return (motors ++ found) s' ∧
      hw s' = hw s ∧
      (∃ new, calls s' = calls s ++ new ∧ Forall (λ c, is_put c = false) new) ∧
      (λ d : gmap string pyval, d !! "pv") <$> found
      = (λ i, Some (PyStr ("gp:m" +:+ str_of_nat i)))
          <$> List.filter
                (λ i, pv_readable ep ("gp:m" +:+ str_of_nat i +:+ ".DESC") 1.0
                        (hw s))
                indices.
Proof.
  induction indices as [|i indices IH]; intros motors s Hall.
  - exists [], s. rewrite app_nil_r. split; [done|]. split; [done|].
    split; [|done]. exists []. by rewrite app_nil_r.
  - apply Forall_cons in Hall as [(Hpv & Hwait & Hget) Hall].
    unfold answers in Hpv, Hwait, Hget.
    assert (∃ found1 s1,
              find_motor (Some ep) motors i s = Return (motors ++ found1) s1 ∧
              hw s1 = hw s ∧
              (∃ new, calls s1 = calls s ++ new ∧
                      Forall (λ c, is_put c = false) new) ∧
              (λ d : gmap string pyval, d !! "pv") <$> found1
              = (λ i, Some (PyStr ("gp:m" +:+ str_of_nat i)))
                  <$> List.filter
                        (λ i, pv_readable ep
                                ("gp:m" +:+ str_of_nat i +:+ ".DESC") 1.0 (hw s))
                        [i]) as (found1 & s1 & Hrun & Hhw & Hcalls & Hpvs).
    { unfold find_motor, pv_readable. run_calls. simpl in Hpv, Hwait, Hget.
      assert (Hnone : ∀ s1 : state HW,
                hw s1 = hw s →
                (∃ new, calls s1 = calls s ++ new ∧
                        Forall (λ c, is_put c = false) new) →
                ∃ found1 s1',
                  Return motors s1 = Return (motors ++ found1) s1' ∧
                  hw s1' = hw s ∧
                  (∃ new, calls s1' = calls s ++ new ∧
                          Forall (λ c, is_put c = false) new) ∧
                  (λ d : gmap string pyval, d !! "pv") <$> found1 = []).
      { intros s1 ? ?. exists [], s1. by rewrite app_nil_r. }
      destruct (PV ep _ (hw s)) as [[]|e|]; simpl; [| |done].
      2: { apply Hnone; [done|]. eexists. split; [reflexivity|].
           by repeat constructor. }
      destruct (wait_for_connection ep _ 1 (hw s)) as [[]|e|]; simpl;
        [| | |done].
      2,3: apply Hnone; [done|]; rewrite <- ?app_assoc; eexists;
           (split; [reflexivity|]); by repeat constructor.
      destruct (get ep _ (hw s)) as [desc|e|]; simpl; [| |done].
      - eexists [_], _. split; [reflexivity|]. split; [done|]. split; [|done].
        simpl. rewrite <- ?app_assoc. eexists. split; [reflexivity|].
        by repeat constructor.
      - apply Hnone; [done|]. simpl. rewrite <- ?app_assoc. eexists.
        split; [reflexivity|]. by repeat constructor. }
    rewrite <- Hhw in Hall.
    destruct (IH (motors ++ found1) s1 Hall)
      as (found2 & s' & Hrest & Hhw' & (new2 & Hcalls2 & Hnew2) & Hpvs2).
    destruct Hcalls as (new1 & Hcalls1 & Hnew1).
    exists (found1 ++ found2), s'. split; [|split; [congruence|split]].
    + cbn [for_each]. erewrite bind_Return by exact Hrun.
      by rewrite Hrest, app_assoc.
    + exists (new1 ++ new2). rewrite Hcalls2, Hcalls1, app_assoc.
      split; [done|]. by apply Forall_app.
    + rewrite fmap_app, Hpvs, Hpvs2, Hhw. simpl.
      destruct (pv_readable ep _ 1 (hw s)); by simpl.
Qed.

(** X2.  With PyEPICS, [find_motors] lists exactly those of the motors
    [gp:m1] to [gp:m20] whose description PV is created, connects and is
    read, in ascending order; a motor whose PV does not connect or whose
    calls raise is left out without an error, and nothing is written. *)
Theorem find_motors_lists_readable_motors (ep : epics HW) (s : state HW) :
  Forall (λ i, pv_answers ep ("gp:m" +:+ str_of_nat i +:+ ".DESC") 1.0 (hw s))
    (seq 1 20) →
  ∃ motors s',
    find_motors (Some ep) s = Return motors s' ∧
    hw s' = hw s ∧
    (∃ new, calls s' = calls s ++ new ∧ Forall (λ c, is_put c = false) new) ∧
    (λ d : gmap string pyval, d !! "pv") <$> motors
    = (λ i, Some (PyStr ("gp:m" +:+ str_of_nat i)))
        <$> List.filter
              (λ i, pv_readable ep ("gp:m" +:+ str_of_nat i +:+ ".DESC") 1.0
                      (hw s))
              (seq 1 20).
Proof.
  intros Hall.
  destruct (find_motors_from ep (seq 1 20) [] s Hall)
    as (found & s' & Hrun & Hrest).
  by exists found, s'.
Qed.

Lemma string_app_inv_head (p a b : string) : p +:+ a = p +:+ b → a = b.
Proof. induction p as [|c p IH]; simpl; [done|]. intros [= H]. by apply IH. Qed.

Lemma py_sleep_comes_back (secs : float) : py_sleep secs ≠ Blocked.
Proof.
  unfold py_sleep. destruct (PrimFloat.is_nan secs); [done|].
  simpl. destruct (negb _); [done|]. by destruct (PrimFloat.ltb secs 0).
Qed.

Local Ltac only_calls :=
  simpl; rewrite <- ?app_assoc; eexists; split; [reflexivity|];
  by repeat constructor.

Local Ltac not_S1 :=
  simpl; rewrite <- ?app_assoc; eexists; split; [reflexivity|];
  repeat constructor; simpl;
  let H := fresh in
  intros H; first [apply string_app_inv_head in H; discriminate H | by destruct H].

Local Ltac gave_up_early :=
  intros [= <- <-];
  split; [right; split; [done|]; split; [done|]; only_calls|];
  split; [done|]; intros _; split; [done|]; not_S1.

Local Ltac gave_up_late :=
  intros [= <- <-];
  split; [by left|]; split; [done|]; intros _; split; [done|]; not_S1.

(** X3.  [test_scaler_count] writes to the scaler only after both the
    count-time PV [.T] and the count PV [.CNT] have connected: in every
    other case it returns false, has made no [put] and the IOC is as it
    was.  When it returns true it has written the count time to [.T],
    then 1 to [.CNT], has slept for [count_time + 0.5] seconds, and has
    connected to and read [.S1] afterwards.  When [count_time + 0.5] is
    not a length that [time.sleep] accepts (negative, NaN, too large), it
    returns false and never creates, connects to or reads [.S1]. *)
Theorem scaler_count_writes_after_connecting (ep : epics HW)
    (scaler_pv : string) (count_time : float) (s : state HW) success s' :
  test_scaler_count (Some ep) scaler_pv count_time s = Return success s' →
  ((wait_for_connection ep (scaler_pv +:+ ".T") 2.0 (hw s) = Val true ∧
    wait_for_connection ep (scaler_pv +:+ ".CNT") 2.0 (hw s) = Val true) ∨
   (success = false ∧ hw s' = hw s ∧
    ∃ new, calls s' = calls s ++ new ∧ Forall (λ c, is_put c = false) new)) ∧
  (success = true →
   ∃ w1 w2 counts,
     put ep (scaler_pv +:+ ".T") (PyFloat count_time) (hw s) = Return tt w1 ∧
     put ep (scaler_pv +:+ ".CNT") (PyInt 1) w1 = Return tt w2 ∧
     py_sleep (count_time + 0.5)%float = Val tt ∧
     wait_for_connection ep (scaler_pv +:+ ".S1") 1.0 w2 = Val true ∧
     get ep (scaler_pv +:+ ".S1") w2 = Val counts ∧
     hw s' = w2) ∧
  (py_sleep (count_time + 0.5)%float ≠ Val tt →
   success = false ∧
   ∃ new, calls s' = calls s ++ new ∧
          Forall (λ c, ¬ reads_pv (scaler_pv +:+ ".S1") c) new).
Proof.
  unfold test_scaler_count, pv_put. run_calls.
  destruct (PV ep (scaler_pv +:+ ".T") (hw s)) as [[]|e|]; simpl;
    [| |done].
  2: gave_up_early.
  destruct (PV ep (scaler_pv +:+ ".CNT") (hw s)) as [[]|e|]; simpl;
    [| |done].
  2: gave_up_early.
  destruct (wait_for_connection ep (scaler_pv +:+ ".T") 2 (hw s))
    as [[]|e|]; simpl; [| | |done].
  2,3: gave_up_early.
  destruct (wait_for_connection ep (scaler_pv +:+ ".CNT") 2 (hw s))
    as [[]|e|]; simpl; [| | |done].
  2,3: gave_up_early.
  destruct (put ep (scaler_pv +:+ ".T") (PyFloat count_time) (hw s))
    as [[] w1|e w1|b w1|] eqn:Hput1; simpl; [| |done|done].
  2: gave_up_late.
  destruct (put ep (scaler_pv +:+ ".CNT") (PyInt 1) w1)
    as [[] w2|e w2|b w2|] eqn:Hput2; simpl; [| |done|done].
  2: gave_up_late.
  pose proof (py_sleep_comes_back (count_time + 0.5)%float) as Hback.
  destruct (py_sleep (count_time + 0.5)%float) as [[]|e|] eqn:Hsleep; simpl;
    [| |done].
  2: gave_up_late.
  destruct (PV ep (scaler_pv +:+ ".S1") w2) as [[]|e|]; simpl; [| |done].
  2: { intros [= <- <-]. split; [by left|]. split; done. }
  destruct (wait_for_connection ep (scaler_pv +:+ ".S1") 1 w2)
    as [[]|e|] eqn:Hs1; simpl; [| | |done].
  2,3: intros [= <- <-]; (split; [by left|]); split; done.
  destruct (get ep (scaler_pv +:+ ".S1") w2) as [counts|e|] eqn:Hget;
    simpl; [| |done].
  2: { intros [= <- <-]. split; [by left|]. split; done. }
  intros [= <- <-]. split; [by left|]. split; [|done]. intros _.
  exists w1, w2, counts. by repeat split.
Qed.

(** One pass of the loop of [analyze_device]. *)
Lemma analyze_pv_step (ep : epics HW) pv_base info suffix (s : state HW) :
  pv_answers ep (pv_base +:+ suffix) 2.0 (hw s) →
  ∃ info' s',
    analyze_pv ep pv_base info suffix s = Return info' s' ∧
    hw s' = hw s ∧
    (∃ new, calls s' = calls s ++ new ∧
            Forall (reads_pv (pv_base +:+ suffix)) new) ∧
    info_pv info' = info_pv info ∧
    info_error info' = info_error info ∧
    info_connected info'
    = info_connected info || pv_readable ep (pv_base +:+ suffix) 2.0 (hw s) ∧
    info_properties info'
    = match pv_property ep (pv_base +:+ suffix) (hw s) with
      | Some value => <[suffix := value]> (info_properties info)
      | None => info_properties info
      end.
Proof.
  intros (Hpv & Hwait & Hget). unfold answers, pv_readable, pv_property in *.
  unfold analyze_pv. run_calls.
  assert (Hstep : ∀ (s' : state HW) new,
            hw s' = hw s → calls s' = calls s ++ new →
            Forall (reads_pv (pv_base +:+ suffix)) new →
            ∀ P : Prop, P →
            hw s' = hw s ∧
            (∃ new, calls s' = calls s ++ new ∧
                    Forall (reads_pv (pv_base +:+ suffix)) new) ∧ P).
  { intros s' new ? ? ? P HP. split; [done|]. split; [|done].
    by exists new. }
  destruct (PV ep (pv_base +:+ suffix) (hw s)) as [[]|e|]; simpl; [| |done].
  2: { eexists _, _. split; [reflexivity|].
       eapply (Hstep _ [_]); simpl; [done|done|by repeat constructor|].
       by rewrite orb_false_r. }
  destruct (wait_for_connection ep (pv_base +:+ suffix) 2 (hw s))
    as [[]|e|]; simpl; [| | |done].
  2: { eexists _, _. split; [reflexivity|].
       eapply (Hstep _ [_; _]); simpl;
         [done|by rewrite <- app_assoc|by repeat constructor|].
       by rewrite orb_false_r. }
  2: { eexists _, _. split; [reflexivity|].
       eapply (Hstep _ [_; _]); simpl;
         [done|by rewrite <- app_assoc|by repeat constructor|].
       by rewrite orb_false_r. }
  destruct (get ep (pv_base +:+ suffix) (hw s)) as [value|e|]; simpl;
    [| |done].
  - eexists _, _. split; [reflexivity|].
    eapply (Hstep _ [_; _; _]); simpl;
      [done|by rewrite <- !app_assoc|by repeat constructor|].
    by rewrite orb_true_r.
  - eexists _, _. split; [reflexivity|].
    eapply (Hstep _ [_; _; _]); simpl;
      [done|by rewrite <- !app_assoc|by repeat constructor|].
    by rewrite orb_false_r.
Qed.

Lemma analyze_pvs (ep : epics HW) pv_base suffixes :
  ∀ info (s : state HW),
    Forall (λ suffix, pv_answers ep (pv_base +:+ suffix) 2.0 (hw s)) suffixes →
    ∃ info' s',
      for_each (analyze_pv ep pv_base) info suffixes s = Return info' s' ∧
      hw s' = hw s ∧
      (∃ new, calls s' = calls s ++ new ∧
              Forall (λ c, ∃ suffix, suffix ∈ suffixes ∧
                                     reads_pv (pv_base +:+ suffix) c) new) ∧
      info_pv info' = info_pv info ∧
      info_error info' = info_error info ∧
      info_connected info'
      = info_connected info ||
        existsb (λ suffix, pv_readable ep (pv_base +:+ suffix) 2.0 (hw s))
          suffixes ∧
      ∀ key,
        info_properties info' !! key
        = if decide (key ∈ suffixes)
          then match pv_property ep (pv_base +:+ key) (hw s) with
               | Some value => Some value
               | None => info_properties info !! key
               end
          else info_properties info !! key.
Proof.
  induction suffixes as [|suffix suffixes IH]; intros info s Hall.
  - exists info, s. simpl. rewrite orb_false_r. repeat split; try done.
    exists []. by rewrite app_nil_r.
  - apply Forall_cons in Hall as [Hone Hall].
    destruct (analyze_pv_step ep pv_base info suffix s Hone)
      as (info1 & s1 & Hrun & Hhw & (new1 & Hcalls1 & Hnew1) & Hpv & Herr
          & Hconn & Hprops).
    rewrite <- Hhw in Hall.
    destruct (IH info1 s1 Hall)
      as (info' & s' & Hrest & Hhw' & (new2 & Hcalls2 & Hnew2) & Hpv' & Herr'
          & Hconn' & Hprops').
    exists info', s'. split; [|split; [congruence|]].
    { cbn [for_each]. by erewrite bind_Return by exact Hrun. }
    split; [|split; [congruence|split; [congruence|split]]].
    + exists (new1 ++ new2). rewrite Hcalls2, Hcalls1, app_assoc.
      split; [done|]. apply Forall_app. split.
      * eapply Forall_impl; [exact Hnew1|]. intros c Hc. exists suffix.
        split; [set_solver|done].
      * eapply Forall_impl; [exact Hnew2|]. intros c (k & Hk & Hc).
        exists k. split; [set_solver|done].
    + rewrite Hconn', Hconn, Hhw. simpl. by rewrite orb_assoc.
    + intros key. rewrite Hprops', Hprops, Hhw.
      destruct (decide (key = suffix)) as [->|Hne].
      * rewrite (decide_True (P := suffix ∈ suffix :: suffixes)) by set_solver.
        destruct (pv_property ep (pv_base +:+ suffix) (hw s)) as [value|];
          [|by case_decide].
        rewrite lookup_insert_eq. by case_decide.
      * assert (key ∈ suffix :: suffixes ↔ key ∈ suffixes) as Hiff
          by set_solver.
        assert (∀ value,
                  (<[suffix := value]> (info_properties info)) !! key
                  = info_properties info !! key) as Hother
          by (intros; by apply lookup_insert_ne).
        destruct (pv_property ep (pv_base +:+ suffix) (hw s)) as [value|];
          rewrite ?Hother; repeat case_decide; tauto || done.
Qed.

Lemma analyze_device_result (ep : epics HW) pv_base (s : state HW) :
  Forall (λ suffix, pv_answers ep (pv_base +:+ suffix) 2.0 (hw s))
    (device_suffixes pv_base) →
  ∃ info s',
    analyze_device (Some ep) pv_base s = Return info s' ∧
    hw s' = hw s ∧
    (∃ new, calls s' = calls s ++ new ∧
            Forall (λ c, ∃ suffix, suffix ∈ device_suffixes pv_base ∧
                                   reads_pv (pv_base +:+ suffix) c) new) ∧
    info_pv info = pv_base ∧
    info_error info = None ∧
    info_connected info
    = existsb (λ suffix, pv_readable ep (pv_base +:+ suffix) 2.0 (hw s))
        (device_suffixes pv_base) ∧
    ∀ key,
      info_properties info !! key
      = if decide (key ∈ device_suffixes pv_base)
        then pv_property ep (pv_base +:+ key) (hw s)
        else None.
Proof.
  intros Hall.
  destruct (analyze_pvs ep pv_base (device_suffixes pv_base)
              {| info_pv := pv_base; info_connected := false;
                 info_properties := ∅; info_error := None |} s Hall)
    as (info & s' & Hrun & Hhw & Hcalls & Hpv & Herr & Hconn & Hprops).
  exists info, s'. split.
  { unfold analyze_device, try_except. by rewrite Hrun. }
  repeat split; try done.
  intros key. rewrite Hprops. simpl. rewrite lookup_empty.
  case_decide; [|done]. by destruct (pv_property _ _ _).
Qed.

(** X4.  With PyEPICS, [analyze_device] only creates, connects to and
    reads the PVs of the device; the IOC is as it was.  The device is
    reported as connected exactly when at least one of those PVs is
    created, connects and is read; a PV records its value when it is
    read, the text ['Connection failed'] when one of its calls raises,
    and nothing when its connection times out.  There is no ['error']
    entry. *)
Theorem analyze_device_reports (ep : epics HW) (pv_base : string)
    (s : state HW) :
  Forall (λ suffix, pv_answers ep (pv_base +:+ suffix) 2.0 (hw s))
    (device_suffixes pv_base) →
  ∃ info s',
    analyze_device (Some ep) pv_base s = Return info s' ∧
    hw s' = hw s ∧
    (∃ new, calls s' = calls s ++ new ∧
            Forall (λ c, ∃ suffix, suffix ∈ device_suffixes pv_base ∧
                                   reads_pv (pv_base +:+ suffix) c) new) ∧
    info_pv info = pv_base ∧
    info_error info = None ∧
    info_connected info
    = existsb (λ suffix, pv_readable ep (pv_base +:+ suffix) 2.0 (hw s))
        (device_suffixes pv_base) ∧
    ∀ key,
      info_properties info !! key
      = if decide (key ∈ device_suffixes pv_base)
        then pv_property ep (pv_base +:+ key) (hw s)
        else None.
Proof. apply analyze_device_result. Qed.

(** X5.  A PV name that starts with the prefix [adsim:] of the area
    detector IOC contains the letter [m], so [analyze_device] takes the
    motor branch for it: it tests the six motor fields and never the
    camera PVs, for which it records nothing. *)
Theorem area_detector_analyzed_as_motor (ep : epics HW) (rest : string)
    (s : state HW) :
  Forall (λ suffix, pv_answers ep (("adsim:" +:+ rest) +:+ suffix) 2.0 (hw s))
    [".RBV"; ".VAL"; ".DESC"; ".EGU"; ".HLM"; ".LLM"] →
  device_suffixes ("adsim:" +:+ rest)
  = [".RBV"; ".VAL"; ".DESC"; ".EGU"; ".HLM"; ".LLM"] ∧
  ∃ info s',
    analyze_device (Some ep) ("adsim:" +:+ rest) s = Return info s' ∧
    info_properties info !! "cam1:Acquire" = None ∧
    info_properties info !! "cam1:ArraySize_RBV" = None ∧
    info_properties info !! "cam1:MaxSize_RBV" = None.
Proof.
  intros Hall.
  assert (Hsuffixes : device_suffixes ("adsim:" +:+ rest)
                      = [".RBV"; ".VAL"; ".DESC"; ".EGU"; ".HLM"; ".LLM"]).
  { assert (Hnil : ∀ s, String.prefix "" s = true) by (by intros []).
    assert (Hname : "adsim:" +:+ rest
                    = String "a" (String "d" (String "s" (String "i"
                        (String "m" (String ":" rest))))))
      by reflexivity.
    unfold device_suffixes, py_in, py_startswith. rewrite Hname. simpl.
    by rewrite Hnil. }
  split; [done|].
  rewrite <- Hsuffixes in Hall.
  destruct (analyze_device_result ep ("adsim:" +:+ rest) s Hall)
    as (info & s' & Hrun & _ & _ & _ & _ & _ & Hprops).
  exists info, s'. split; [done|].
  rewrite !Hprops, Hsuffixes.
  repeat split; by rewrite decide_False by (vm_compute; set_solver).
Qed.
End explorer.

(* ================================================================== *)
(** * The checks of [validate_setup] *)

Section checks.
Import validate_setup_checks.
Context {HW : Type}.

Local Ltac run_check :=
  unfold try_except, try_except_bare, mbind, M_bind, eval, lift, raise, mret,
    M_ret; simpl.

Lemma check_package_cases (sys : system HW) missing package s :
  came_back (import_module sys package s) →
  match find_spec sys package s with
  | Val (Some _) => ∃ s', check_package sys missing package s = Return missing s'
  | Val None | Exc _ =>
      check_package sys missing package s = Return (missing ++ [package]) s
  | Blocked => check_package sys missing package s = Hang
  end.
Proof.
  intros Himport. unfold check_package. run_check.
  destruct (find_spec sys package s) as [[spec|]|e|]; simpl; try done.
  destruct (import_module sys package s) as [[] s'|e s'|b s'|]; simpl;
    [by eexists|by eexists|done|done].
Qed.

Lemma check_packages_found (sys : system HW) packages :
  (∀ package s, package ∈ packages →
     ∃ spec, find_spec sys package s = Val (Some spec)) →
  (∀ package s, came_back (import_module sys package s)) →
  ∀ missing s, ∃ s',
    for_each (check_package sys) missing packages s = Return missing s'.
Proof.
  intros Hfound Himport.
  induction packages as [|package packages IH]; intros missing s.
  - by exists s.
  - pose proof (check_package_cases sys missing package s (Himport _ _)) as H.
    destruct (Hfound package s) as [spec Hspec]; [set_solver|].
    rewrite Hspec in H. destruct H as [s1 Hrun].
    destruct IH with (missing := missing) (s := s1) as [s' Hrest].
    { intros. apply Hfound. set_solver. }
    exists s'. cbn [for_each]. by erewrite bind_Return by exact Hrun.
Qed.

Lemma check_packages_grow (sys : system HW) packages :
  (∀ package s, answers (find_spec sys package) s) →
  (∀ package s, came_back (import_module sys package s)) →
  ∀ missing s, ∃ missing' s',
    for_each (check_package sys) missing packages s = Return missing' s' ∧
    (∀ package, package ∈ missing → package ∈ missing') ∧
    (∀ package, package ∈ packages →
       (∀ s, ¬ ∃ spec, find_spec sys package s = Val (Some spec)) →
       package ∈ missing').
Proof.
  intros Hanswers Himport.
  induction packages as [|package packages IH]; intros missing s.
  - exists missing, s. split; [done|]. split; [done|]. set_solver.
  - pose proof (check_package_cases sys missing package s (Himport _ _)) as H.
    pose proof (Hanswers package s) as Hanswer. unfold answers in Hanswer.
    destruct (find_spec sys package s) as [[spec|]|e|] eqn:Hspec; [| | |done].
    + destruct H as [s1 Hrun].
      destruct (IH missing s1) as (missing' & s' & Hrest & Hmono & Hlost).
      exists missing', s'. split; [|split; [done|]].
      { cbn [for_each]. by erewrite bind_Return by exact Hrun. }
      intros q Hq Hnever. apply elem_of_cons in Hq as [->|Hq]; [|by apply Hlost].
      exfalso. apply (Hnever s). by exists spec.
    + destruct (IH (missing ++ [package]) s)
        as (missing' & s' & Hrest & Hmono & Hlost).
      exists missing', s'. split; [|split].
      { cbn [for_each]. by erewrite bind_Return by exact H. }
      * intros q Hq. apply Hmono. set_solver.
      * intros q Hq Hnever. apply elem_of_cons in Hq as [->|Hq];
          [apply Hmono; set_solver|by apply Hlost].
    + destruct (IH (missing ++ [package]) s)
        as (missing' & s' & Hrest & Hmono & Hlost).
      exists missing', s'. split; [|split].
      { cbn [for_each]. by erewrite bind_Return by exact H. }
      * intros q Hq. apply Hmono. set_solver.
      * intros q Hq Hnever. apply elem_of_cons in Hq as [->|Hq];
          [apply Hmono; set_solver|by apply Hlost].
Qed.

(** X6.  [check_python_environment] only looks at whether each of the
    four packages is found: when all are found it returns true even if
    none of them can be imported (an import error is only printed), and
    when one of them is not found, or looking for it raises, it returns
    false.  Importing a package is taken to come back: to return or to
    raise an exception derived from [Exception]. *)
Theorem python_environment_ignores_import_errors (sys : system HW) :
  (∀ package s, answers (find_spec sys package) s) →
  (∀ package s, came_back (import_module sys package s)) →
  ((∀ package s, package ∈ required_packages →
      ∃ spec, find_spec sys package s = Val (Some spec)) →
   ∀ s, ∃ s', check_python_environment sys s = Return true s') ∧
  (∀ package, package ∈ required_packages →
     (∀ s, ¬ ∃ spec, find_spec sys package s = Val (Some spec)) →
     ∀ s, ∃ s', check_python_environment sys s = Return false s').
Proof.
  intros Hanswers Himport. split.
  - intros Hfound s.
    destruct (check_packages_found sys required_packages Hfound Himport [] s)
      as [s' Hrun].
    exists s'. unfold check_python_environment.
    by erewrite bind_Return by exact Hrun.
  - intros package Hin Hnever s.
    destruct (check_packages_grow sys required_packages Hanswers Himport [] s)
      as (missing & s' & Hrun & _ & Hlost).
    exists s'. unfold check_python_environment.
    erewrite bind_Return by exact Hrun.
    specialize (Hlost package Hin Hnever).
    destruct missing; [set_solver|done].
Qed.

(** X7.  Once [check_instrument_package] has found an instrument
    package and the spec of its startup module, the configuration files
    play no role in its result: it returns true whether or not
    [iconfig.yml] and [devices.yml] exist.  When the spec has no origin,
    it does not return at all but raises the [TypeError] of [Path(None)],
    since that part of the function is outside its [try]. *)
Theorem instrument_package_ignores_config_files (sys : system HW)
    (name : string) (spec : module_spec) (s s1 : HW) :
  find_instrument sys possible_names s = Return (Some name) s1 →
  find_spec sys (name +:+ ".startup") s1 = Val (Some spec) →
  (∀ path iconfig devices,
     origin spec = Some path →
     config_exists sys path "iconfig.yml" s1 = Val iconfig →
     config_exists sys path "devices.yml" s1 = Val devices →
     check_instrument_package sys s = Return true s1) ∧
  (origin spec = None →
   ∃ e, check_instrument_package sys s = Raise e s1 ∧ exn_cls e = TypeError).
Proof.
  intros Hfind Hspec. split.
  - intros path iconfig devices Horigin Hiconfig Hdevices.
    unfold check_instrument_package.
    erewrite bind_Return by exact Hfind. run_check.
    rewrite Hspec. simpl. rewrite Horigin.
    unfold config_files. cbn [for_each]. run_check.
    rewrite Hiconfig. simpl. by rewrite Hdevices.
  - intros Horigin. eexists. split.
    + unfold check_instrument_package.
      erewrite bind_Return by exact Hfind. run_check.
      rewrite Hspec. simpl. by rewrite Horigin.
    + done.
Qed.

(** X8.  Without PyEPICS, [test_epics_connectivity] of [validate_setup]
    counts as passed, whereas [test_connectivity] of the IOC explorer
    fails; neither makes a call.  With PyEPICS it returns true exactly
    when the three test PVs are created, connect within 5 seconds and
    are read, and it only reads. *)
Theorem epics_connectivity_verdict (ep : explore_iocs.epics HW)
    (s : explore_iocs.state HW) :
  Forall (λ pv_name, pv_answers ep pv_name 5.0 (explore_iocs.hw s)) test_pvs →
  (∃ s',
     test_epics_connectivity (Some ep) s
     = Return (forallb (λ pv_name, pv_readable ep pv_name 5.0 (explore_iocs.hw s))
                 test_pvs) s' ∧
     explore_iocs.hw s' = explore_iocs.hw s ∧
     ∃ new, explore_iocs.calls s' = explore_iocs.calls s ++ new ∧
            Forall (λ c, is_put c = false) new) ∧
  test_epics_connectivity None s = Return true s ∧
  explore_iocs.test_connectivity None s = Return false s.
Proof.
  intros Hpvs. split; [|done].
  destruct (check_pvs_count ep 5.0 test_pvs 0 s Hpvs)
    as (s' & Hrun & Hhw & Hcalls).
  exists s'. split; [|done].
  unfold test_epics_connectivity.
  erewrite bind_Return by exact Hrun.
  unfold mret, M_ret. f_equal. simpl.
  by repeat destruct (pv_readable _ _ _ _).
Qed.
End checks.

(* ================================================================== *)
(** * The test functions of [test_devices], case by case *)

Section device_suites.
Import bluesky test_devices.
Context {HW : Type}.
Implicit Types (dev : device HW) (results : gmap string (gmap string pyval)).

Local Ltac run_suite :=
  unfold try_except, try_except_bare, mbind, M_bind, eval, lift, gets, mret,
    M_ret; simpl.

Lemma filter_length_permutation {A} (f : A → bool) (l l' : list A) :
  l ≡ₚ l' → length (List.filter f l) = length (List.filter f l').
Proof.
  induction 1 as [|x l l' _ IH|x y l|l l' l'' _ IH1 _ IH2]; simpl.
  - done.
  - destruct (f x); simpl; by rewrite IH.
  - by destruct (f x), (f y).
  - by rewrite IH1.
Qed.

Lemma filter_length_forallb {A} (f : A → bool) (l : list A) :
  (length (List.filter f l) ≤ length l)%nat ∧
  (length (List.filter f l) = length l ↔ forallb f l = true).
Proof.
  induction l as [|x l [IHle IH]]; simpl; [done|].
  destruct (f x); simpl.
  - split; [lia|]. rewrite <- IH. lia.
  - split; [lia|]. split; [lia|done].
Qed.

Lemma count_connected_insert results key entry :
  results !! key = None →
  count_connected (<[key := entry]> results)
  = (if py_truthy (get_connected entry) then 1 else 0) + count_connected results.
Proof.
  intros Hfresh. unfold count_connected.
  rewrite (filter_length_permutation _ _ (entry :: (map_to_list results).*2)).
  - simpl. by destruct (py_truthy (get_connected entry)).
  - by rewrite map_to_list_insert.
Qed.

Lemma error_entry_not_connected e :
  py_truthy (get_connected (error_entry e)) = false.
Proof.
  unfold get_connected, error_entry.
  rewrite lookup_insert_ne by done. rewrite lookup_insert_ne by done.
  by rewrite lookup_empty.
Qed.

Lemma probe_motor_entry results dev s :
  device_answers dev s →
  ∃ entry, probe_motor results dev s = Return (<[name dev := entry]> results) s ∧
           py_truthy (get_connected entry) = motor_passes dev s.
Proof.
  intros (Hpos & Hlim & Hcon & _). unfold answers in *.
  unfold probe_motor, motor_passes. run_suite.
  destruct (position dev s) as [p|e|]; simpl; [| |done].
  2:{ eexists. split; [done|]. apply error_entry_not_connected. }
  destruct (limits dev s) as [l|e|]; simpl; [| |done].
  2:{ eexists. split; [done|]. apply error_entry_not_connected. }
  destruct (connected dev s) as [c|e|]; simpl; [| |done].
  2:{ eexists. split; [done|]. apply error_entry_not_connected. }
  pose proof (format_f_comes_back p) as Hfmt.
  destruct (format_f p) as [text|e|]; simpl; [| |done].
  - eexists. split; [done|].
    unfold get_connected. rewrite lookup_insert_eq. simpl.
    by rewrite andb_true_r.
  - eexists. split; [done|].
    rewrite error_entry_not_connected. by rewrite andb_false_r.
Qed.

Lemma probe_detector_entry results dev s :
  device_answers dev s →
  ∃ entry, probe_detector results dev s = Return (<[name dev := entry]> results) s ∧
           py_truthy (get_connected entry) = detector_passes dev s.
Proof.
  intros (_ & _ & Hcon & _ & Hch & Hcam). unfold answers in *.
  unfold probe_detector, detector_passes. run_suite.
  destruct (connected dev s) as [c|e|]; simpl; [| |done].
  2:{ eexists. split; [done|]. apply error_entry_not_connected. }
  destruct (channels dev) as [read|].
  - specialize (Hch read eq_refl). run_suite.
    destruct (read s) as [n|e|]; simpl; [| |done].
    + eexists. split; [done|].
      unfold get_connected. rewrite lookup_insert_eq. simpl.
      by rewrite andb_true_r.
    + eexists. split; [done|].
      rewrite error_entry_not_connected. by rewrite andb_false_r.
  - assert (Hentry :
      py_truthy (get_connected (<["connected" := c]>
                                  (<["status" := status_of c]> ∅)))
      = py_truthy c && true).
    { unfold get_connected. rewrite lookup_insert_eq. simpl.
      by rewrite andb_true_r. }
    destruct (cam_array_size dev) as [read|]; [|by eexists].
    specialize (Hcam read eq_refl). run_suite.
    destruct (read s); [by eexists|by eexists|done].
Qed.

Lemma probe_baseline_entry results dev s :
  device_answers dev s →
  ∃ entry, probe_baseline results dev s = Return (<[name dev := entry]> results) s ∧
           py_truthy (get_connected entry) = baseline_passes dev s.
Proof.
  intros (_ & _ & Hcon & Hget & _). unfold answers in *.
  unfold probe_baseline, baseline_passes. run_suite.
  destruct (get dev s) as [v|e|]; simpl; [| |done].
  2:{ eexists. split; [done|]. apply error_entry_not_connected. }
  destruct (connected dev s) as [c|e|]; simpl; [| |done].
  2:{ eexists. split; [done|]. apply error_entry_not_connected. }
  eexists. split; [done|].
  unfold get_connected. by rewrite lookup_insert_eq.
Qed.

(** With pairwise distinct names, a loop of probes counts as connected
    exactly the devices that pass. *)
Lemma for_each_probe_count
    (probe : gmap string (gmap string pyval) → device HW →
             M HW (gmap string (gmap string pyval)))
    (passes : device HW → HW → bool) (devices : list (device HW)) s :
  (∀ results dev, device_answers dev s →
     ∃ entry, probe results dev s = Return (<[name dev := entry]> results) s ∧
              py_truthy (get_connected entry) = passes dev s) →
  Forall (λ dev, device_answers dev s) devices →
  NoDup (name <$> devices) →
  ∀ acc, (∀ dev, dev ∈ devices → acc !! name dev = None) →
  ∃ results,
    for_each probe acc devices s = Return results s ∧
    count_connected results
    = count_connected acc + length (List.filter (λ dev, passes dev s) devices).
Proof.
  intros Hprobe. induction 1 as [|dev devices Hdev _ IH]; intros Hnames acc Hfresh.
  - exists acc. split; [done|]. simpl. lia.
  - rewrite fmap_cons in Hnames. apply NoDup_cons in Hnames as [Hnew Hnames].
    destruct (Hprobe acc dev Hdev) as (entry & Hentry & Hpass).
    destruct (IH Hnames (<[name dev := entry]> acc)) as (results & Hrun & Hcount).
    { intros dev' Hin. rewrite lookup_insert_ne.
      - apply Hfresh. set_solver.
      - intros Heq. apply Hnew. rewrite Heq. by apply list_elem_of_fmap_2. }
    exists results. split.
    + simpl. by erewrite bind_Return by exact Hentry.
    + rewrite Hcount, count_connected_insert by (apply Hfresh; set_solver).
      rewrite Hpass. simpl. destruct (passes dev s); simpl; lia.
Qed.

Lemma count_connected_empty :
  count_connected (∅ : gmap string (gmap string pyval)) = 0.
Proof. unfold count_connected. by rewrite map_to_list_empty. Qed.

(** X9.  On an instrument that loads, whose registry can be read and
    whose devices answer and have pairwise distinct names under each
    label, [test_device_connectivity] returns true exactly when every
    motor, every detector and every baseline device passes its probe, and
    it leaves the world in the state the startup left. *)
Theorem connectivity_verdict_with_distinct_names
    (inst : instrument HW) (s s1 : HW)
    (registry : gmap string (list (device HW))) :
  exec_startup inst s = Return tt s1 →
  devices_by_label inst s1 = Val registry →
  (∀ label dev, label ∈ ["motors"; "detectors"; "baseline"] →
     dev ∈ default [] (registry !! label) → device_answers dev s1) →
  (∀ label, label ∈ ["motors"; "detectors"; "baseline"] →
     NoDup (name <$> default [] (registry !! label))) →
  test_device_connectivity inst s
  = Return (forallb (λ dev, motor_passes dev s1) (default [] (registry !! "motors")) &&
            forallb (λ dev, detector_passes dev s1)
              (default [] (registry !! "detectors")) &&
            forallb (λ dev, baseline_passes dev s1)
              (default [] (registry !! "baseline"))) s1.
Proof.
  intros Hexec Hregistry Hanswers Hnames.
  assert (Hloop : ∀ probe passes label,
    label ∈ ["motors"; "detectors"; "baseline"] →
    (∀ results dev, device_answers dev s1 →
       ∃ entry, probe results dev s1 = Return (<[name dev := entry]> results) s1 ∧
                py_truthy (get_connected entry) = passes dev s1) →
    ∃ results,
      for_each probe ∅ (default [] (registry !! label)) s1 = Return results s1 ∧
      count_connected results
      = length (List.filter (λ dev, passes dev s1) (default [] (registry !! label)))).
  { intros probe passes label Hlabel Hprobe.
    destruct (for_each_probe_count probe passes (default [] (registry !! label))
                s1 Hprobe) with (acc := (∅ : gmap string (gmap string pyval)))
      as (results & Hrun & Hcount).
    - apply Forall_forall. intros dev Hin. by eapply Hanswers.
    - by apply Hnames.
    - intros. apply lookup_empty.
    - exists results. split; [done|]. by rewrite Hcount, count_connected_empty. }
  destruct (Hloop probe_motor motor_passes "motors" ltac:(set_solver)
              (λ results dev, probe_motor_entry results dev s1))
    as (mr & Hmr & Hcm).
  destruct (Hloop probe_detector detector_passes "detectors" ltac:(set_solver)
              (λ results dev, probe_detector_entry results dev s1))
    as (dr & Hdr & Hcd).
  destruct (Hloop probe_baseline baseline_passes "baseline" ltac:(set_solver)
              (λ results dev, probe_baseline_entry results dev s1))
    as (br & Hbr & Hcb).
  assert (Hsummary : ∃ r, connectivity_summary inst s1 = Return r s1 ∧
            connected_devices r = count_connected mr + count_connected dr +
                                  count_connected br ∧
            total_devices r = length (default [] (registry !! "motors")) +
                              length (default [] (registry !! "detectors")) +
                              length (default [] (registry !! "baseline"))).
  { eexists. split; [|split].
    - unfold connectivity_summary.
      erewrite bind_Return by (by apply by_label_returns).
      erewrite bind_Return by exact Hmr.
      erewrite bind_Return by (by apply by_label_returns).
      erewrite bind_Return by exact Hdr.
      erewrite bind_Return by (by apply by_label_returns).
      erewrite bind_Return by exact Hbr.
      reflexivity.
    - done.
    - done. }
  destruct Hsummary as (r & Hr & Hconnected & Htotal).
  unfold test_device_connectivity, try_except.
  erewrite bind_Return by exact Hexec.
  erewrite bind_Return by exact Hr.
  rewrite Hconnected, Htotal, Hcm, Hcd, Hcb.
  destruct (filter_length_forallb (λ dev, motor_passes dev s1)
              (default [] (registry !! "motors"))) as [Hm1 Hm2].
  destruct (filter_length_forallb (λ dev, detector_passes dev s1)
              (default [] (registry !! "detectors"))) as [Hd1 Hd2].
  destruct (filter_length_forallb (λ dev, baseline_passes dev s1)
              (default [] (registry !! "baseline"))) as [Hb1 Hb2].
  destruct (forallb (λ dev, motor_passes dev s1) _) eqn:Em;
    destruct (forallb (λ dev, detector_passes dev s1) _) eqn:Ed;
    destruct (forallb (λ dev, baseline_passes dev s1) _) eqn:Eb; simpl;
    match goal with
    | |- context [Nat.eqb ?a ?b] =>
        destruct (Nat.eqb_spec a b) as [Heq|Hne]; [|done || (exfalso; apply Hne)]
    end;
    try done;
    try (exfalso;
         assert (Hm : length (List.filter (λ dev, motor_passes dev s1)
                                (default [] (registry !! "motors")))
                      = length (default [] (registry !! "motors"))) by lia;
         assert (Hd : length (List.filter (λ dev, detector_passes dev s1)
                                (default [] (registry !! "detectors")))
                      = length (default [] (registry !! "detectors"))) by lia;
         assert (Hb : length (List.filter (λ dev, baseline_passes dev s1)
                                (default [] (registry !! "baseline")))
                      = length (default [] (registry !! "baseline"))) by lia;
         apply Hm2 in Hm; apply Hd2 in Hd; apply Hb2 in Hb; congruence).
  rewrite (proj2 Hm2), (proj2 Hd2), (proj2 Hb2); done.
Qed.

Lemma motor_motion_returns (RE : engine HW) (test_motor : device HW) s :
  (∀ p s', came_back (RE p s')) →
  (∀ s', answers (position test_motor) s') →
  ∃ s', motor_motion RE test_motor s = Return tt s'.
Proof.
  intros Hengine Hmotor.
  assert (Hpos : ∀ s', came_back (lift (position test_motor) s')).
  { intros s'. by apply lift_comes_back. }
  assert (Hfmt : ∀ v (s' : HW), came_back (eval (format_f v) s')).
  { intros v s'. apply lift_comes_back. apply format_f_comes_back. }
  unfold motor_motion. apply handled_block_returns.
  apply (try_except_comes_back _ (λ _, tt)).
  repeat (apply bind_comes_back; [by eauto|]; intros ? ? _).
  done.
Qed.

(** X10.  [test_device_operations] reports whether the instrument loads
    and has a run engine, not whether anything moved or counted: once the
    startup has run, [RE] is a global and the registry can be read, it
    returns true whatever the engine does with the plans, even when every
    plan raises.  (The engine and the position of the first motor are
    only required to come back: to return, or to raise an exception
    derived from [Exception].) *)
Theorem operations_pass_whatever_the_plans_do
    (inst : instrument HW) (RE : engine HW) (s s1 : HW) :
  exec_startup inst s = Return tt s1 →
  globals_RE inst s1 = Some RE →
  (∀ s', ∃ registry, devices_by_label inst s' = Val registry) →
  (∀ p s', came_back (RE p s')) →
  (∀ registry test_motor s',
     devices_by_label inst s1 = Val registry →
     head (default [] (registry !! "motors")) = Some test_motor →
     answers (position test_motor) s') →
  ∃ s', test_device_operations inst s = Return true s'.
Proof.
  intros Hexec HRE Hreadable Hengine Hdev.
  unfold test_device_operations, try_except at 1.
  erewrite bind_Return by exact Hexec.
  unfold mbind at 1, M_bind at 1, gets. rewrite HRE.
  destruct (Hreadable s1) as [registry Hregistry].
  erewrite bind_Return by (by apply by_label_returns).
  assert (Hmotion : ∃ s2,
    match default [] (registry !! "motors") with
    | [] => mret tt
    | test_motor :: _ => motor_motion RE test_motor
    end s1 = Return tt s2).
  { destruct (default [] (registry !! "motors")) as [|test_motor ?] eqn:Em;
      [by exists s1|].
    apply motor_motion_returns; [done|].
    intros s'. apply (Hdev registry); [done|]. by rewrite Em. }
  destruct Hmotion as [s2 Hmotion].
  erewrite bind_Return by exact Hmotion.
  destruct (Hreadable s2) as [registry2 Hregistry2].
  erewrite bind_Return by (by apply by_label_returns).
  assert (Hcount : ∃ s3,
    match default [] (registry2 !! "detectors") with
    | [] => mret tt
    | test_detector :: _ => detector_counting RE test_detector
    end s2 = Return tt s3).
  { destruct (default [] (registry2 !! "detectors")) as [|test_detector ?];
      [by exists s2|].
    apply handled_block_returns.
    apply (try_except_comes_back _ (λ _, tt)). apply Hengine. }
  destruct Hcount as [s3 Hcount].
  exists s3. by erewrite bind_Return by exact Hcount.
Qed.

(** X11.  [test_data_collection] returns true only after the scan
    [rel_scan([test_detector], test_motor, -0.2, 0.2, 5)] on the first
    detector and the first motor has run to its end and the catalog holds
    more runs than before it; the world is then in the state the scan
    left. *)
Theorem data_collection_passes_only_with_a_new_run
    (inst : instrument HW) (s s' : HW) :
  test_data_collection inst s = Return true s' →
  ∃ s1 RE cat registry test_motor test_detector initial_runs final_runs,
    exec_startup inst s = Return tt s1 ∧
    globals_RE inst s1 = Some RE ∧
    globals_cat inst s1 = Some cat ∧
    devices_by_label inst s1 = Val registry ∧
    head (default [] (registry !! "motors")) = Some test_motor ∧
    head (default [] (registry !! "detectors")) = Some test_detector ∧
    runs cat s1 = Val initial_runs ∧
    RE (rel_scan [test_detector] test_motor (-0.2)%float 0.2%float 5) s1
    = Return tt s' ∧
    runs cat s' = Val final_runs ∧
    (initial_runs < final_runs)%nat.
Proof.
  unfold test_data_collection, by_label, discover. run_suite.
  destruct (exec_startup inst s) as [[] s1|e s1|b s1|] eqn:Hexec; simpl;
    [|done|done|done].
  destruct (globals_RE inst s1) as [RE|] eqn:HRE; simpl; [|done].
  destruct (globals_cat inst s1) as [cat|] eqn:Hcat; simpl; [|done].
  destruct (devices_by_label inst s1) as [registry|e|] eqn:Hregistry; simpl;
    [|done|done].
  rewrite ?Hregistry. simpl.
  destruct (default [] (registry !! "motors")) as [|test_motor ?] eqn:Hmotors;
    simpl; [done|].
  destruct (default [] (registry !! "detectors")) as [|test_detector ?]
    eqn:Hdetectors; simpl; [done|].
  destruct (runs cat s1) as [initial_runs|e|] eqn:Hinitial; simpl; [|done|done].
  destruct (RE _ s1) as [[] s2|e s2|b s2|] eqn:Hscan; simpl; [|done|done|done].
  destruct (runs cat s2) as [final_runs|e|] eqn:Hfinal; simpl; [|done|done].
  destruct (0 <? _)%Z eqn:Hnew; simpl; [|done].
  destruct (latest cat s2) as [latest_run|e|]; simpl; [|done|done].
  destruct (scan_id latest_run s2); simpl; [|done|done].
  destruct (data_vars latest_run s2); simpl; [|done|done].
  intros [= <-].
  exists s1, RE, cat, registry, test_motor, test_detector, initial_runs, final_runs.
  rewrite Hmotors, Hdetectors.
  repeat split; try done. apply Z.ltb_lt in Hnew. lia.
Qed.

Lemma suites_fail_without_startup (inst : instrument HW) s e s1 :
  exec_startup inst s = Raise e s1 →
  test_device_connectivity inst s = Return false s1 ∧
  test_device_operations inst s = Return false s1 ∧
  test_data_collection inst s = Return false s1.
Proof.
  intros Hexec.
  unfold test_device_connectivity, test_device_operations, test_data_collection,
    try_except.
  by rewrite !(bind_Raise _ _ _ _ _ Hexec).
Qed.

(** X12.  When the startup of the instrument raises each time it is
    executed, each of the three test functions executes it again, every
    suite is recorded as failed and [main] returns 1. *)
Theorem main_fails_when_startup_raises (inst : instrument HW) (s : HW) :
  (∀ s0, ∃ e s1, exec_startup inst s0 = Raise e s1) →
  ∃ s',
    run_tests (tests inst) s
    = Return [("Device Connectivity", false); ("Device Operations", false);
              ("Data Collection", false)] s' ∧
    main inst s = Return 1%Z s'.
Proof.
  intros Hraises.
  destruct (Hraises s) as (e1 & s1 & H1).
  destruct (Hraises s1) as (e2 & s2 & H2).
  destruct (Hraises s2) as (e3 & s3 & H3).
  apply suites_fail_without_startup in H1 as (H1 & _ & _).
  apply suites_fail_without_startup in H2 as (_ & H2 & _).
  apply suites_fail_without_startup in H3 as (_ & _ & H3).
  assert (Hrun : run_tests (tests inst) s
                 = Return [("Device Connectivity", false);
                           ("Device Operations", false);
                           ("Data Collection", false)] s3).
  { unfold run_tests, tests. cbn [for_each].
    erewrite bind_Return by (by apply run_test_returned).
    erewrite bind_Return by (by apply run_test_returned).
    erewrite bind_Return by (by apply run_test_returned).
    done. }
  exists s3. split; [done|].
  unfold main. by erewrite bind_Return by exact Hrun.
Qed.

(** X13.  The motor motion block does not move the motor back when the
    position cannot be read, or is not a number, after the move forward:
    the block still ends normally, in the state the move by [+0.1] left,
    and the move by [-0.1] is never handed to the engine. *)
Theorem motor_left_displaced_when_readback_fails
    (RE : engine HW) (test_motor : device HW) (s s1 : HW) (initial_pos : pyval) :
  position test_motor s = Val initial_pos →
  (∃ text, format_f initial_pos = Val text) →
  RE (mvr test_motor move_amount) s = Return tt s1 →
  match position test_motor s1 with
  | Val new_pos => ∃ e, format_f new_pos = Exc e
  | Exc _ => True
  | Blocked => False
  end →
  motor_motion RE test_motor s = Return tt s1.
Proof.
  intros Hinitial [text Htext] Hforward Hnew.
  unfold motor_motion. run_suite.
  rewrite Hinitial. simpl. rewrite Htext. simpl. rewrite Hforward.
  destruct (position test_motor s1) as [new_pos|e|]; simpl; [|done|done].
  destruct Hnew as [e Hnew]. by rewrite Hnew.
Qed.
End device_suites.

(* ================================================================== *)
(** * The test functions of [test_plans], case by case *)

Section plan_suites.
Import bluesky test_plans.
Context {HW : Type}.

Lemma try_finally_ends_with_cleanup {A} (body : M HW A) (f : HW → HW) s :
  match try_finally body (modify f) s with
  | Return _ s' | Raise _ s' | Leave _ s' => ∃ s2, s' = f s2
  | Hang => True
  end.
Proof.
  unfold try_finally, modify.
  destruct (body s); [by eexists|by eexists|by eexists|done].
Qed.

(** X14.  Once [test_plan_simulation] has found a motor and a detector
    and has switched [RE.simulate_mode] on, the last thing it does, on
    every path on which it comes back (plans passed, plans failed, the
    custom plans module missing, any other exception), is to set
    [RE.simulate_mode] to the value read before the switch, [False] when
    the attribute was not there. *)
Theorem simulate_mode_restored
    (inst : instrument HW) (s s1 s' : HW) (startup : startup_module HW)
    (RE : engine HW) (registry : gmap string (list (device HW))) (success : bool) :
  find_startup inst instrument_names s = Return (Some startup) s1 →
  module_RE startup = Some RE →
  devices_by_label inst s1 = Val registry →
  default [] (registry !! "motors") ≠ [] →
  default [] (registry !! "detectors") ≠ [] →
  test_plan_simulation inst s = Return success s' →
  ∃ s2, s' = set_simulate_mode inst
               (default (PyBool false) (simulate_mode inst s1)) s2.
Proof.
  intros Hfind HRE Hregistry Hmotors Hdetectors.
  unfold test_plan_simulation, try_except.
  erewrite bind_Return by exact Hfind.
  unfold getattr_RE. rewrite HRE.
  erewrite bind_Return by done.
  erewrite bind_Return by (by apply plans_by_label_returns).
  erewrite bind_Return by (by apply plans_by_label_returns).
  destruct (default [] (registry !! "motors")) as [|motor0 motors]; [done|].
  destruct (default [] (registry !! "detectors")) as [|detector0 detectors];
    [done|].
  erewrite bind_Return by done.
  erewrite bind_Return by done.
  match goal with
  | |- context [try_finally ?body (modify ?f) ?st] =>
      pose proof (try_finally_ends_with_cleanup body f st) as Hend;
      destruct (try_finally body (modify f) st) as [a t|e t|b t|]
  end.
  - intros [= _ <-]. exact Hend.
  - intros [= _ <-]. exact Hend.
  - done.
  - done.
Qed.

(** X15.  [test_plan_execution] runs no plan unless the position of the
    first motor can be read and printed and the first detector is
    connected: otherwise it returns false in the state the import of the
    startup module left.  When the devices are ready and the import of
    the custom plans module raises, whatever the exception, it returns
    false as well. *)
Theorem plan_execution_needs_ready_devices
    (inst : instrument HW) (s s1 : HW) (startup : startup_module HW)
    (RE : engine HW) (registry : gmap string (list (device HW)))
    (motor detector : device HW) (motors detectors : list (device HW)) :
  find_startup inst instrument_names s = Return (Some startup) s1 →
  module_RE startup = Some RE →
  devices_by_label inst s1 = Val registry →
  registry !! "motors" = Some (motor :: motors) →
  registry !! "detectors" = Some (detector :: detectors) →
  answers (position motor) s1 →
  answers (connected detector) s1 →
  (devices_ready motor detector s1 = false →
   test_plan_execution inst s = Return false s1) ∧
  (devices_ready motor detector s1 = true →
   ∀ e s2,
     import_custom_plans inst
       (before_dot (module_name startup) +:+ ".plans.custom_plans") s1
     = Raise e s2 →
     test_plan_execution inst s = Return false s2).
Proof.
  intros Hfind HRE Hregistry Hmotors Hdetectors Hposition Hconnected.
  unfold answers in *.
  assert (Hrespond : devices_respond motor detector s1
                     = Return (devices_ready motor detector s1) s1).
  { unfold devices_respond, devices_ready, try_except, mbind, M_bind, eval, lift,
      mret, M_ret.
    destruct (position motor s1) as [motor_pos|e|]; [| |done]; [|done].
    destruct (connected detector s1) as [detector_connected|e|]; [| |done]; [|done].
    pose proof (format_f_comes_back motor_pos) as Hfmt.
    destruct (py_truthy detector_connected); simpl; [|done].
    by destruct (format_f motor_pos). }
  assert (Hstart :
    test_plan_execution inst s
    = try_except
        (ok ← devices_respond motor detector;
         if ok : bool then
           try_except_ImportError (execute_plans inst startup RE motor detector)
             (mret false)
         else mret false)
        (λ e, mret false) s1).
  { unfold test_plan_execution, try_except.
    erewrite bind_Return by exact Hfind.
    unfold getattr_RE. rewrite HRE.
    erewrite bind_Return by done.
    erewrite bind_Return by (by apply plans_by_label_returns).
    erewrite bind_Return by (by apply plans_by_label_returns).
    by rewrite Hmotors, Hdetectors. }
  rewrite Hstart. unfold try_except.
  erewrite bind_Return by exact Hrespond.
  split.
  - by intros ->.
  - intros -> e s2 Himport.
    unfold try_except_ImportError, execute_plans.
    erewrite bind_Raise by exact Himport.
    by destruct (is_ImportError e).
Qed.
End plan_suites.

(* ================================================================== *)
(** * The tests of [validate_setup] on the instrument *)

Section setup_suites.
Import bluesky validate_setup_checks validate_setup_suites.
Context {HW : Type}.

Local Ltac run_setup :=
  unfold try_except, try_except_bare, mbind, M_bind, eval, lift, raise, mret,
    M_ret; simpl.

Lemma find_instrument_none (sys : system HW) (names : list string) s :
  Forall (λ name, find_spec sys name s = Val None ∨
                  ∃ e, find_spec sys name s = Exc e) names →
  find_instrument sys names s = Return None s.
Proof.
  induction 1 as [|name names Hname _ IH]; [done|].
  cbn [find_instrument]. run_setup.
  by destruct Hname as [->|[e ->]].
Qed.

(** X16.  When none of the names [my_beamline], [my_instrument],
    [demo_instrument] has a module spec (the lookup gives [None] or
    raises), [check_instrument_package] and the three tests on the
    instrument return false without importing anything: the world is as
    it was. *)
Theorem no_instrument_package_fails_the_instrument_checks
    (sys : system HW) (inst : instrument HW) (s : HW) :
  Forall (λ name, find_spec sys name s = Val None ∨
                  ∃ e, find_spec sys name s = Exc e) possible_names →
  check_instrument_package sys s = Return false s ∧
  test_instrument_loading sys inst s = Return false s ∧
  test_device_functionality sys inst s = Return false s ∧
  test_data_collection sys inst s = Return false s.
Proof.
  intros Hnames. pose proof (find_instrument_none sys _ s Hnames) as Hnone.
  unfold check_instrument_package, test_instrument_loading,
    test_device_functionality, test_data_collection.
  by rewrite !(bind_Return _ _ _ _ _ Hnone).
Qed.

(** X17.  The data collection test of [validate_setup] needs a detector
    only: it runs [count([detector], num=1)] and passes when the catalog
    has grown and the scan id of the latest run can be read.  The data
    collection test of [test_devices] on the same registry returns false
    when no motor is registered, without running a scan. *)
Theorem data_collection_suites_disagree_without_motors
    (sys : system HW) (inst : instrument HW)
    (devices_inst : test_devices.instrument HW)
    (instrument_name : string) (startup : startup_module HW)
    (RE : engine HW) (cat : catalog HW)
    (registry : gmap string (list (device HW)))
    (detector : device HW) (detectors : list (device HW))
    (latest_run : run HW) (initial_runs final_runs : nat)
    (s s0 s1 s2 t t1 : HW) :
  find_instrument sys possible_names s = Return (Some instrument_name) s0 →
  import_startup inst (instrument_name +:+ ".startup") s0 = Return startup s1 →
  module_RE startup = Some RE →
  module_cat startup = Some cat →
  devices_by_label inst s1 = Val registry →
  registry !! "detectors" = Some (detector :: detectors) →
  default [] (registry !! "motors") = [] →
  runs cat s1 = Val initial_runs →
  RE (count [detector] 1) s1 = Return tt s2 →
  runs cat s2 = Val final_runs →
  (initial_runs < final_runs)%nat →
  latest cat s2 = Val latest_run →
  (∃ id, scan_id latest_run s2 = Val id) →
  test_devices.exec_startup devices_inst t = Return tt t1 →
  test_devices.devices_by_label devices_inst t1 = Val registry →
  test_data_collection sys inst s = Return true s2 ∧
  test_devices.test_data_collection devices_inst t = Return false t1.
Proof.
  intros Hfind Himport HRE Hcat Hregistry Hdetectors Hmotors Hinitial Hcount
    Hfinal Hgrew Hlatest [id Hid] Hexec Hregistry'.
  split.
  - unfold test_data_collection.
    erewrite bind_Return by exact Hfind.
    unfold try_except.
    erewrite bind_Return by exact Himport.
    unfold getattr_RE, getattr_cat. rewrite HRE, Hcat.
    erewrite bind_Return by done.
    erewrite bind_Return by done.
    erewrite bind_Return by (by apply lift_Val).
    unfold by_label.
    erewrite bind_Return
      by (erewrite bind_Return by (by apply lift_Val); reflexivity).
    assert (Hfirst : default [] (registry !! "detectors") = detector :: detectors)
      by (by rewrite Hdetectors).
    rewrite Hfirst. cbv beta iota.
    erewrite bind_Return by exact Hcount.
    erewrite bind_Return by (by apply lift_Val).
    assert (Hnew : (0 <? Z.of_nat final_runs - Z.of_nat initial_runs)%Z = true)
      by (apply Z.ltb_lt; lia).
    rewrite Hnew.
    erewrite bind_Return by (by apply lift_Val).
    by erewrite bind_Return by (by apply lift_Val).
  - unfold test_devices.test_data_collection, try_except.
    erewrite bind_Return by exact Hexec.
    unfold mbind at 1, M_bind at 1, gets. unfold mbind at 1, M_bind at 1.
    destruct (test_devices.globals_RE devices_inst t1) as [RE'|]; [|done].
    destruct (test_devices.globals_cat devices_inst t1) as [cat'|]; [|done].
    erewrite bind_Return by (by apply by_label_returns).
    erewrite bind_Return by (by apply by_label_returns).
    by rewrite Hmotors.
Qed.

(** X18.  [test_device_functionality] returns true only after it has
    found the instrument package, imported its startup module, run
    [count([detector], num=1)] on the first detector to its end, and then
    read the position of the first motor; it needs a motor and a
    detector, and the world is in the state the count left. *)
Theorem device_functionality_passes_only_after_count_and_read
    (sys : system HW) (inst : instrument HW) (s s' : HW) :
  test_device_functionality sys inst s = Return true s' →
  ∃ instrument_name s0 startup s1 RE registry motor detector pos,
    find_instrument sys possible_names s = Return (Some instrument_name) s0 ∧
    import_startup inst (instrument_name +:+ ".startup") s0 = Return startup s1 ∧
    module_RE startup = Some RE ∧
    devices_by_label inst s1 = Val registry ∧
    head (default [] (registry !! "motors")) = Some motor ∧
    head (default [] (registry !! "detectors")) = Some detector ∧
    RE (count [detector] 1) s1 = Return tt s' ∧
    position motor s' = Val pos.
Proof.
  unfold test_device_functionality.
  unfold mbind at 1, M_bind at 1.
  destruct (find_instrument sys possible_names s)
    as [[instrument_name|] s0|e s0|b s0|] eqn:Hfind; [|done|done|done|done].
  unfold getattr_RE, by_label, discover. run_setup.
  destruct (import_startup inst _ s0) as [startup s1|e s1|b s1|] eqn:Himport;
    simpl; [|done|done|done].
  destruct (module_RE startup) as [RE|] eqn:HRE; simpl; [|done].
  destruct (devices_by_label inst s1) as [registry|e|] eqn:Hregistry; simpl;
    [|done|done].
  rewrite ?Hregistry. simpl.
  destruct (default [] (registry !! "motors")) as [|motor ?] eqn:Hmotors;
    simpl; [done|].
  destruct (default [] (registry !! "detectors")) as [|detector ?]
    eqn:Hdetectors; simpl; [done|].
  destruct (RE _ s1) as [[] s2|e s2|b s2|] eqn:Hcount; simpl;
    [|done|done|done].
  destruct (position motor s2) as [pos|e|] eqn:Hpos; simpl; [|done|done].
  intros [= <-].
  exists instrument_name, s0, startup, s1, RE, registry, motor, detector, pos.
  rewrite Hmotors, Hdetectors. by repeat split.
Qed.
End setup_suites.

(* ================================================================== *)
(** * The option [--test-device] of the IOC explorer *)

Section test_device_option.
Import explore_iocs.
Context {HW : Type}.

(** X19.  [main] chooses the test of [--test-device] by the letter [m]:
    for every PV name that contains an [m], also that of a scaler, it
    runs the motion test, which only creates, connects to and reads
    [<pv>.RBV], so the IOC is as it was and the scaler test is not run.
    For a name with neither an [m] nor [scaler] in it, no call is made. *)
Theorem test_device_chooses_by_the_letter_m (ep : epics HW)
    (device_pv : string) (move_relative count_time : float) (s : state HW) :
  pv_answers ep (device_pv +:+ ".RBV") 2.0 (hw s) →
  (py_in "m" device_pv = true →
   ∃ s',
     test_device (Some ep) device_pv move_relative count_time s = Return tt s' ∧
     hw s' = hw s ∧
     ∃ new, calls s' = calls s ++ new ∧
            Forall (reads_pv (device_pv +:+ ".RBV")) new) ∧
  (py_in "m" device_pv = false → py_in "scaler" device_pv = false →
   test_device (Some ep) device_pv move_relative count_time s = Return tt s).
Proof.
  intros (Hpv & Hwait & Hget). unfold answers in *. split.
  - intros Hm. unfold test_device. rewrite Hm.
    pose proof (test_device_motion_cases ep device_pv move_relative s) as Hcases.
    cbv zeta in Hcases.
    assert (Hmotion : ∃ success s',
              test_device_motion (Some ep) device_pv move_relative s
              = Return success s' ∧
              hw s' = hw s ∧
              ∃ new, calls s' = calls s ++ new ∧
                     Forall (reads_pv (device_pv +:+ ".RBV")) new).
    { destruct (PV ep (device_pv +:+ ".RBV") (hw s)) as [[]|e|]; [| |done].
      - destruct (wait_for_connection ep (device_pv +:+ ".RBV") 2 (hw s))
          as [[]|e|]; [| | |done].
        + destruct (get ep (device_pv +:+ ".RBV") (hw s)) as [v|e|]; [| |done].
          * destruct Hcases as (s' & Hrun & Hrest). by eexists _, s'.
          * destruct Hcases as (s' & Hrun & Hrest). by eexists _, s'.
        + destruct Hcases as (s' & Hrun & Hrest). by eexists _, s'.
        + destruct Hcases as (s' & Hrun & Hrest). by eexists _, s'.
      - destruct Hcases as (s' & Hrun & Hrest). by eexists _, s'. }
    destruct Hmotion as (success & s' & Hrun & Hrest).
    exists s'. split; [|done]. by erewrite bind_Return by exact Hrun.
  - intros Hm Hscaler. unfold test_device. by rewrite Hm, Hscaler.
Qed.
End test_device_option.

(* ================================================================== *)
(** * The statements above on concrete instruments and IOCs *)

Lemma test_connectivity_verdict_witness :
  let ep := examples.table_ioc in
  let s := examples.start examples.motor_ioc in
  Forall (λ pv_name,
            pv_answers ep pv_name explore_iocs.timeout (explore_iocs.hw s))
    explore_iocs.test_pvs ∧
  (∃ s',
     explore_iocs.test_connectivity (Some ep) s = Return true s' ∧
     explore_iocs.hw s' = explore_iocs.hw s ∧
     ∃ new, explore_iocs.calls s' = explore_iocs.calls s ++ new ∧
            Forall (λ c, is_put c = false) new) ∧
  explore_iocs.test_connectivity None s = Return false s.
Proof.
  intros ep s.
  assert (H : Forall (λ pv_name,
                        pv_answers ep pv_name explore_iocs.timeout
                          (explore_iocs.hw s))
                explore_iocs.test_pvs).
  { repeat constructor; vm_compute; discriminate. }
  split; [exact H|].
  exact (test_connectivity_verdict ep s H).
Defined.

Lemma find_motors_lists_readable_motors_witness :
  let ep := examples.table_ioc in
  let s := examples.start examples.demo_ioc in
  Forall (λ i, pv_answers ep ("gp:m" +:+ str_of_nat i +:+ ".DESC") 1.0
                 (explore_iocs.hw s))
    (seq 1 20) ∧
  ∃ motors s',
    explore_iocs.find_motors (Some ep) s = Return motors s' ∧
    explore_iocs.hw s' = explore_iocs.hw s ∧
    (λ d : gmap string pyval, d !! "pv") <$> motors
    = [Some (PyStr "gp:m1"); Some (PyStr "gp:m3")].
Proof.
  intros ep s.
  assert (H : Forall (λ i, pv_answers ep ("gp:m" +:+ str_of_nat i +:+ ".DESC")
                             1.0 (explore_iocs.hw s))
                (seq 1 20)).
  { apply Forall_forall. intros i _. repeat split; discriminate. }
  split; [exact H|].
  destruct (find_motors_lists_readable_motors ep s H)
    as (motors & s' & Hrun & Hhw & _ & Hpvs).
  exists motors, s'. split; [exact Hrun|]. split; [exact Hhw|].
  rewrite Hpvs. vm_compute. reflexivity.
Defined.

Lemma scaler_count_writes_after_connecting_witness :
  let ep := examples.table_ioc in
  let s := examples.start examples.scaler_ioc in
  (∃ s',
     explore_iocs.test_scaler_count (Some ep) "gp:scaler1" 1.0 s = Return true s' ∧
     ∃ w1 w2 counts,
       explore_iocs.put ep "gp:scaler1.T" (PyFloat 1.0) (explore_iocs.hw s)
       = Return tt w1 ∧
       explore_iocs.put ep "gp:scaler1.CNT" (PyInt 1) w1 = Return tt w2 ∧
       py_sleep (1.0 + 0.5)%float = Val tt ∧
       explore_iocs.wait_for_connection ep "gp:scaler1.S1" 1.0 w2 = Val true ∧
       explore_iocs.get ep "gp:scaler1.S1" w2 = Val counts ∧
       explore_iocs.hw s' = w2) ∧
  (∃ s',
     explore_iocs.test_scaler_count (Some ep) "gp:scaler1" (-1.0) s
     = Return false s' ∧
     py_sleep (-1.0 + 0.5)%float ≠ Val tt ∧
     ∃ new, explore_iocs.calls s' = explore_iocs.calls s ++ new ∧
            Forall (λ c, ¬ reads_pv "gp:scaler1.S1" c) new).
Proof.
  intros ep s. split.
  - assert (H : ∃ s', explore_iocs.test_scaler_count (Some ep) "gp:scaler1" 1.0 s
                      = Return true s').
    { eexists. vm_compute. reflexivity. }
    destruct H as [s' H]. exists s'. split; [exact H|].
    exact (proj1 (proj2 (scaler_count_writes_after_connecting ep "gp:scaler1"
                           1.0 s true s' H)) eq_refl).
  - assert (H : ∃ s', explore_iocs.test_scaler_count (Some ep) "gp:scaler1"
                        (-1.0) s = Return false s').
    { eexists. vm_compute. reflexivity. }
    assert (Hsleep : py_sleep (-1.0 + 0.5)%float ≠ Val tt).
    { vm_compute. discriminate. }
    destruct H as [s' H]. exists s'. split; [exact H|]. split; [exact Hsleep|].
    exact (proj2 (proj2 (proj2 (scaler_count_writes_after_connecting ep
                                  "gp:scaler1" (-1.0) s false s' H)) Hsleep)).
Defined.

Lemma analyze_device_reports_witness :
  let ep := examples.table_ioc in
  let s := examples.start examples.motor_ioc in
  Forall (λ suffix, pv_answers ep ("gp:m1" +:+ suffix) 2.0 (explore_iocs.hw s))
    (explore_iocs.device_suffixes "gp:m1") ∧
  ∃ info s',
    explore_iocs.analyze_device (Some ep) "gp:m1" s = Return info s' ∧
    explore_iocs.hw s' = explore_iocs.hw s ∧
    explore_iocs.info_error info = None ∧
    explore_iocs.info_connected info = true ∧
    explore_iocs.info_properties info !! ".RBV" = Some (PyFloat 2.5) ∧
    explore_iocs.info_properties info !! ".EGU" = None.
Proof.
  intros ep s.
  assert (H : Forall (λ suffix, pv_answers ep ("gp:m1" +:+ suffix) 2.0
                                  (explore_iocs.hw s))
                (explore_iocs.device_suffixes "gp:m1")).
  { apply Forall_forall. intros suffix _. repeat split; discriminate. }
  split; [exact H|].
  destruct (analyze_device_reports ep "gp:m1" s H)
    as (info & s' & Hrun & Hhw & _ & _ & Herr & Hconn & Hprops).
  exists info, s'. split; [exact Hrun|]. split; [exact Hhw|].
  split; [exact Herr|]. split; [rewrite Hconn; vm_compute; reflexivity|].
  rewrite !Hprops. split; vm_compute; reflexivity.
Defined.

Lemma area_detector_analyzed_as_motor_witness :
  let ep := examples.table_ioc in
  let s := examples.start examples.motor_ioc in
  Forall (λ suffix, pv_answers ep ("adsim:" +:+ suffix) 2.0 (explore_iocs.hw s))
    [".RBV"; ".VAL"; ".DESC"; ".EGU"; ".HLM"; ".LLM"] ∧
  explore_iocs.device_suffixes "adsim:"
  = [".RBV"; ".VAL"; ".DESC"; ".EGU"; ".HLM"; ".LLM"] ∧
  ∃ info s',
    explore_iocs.analyze_device (Some ep) "adsim:" s = Return info s' ∧
    explore_iocs.info_properties info !! "cam1:Acquire" = None ∧
    explore_iocs.info_properties info !! "cam1:ArraySize_RBV" = None ∧
    explore_iocs.info_properties info !! "cam1:MaxSize_RBV" = None.
Proof.
  intros ep s.
  assert (H : Forall (λ suffix, pv_answers ep (("adsim:" +:+ "") +:+ suffix) 2.0
                                  (explore_iocs.hw s))
                [".RBV"; ".VAL"; ".DESC"; ".EGU"; ".HLM"; ".LLM"]).
  { apply Forall_forall. intros suffix _. repeat split; discriminate. }
  split; [exact H|].
  exact (area_detector_analyzed_as_motor ep "" s H).
Defined.

Lemma python_environment_ignores_import_errors_witness :
  let damaged := examples.damaged_system in
  let incomplete := examples.incomplete_system in
  ((∀ package s, answers (validate_setup_checks.find_spec damaged package) s) ∧
   (∀ package s,
      came_back (validate_setup_checks.import_module damaged package s)) ∧
   (∀ package s, package ∈ validate_setup_checks.required_packages →
      ∃ spec, validate_setup_checks.find_spec damaged package s = Val (Some spec))) ∧
  (∃ s', validate_setup_checks.check_python_environment damaged tt
         = Return true s') ∧
  ((∀ package s, answers (validate_setup_checks.find_spec incomplete package) s) ∧
   (∀ package s,
      came_back (validate_setup_checks.import_module incomplete package s)) ∧
   "ophyd" ∈ validate_setup_checks.required_packages ∧
   (∀ s, ¬ ∃ spec, validate_setup_checks.find_spec incomplete "ophyd" s
                   = Val (Some spec))) ∧
  (∃ s', validate_setup_checks.check_python_environment incomplete tt
         = Return false s').
Proof.
  intros damaged incomplete.
  assert (H1 : ∀ package s,
            answers (validate_setup_checks.find_spec damaged package) s)
    by (intros; discriminate).
  assert (H2 : ∀ package s,
            came_back (validate_setup_checks.import_module damaged package s))
    by (intros; exact I).
  assert (H3 : ∀ package s, package ∈ validate_setup_checks.required_packages →
            ∃ spec, validate_setup_checks.find_spec damaged package s
                    = Val (Some spec))
    by (intros; eexists; reflexivity).
  assert (H4 : ∀ package s,
            answers (validate_setup_checks.find_spec incomplete package) s).
  { intros package s. unfold answers. simpl.
    destruct (String.eqb package "ophyd"); discriminate. }
  assert (H5 : ∀ package s,
            came_back (validate_setup_checks.import_module incomplete package s))
    by (intros; exact I).
  assert (H6 : "ophyd" ∈ validate_setup_checks.required_packages)
    by (unfold validate_setup_checks.required_packages; set_solver).
  assert (H7 : ∀ s, ¬ ∃ spec,
            validate_setup_checks.find_spec incomplete "ophyd" s = Val (Some spec)).
  { intros s [spec H]. discriminate H. }
  split; [by repeat split|]. split.
  - exact (proj1 (python_environment_ignores_import_errors damaged H1 H2) H3 tt).
  - split; [by repeat split|].
    exact (proj2 (python_environment_ignores_import_errors incomplete H4 H5)
             "ophyd" H6 H7 tt).
Defined.

Lemma instrument_package_ignores_config_files_witness :
  let damaged := examples.damaged_system in
  let incomplete := examples.incomplete_system in
  let found :=
    {| validate_setup_checks.origin :=
         Some "/site-packages/my_beamline/startup.py" |} in
  let bare := {| validate_setup_checks.origin := None |} in
  (validate_setup_checks.find_instrument damaged
     validate_setup_checks.possible_names tt = Return (Some "my_beamline") tt ∧
   validate_setup_checks.find_spec damaged ("my_beamline" +:+ ".startup") tt
   = Val (Some found) ∧
   validate_setup_checks.config_exists damaged
     "/site-packages/my_beamline/startup.py" "iconfig.yml" tt = Val false ∧
   validate_setup_checks.config_exists damaged
     "/site-packages/my_beamline/startup.py" "devices.yml" tt = Val false) ∧
  validate_setup_checks.check_instrument_package damaged tt = Return true tt ∧
  (validate_setup_checks.find_instrument incomplete
     validate_setup_checks.possible_names tt = Return (Some "my_beamline") tt ∧
   validate_setup_checks.find_spec incomplete ("my_beamline" +:+ ".startup") tt
   = Val (Some bare)) ∧
  ∃ e, validate_setup_checks.check_instrument_package incomplete tt = Raise e tt ∧
       exn_cls e = TypeError.
Proof.
  intros damaged incomplete found bare.
  split; [by repeat split|]. split.
  - exact (proj1 (instrument_package_ignores_config_files damaged "my_beamline"
                    found tt tt eq_refl eq_refl)
             "/site-packages/my_beamline/startup.py" false false
             eq_refl eq_refl eq_refl).
  - split; [by repeat split|].
    exact (proj2 (instrument_package_ignores_config_files incomplete "my_beamline"
                    bare tt tt eq_refl eq_refl) eq_refl).
Defined.

Lemma epics_connectivity_verdict_witness :
  let ep := examples.table_ioc in
  let s := examples.start examples.demo_ioc in
  Forall (λ pv_name, pv_answers ep pv_name 5.0 (explore_iocs.hw s))
    validate_setup_checks.test_pvs ∧
  (∃ s',
     validate_setup_checks.test_epics_connectivity (Some ep) s = Return true s' ∧
     explore_iocs.hw s' = explore_iocs.hw s ∧
     ∃ new, explore_iocs.calls s' = explore_iocs.calls s ++ new ∧
            Forall (λ c, is_put c = false) new) ∧
  validate_setup_checks.test_epics_connectivity None s = Return true s ∧
  explore_iocs.test_connectivity None s = Return false s.
Proof.
  intros ep s.
  assert (H : Forall (λ pv_name, pv_answers ep pv_name 5.0 (explore_iocs.hw s))
                validate_setup_checks.test_pvs).
  { repeat constructor; vm_compute; discriminate. }
  split; [exact H|].
  exact (epics_connectivity_verdict ep s H).
Defined.

Lemma connectivity_verdict_with_distinct_names_witness :
  let inst := examples.two_of_three_instrument in
  let registry : gmap string (list (bluesky.device nat)) :=
    <["motors" := [examples.reachable "m1"; examples.unreachable "m2";
                   examples.reachable "m3"]]> ∅ in
  (test_devices.exec_startup inst 0 = Return tt 0 ∧
   test_devices.devices_by_label inst 0 = Val registry ∧
   (∀ label dev, label ∈ ["motors"; "detectors"; "baseline"] →
      dev ∈ default [] (registry !! label) → device_answers dev 0) ∧
   (∀ label, label ∈ ["motors"; "detectors"; "baseline"] →
      NoDup (bluesky.name <$> default [] (registry !! label)))) ∧
  test_devices.test_device_connectivity inst 0 = Return false 0.
Proof.
  intros inst registry.
  assert (Hanswers : ∀ label dev, label ∈ ["motors"; "detectors"; "baseline"] →
            dev ∈ default [] (registry !! label) → device_answers dev 0).
  { intros label dev Hlabel Hdev.
    repeat (apply elem_of_cons in Hlabel as [->|Hlabel]);
      [| | |by apply elem_of_nil in Hlabel];
      vm_compute in Hdev;
      repeat (apply elem_of_cons in Hdev as [->|Hdev]);
      try (by apply elem_of_nil in Hdev);
      repeat constructor; vm_compute; discriminate. }
  assert (Hnames : ∀ label, label ∈ ["motors"; "detectors"; "baseline"] →
            NoDup (bluesky.name <$> default [] (registry !! label))).
  { intros label Hlabel.
    repeat (apply elem_of_cons in Hlabel as [->|Hlabel]);
      [| | |by apply elem_of_nil in Hlabel];
      vm_compute; repeat constructor; set_solver. }
  split; [repeat (split; [done|]); done|].
  exact (connectivity_verdict_with_distinct_names inst 0 0 registry
           eq_refl eq_refl Hanswers Hnames).
Defined.

Lemma operations_pass_whatever_the_plans_do_witness :
  let inst := examples.broken_instrument in
  (test_devices.exec_startup inst 0 = Return tt 0 ∧
   test_devices.globals_RE inst 0 = Some examples.broken_RE ∧
   (∀ s', ∃ registry, test_devices.devices_by_label inst s' = Val registry) ∧
   (∀ p s', came_back (examples.broken_RE p s')) ∧
   (∀ registry test_motor s',
      test_devices.devices_by_label inst 0 = Val registry →
      head (default [] (registry !! "motors")) = Some test_motor →
      answers (bluesky.position test_motor) s')) ∧
  ∃ s', test_devices.test_device_operations inst 0 = Return true s'.
Proof.
  intros inst.
  assert (Hreadable : ∀ s' : nat, ∃ registry,
            test_devices.devices_by_label inst s' = Val registry)
    by (intros; eexists; reflexivity).
  assert (Hengine : ∀ p s', came_back (examples.broken_RE p s'))
    by (intros; exact I).
  assert (Hdev : ∀ registry test_motor (s' : nat),
            test_devices.devices_by_label inst 0 = Val registry →
            head (default [] (registry !! "motors")) = Some test_motor →
            answers (bluesky.position test_motor) s').
  { intros registry test_motor s' Hregistry Hmotor.
    injection Hregistry as <-. vm_compute in Hmotor.
    injection Hmotor as <-. discriminate. }
  split; [repeat (split; [done|]); done|].
  exact (operations_pass_whatever_the_plans_do inst examples.broken_RE 0 0
           eq_refl eq_refl Hreadable Hengine Hdev).
Defined.

Lemma data_collection_passes_only_with_a_new_run_witness :
  let inst := examples.small_instrument in
  test_devices.test_data_collection inst 0 = Return true 1 ∧
  ∃ s1 RE cat registry test_motor test_detector initial_runs final_runs,
    test_devices.exec_startup inst 0 = Return tt s1 ∧
    test_devices.globals_RE inst s1 = Some RE ∧
    test_devices.globals_cat inst s1 = Some cat ∧
    test_devices.devices_by_label inst s1 = Val registry ∧
    head (default [] (registry !! "motors")) = Some test_motor ∧
    head (default [] (registry !! "detectors")) = Some test_detector ∧
    bluesky.runs cat s1 = Val initial_runs ∧
    RE (bluesky.rel_scan [test_detector] test_motor (-0.2)%float 0.2%float 5) s1
    = Return tt 1 ∧
    bluesky.runs cat 1 = Val final_runs ∧
    (initial_runs < final_runs)%nat.
Proof.
  intros inst.
  assert (H : test_devices.test_data_collection inst 0 = Return true 1)
    by (vm_compute; reflexivity).
  split; [exact H|].
  exact (data_collection_passes_only_with_a_new_run inst 0 1 H).
Defined.

Lemma main_fails_when_startup_raises_witness :
  let inst := examples.unloadable_instrument in
  (∀ s0, ∃ e s1, test_devices.exec_startup inst s0 = Raise e s1) ∧
  ∃ s',
    run_tests (test_devices.tests inst) 0
    = Return [("Device Connectivity", false); ("Device Operations", false);
              ("Data Collection", false)] s' ∧
    test_devices.main inst 0 = Return 1%Z s'.
Proof.
  intros inst.
  assert (H : ∀ s0, ∃ e s1, test_devices.exec_startup inst s0 = Raise e s1)
    by (intros; eexists _, _; reflexivity).
  split; [exact H|].
  exact (main_fails_when_startup_raises inst 0 H).
Defined.

Lemma motor_left_displaced_when_readback_fails_witness :
  (bluesky.position examples.flaky_motor 0 = Val (PyFloat 1.5) ∧
   (∃ text, format_f (PyFloat 1.5) = Val text) ∧
   examples.counting_RE (bluesky.mvr examples.flaky_motor test_devices.move_amount) 0
   = Return tt 1 ∧
   bluesky.position examples.flaky_motor 1
   = Exc (Exn OtherException "readback lost")) ∧
  test_devices.motor_motion examples.counting_RE examples.flaky_motor 0
  = Return tt 1.
Proof.
  assert (Htext : ∃ text, format_f (PyFloat 1.5) = Val text)
    by (eexists; vm_compute; reflexivity).
  split; [repeat (split; [done|]); done|].
  exact (motor_left_displaced_when_readback_fails examples.counting_RE
           examples.flaky_motor 0 1 (PyFloat 1.5) eq_refl Htext eq_refl I).
Defined.

Lemma simulate_mode_restored_witness :
  let inst := examples.mode_instrument in
  (test_plans.find_startup inst test_plans.instrument_names (Some (PyStr "dry"))
   = Return (Some examples.mode_startup) (Some (PyStr "dry")) ∧
   test_plans.devices_by_label inst (Some (PyStr "dry"))
   = Val examples.mode_registry ∧
   default [] (examples.mode_registry !! "motors") ≠ [] ∧
   default [] (examples.mode_registry !! "detectors") ≠ [] ∧
   test_plans.test_plan_simulation inst (Some (PyStr "dry"))
   = Return false (Some (PyStr "dry"))) ∧
  ∃ s2, Some (PyStr "dry")
        = test_plans.set_simulate_mode inst
            (default (PyBool false)
               (test_plans.simulate_mode inst (Some (PyStr "dry")))) s2.
Proof.
  intros inst.
  assert (Hmotors : default [] (examples.mode_registry !! "motors") ≠ [])
    by (vm_compute; discriminate).
  assert (Hdetectors : default [] (examples.mode_registry !! "detectors") ≠ [])
    by (vm_compute; discriminate).
  assert (Hrun : test_plans.test_plan_simulation inst (Some (PyStr "dry"))
                 = Return false (Some (PyStr "dry")))
    by (vm_compute; reflexivity).
  split; [repeat (split; [done|]); done|].
  exact (simulate_mode_restored inst (Some (PyStr "dry")) (Some (PyStr "dry"))
           (Some (PyStr "dry")) examples.mode_startup _ examples.mode_registry
           false eq_refl eq_refl eq_refl Hmotors Hdetectors Hrun).
Defined.

Lemma plan_execution_needs_ready_devices_witness :
  let disconnected := examples.disconnected_plans_instrument in
  let planless := examples.planless_instrument in
  let motor := examples.reachable "m1" in
  (test_plans.find_startup disconnected test_plans.instrument_names 0
   = Return (Some examples.plans_startup) 0 ∧
   answers (bluesky.position motor) 0 ∧
   answers (bluesky.connected (examples.unreachable "scaler1")) 0 ∧
   devices_ready motor (examples.unreachable "scaler1") 0 = false) ∧
  test_plans.test_plan_execution disconnected 0 = Return false 0 ∧
  (test_plans.find_startup planless test_plans.instrument_names 0
   = Return (Some examples.plans_startup) 0 ∧
   answers (bluesky.connected (examples.reachable "scaler1")) 0 ∧
   devices_ready motor (examples.reachable "scaler1") 0 = true ∧
   test_plans.import_custom_plans planless "my_beamline.plans.custom_plans" 0
   = Raise (Exn ImportError "No module named my_beamline.plans.custom_plans") 0) ∧
  test_plans.test_plan_execution planless 0 = Return false 0.
Proof.
  intros disconnected planless motor.
  assert (Hposition : answers (bluesky.position motor) 0) by discriminate.
  assert (Hoff : answers (bluesky.connected (examples.unreachable "scaler1")) 0)
    by discriminate.
  assert (Hon : answers (bluesky.connected (examples.reachable "scaler1")) 0)
    by discriminate.
  assert (Hnot_ready : devices_ready motor (examples.unreachable "scaler1") 0 = false)
    by (vm_compute; reflexivity).
  assert (Hready : devices_ready motor (examples.reachable "scaler1") 0 = true)
    by (vm_compute; reflexivity).
  split; [repeat (split; [done|]); done|]. split.
  - exact (proj1 (plan_execution_needs_ready_devices disconnected 0 0
                    examples.plans_startup examples.RE
                    (<["motors" := [examples.reachable "m1"]]>
                     (<["detectors" := [examples.unreachable "scaler1"]]> ∅))
                    motor (examples.unreachable "scaler1") [] []
                    eq_refl eq_refl eq_refl eq_refl eq_refl Hposition Hoff)
             Hnot_ready).
  - split; [repeat (split; [done|]); done|].
    exact (proj2 (plan_execution_needs_ready_devices planless 0 0
                    examples.plans_startup examples.RE
                    (<["motors" := [examples.reachable "m1"]]>
                     (<["detectors" := [examples.reachable "scaler1"]]> ∅))
                    motor (examples.reachable "scaler1") [] []
                    eq_refl eq_refl eq_refl eq_refl eq_refl Hposition Hon)
             Hready _ 0 eq_refl).
Defined.

Lemma no_instrument_package_fails_the_instrument_checks_witness :
  let sys := examples.empty_system in
  let inst := examples.setup_instrument_of examples.detector_only in
  Forall (λ name, validate_setup_checks.find_spec sys name 0 = Val None ∨
                  ∃ e, validate_setup_checks.find_spec sys name 0 = Exc e)
    validate_setup_checks.possible_names ∧
  validate_setup_checks.check_instrument_package sys 0 = Return false 0 ∧
  validate_setup_suites.test_instrument_loading sys inst 0 = Return false 0 ∧
  validate_setup_suites.test_device_functionality sys inst 0 = Return false 0 ∧
  validate_setup_suites.test_data_collection sys inst 0 = Return false 0.
Proof.
  intros sys inst.
  assert (H : Forall (λ name,
                        validate_setup_checks.find_spec sys name 0 = Val None ∨
                        ∃ e, validate_setup_checks.find_spec sys name 0 = Exc e)
                validate_setup_checks.possible_names).
  { constructor; [by left|]. constructor; [right; by eexists|].
    constructor; [by left|]. constructor. }
  split; [exact H|].
  exact (no_instrument_package_fails_the_instrument_checks sys inst 0 H).
Defined.

Lemma data_collection_suites_disagree_without_motors_witness :
  let sys := examples.complete_system in
  let inst := examples.setup_instrument_of examples.detector_only in
  let devices_inst := examples.instrument_of examples.detector_only in
  (validate_setup_checks.find_instrument sys validate_setup_checks.possible_names 0
   = Return (Some "my_beamline") 0 ∧
   examples.detector_only !! "detectors" = Some [examples.reachable "scaler1"] ∧
   default [] (examples.detector_only !! "motors") = [] ∧
   examples.RE (bluesky.count [examples.reachable "scaler1"] 1) 0 = Return tt 1 ∧
   bluesky.runs examples.cat 0 = Val 0 ∧
   bluesky.runs examples.cat 1 = Val 1 ∧
   test_devices.exec_startup devices_inst 0 = Return tt 0) ∧
  validate_setup_suites.test_data_collection sys inst 0 = Return true 1 ∧
  test_devices.test_data_collection devices_inst 0 = Return false 0.
Proof.
  intros sys inst devices_inst.
  assert (Hdetectors : examples.detector_only !! "detectors"
                       = Some [examples.reachable "scaler1"])
    by (vm_compute; reflexivity).
  assert (Hmotors : default [] (examples.detector_only !! "motors") = [])
    by (vm_compute; reflexivity).
  assert (Hgrew : (0 < 1)%nat) by lia.
  split; [repeat (split; [done|]); done|].
  exact (data_collection_suites_disagree_without_motors sys inst devices_inst
           "my_beamline" examples.setup_startup examples.RE examples.cat
           examples.detector_only (examples.reachable "scaler1") [] _ 0 1
           0 0 0 1 0 0
           eq_refl eq_refl eq_refl eq_refl eq_refl Hdetectors Hmotors
           eq_refl eq_refl eq_refl Hgrew eq_refl (ex_intro _ _ eq_refl)
           eq_refl eq_refl).
Defined.

Lemma device_functionality_passes_only_after_count_and_read_witness :
  let sys := examples.complete_system in
  let inst :=
    examples.setup_instrument_of
      (<["motors" := [examples.reachable "m1"]]>
       (<["detectors" := [examples.reachable "scaler1"]]> ∅)) in
  validate_setup_suites.test_device_functionality sys inst 0 = Return true 1 ∧
  ∃ instrument_name s0 startup s1 RE registry motor detector pos,
    validate_setup_checks.find_instrument sys
      validate_setup_checks.possible_names 0
    = Return (Some instrument_name) s0 ∧
    validate_setup_suites.import_startup inst (instrument_name +:+ ".startup") s0
    = Return startup s1 ∧
    validate_setup_suites.module_RE startup = Some RE ∧
    validate_setup_suites.devices_by_label inst s1 = Val registry ∧
    head (default [] (registry !! "motors")) = Some motor ∧
    head (default [] (registry !! "detectors")) = Some detector ∧
    RE (bluesky.count [detector] 1) s1 = Return tt 1 ∧
    bluesky.position motor 1 = Val pos.
Proof.
  intros sys inst.
  assert (H : validate_setup_suites.test_device_functionality sys inst 0
              = Return true 1)
    by (vm_compute; reflexivity).
  split; [exact H|].
  exact (device_functionality_passes_only_after_count_and_read sys inst 0 1 H).
Defined.

Lemma test_device_chooses_by_the_letter_m_witness :
  let ep := examples.table_ioc in
  let s := examples.start examples.scaler_ioc in
  (pv_answers ep ("sim:scaler1" +:+ ".RBV") 2.0 (explore_iocs.hw s) ∧
   py_in "m" "sim:scaler1" = true ∧
   pv_answers ep ("gp:userCalc1" +:+ ".RBV") 2.0 (explore_iocs.hw s) ∧
   py_in "m" "gp:userCalc1" = false ∧
   py_in "scaler" "gp:userCalc1" = false) ∧
  (∃ s',
     explore_iocs.test_device (Some ep) "sim:scaler1" 0.1 1.0 s = Return tt s' ∧
     explore_iocs.hw s' = explore_iocs.hw s ∧
     ∃ new, explore_iocs.calls s' = explore_iocs.calls s ++ new ∧
            Forall (reads_pv ("sim:scaler1" +:+ ".RBV")) new) ∧
  explore_iocs.test_device (Some ep) "gp:userCalc1" 0.1 1.0 s = Return tt s.
Proof.
  intros ep s.
  assert (H1 : pv_answers ep ("sim:scaler1" +:+ ".RBV") 2.0 (explore_iocs.hw s))
    by (repeat split; discriminate).
  assert (H2 : pv_answers ep ("gp:userCalc1" +:+ ".RBV") 2.0 (explore_iocs.hw s))
    by (repeat split; discriminate).
  split; [repeat (split; [done|]); done|]. split.
  - exact (proj1 (test_device_chooses_by_the_letter_m ep "sim:scaler1" 0.1 1.0 s H1)
             eq_refl).
  - exact (proj2 (test_device_chooses_by_the_letter_m ep "gp:userCalc1" 0.1 1.0 s H2)
             eq_refl eq_refl).
Defined.
